(** * BoundaryBox booking core: slot generation, pricing, conflicts, lifecycle

    A shallow embedding of the booking logic of the BoundaryBox web
    application:

    - [src/app/book/page.tsx]: [calculateDuration], [calculateCost],
      [validateTimeSelection], [generateTimeOptions], [isTimeSlotAvailable],
      [getMinDate];
    - [src/lib/settings-service.ts]: [SettingsService.validateSettings];
    - [src/app/my-bookings/page.tsx]: [canCancelBooking];
    - the booking service ([BookingService]): [createBooking],
      [checkBookingConflict], [updateBookingStatus] and its wrappers;
    - the SQL function [check_booking_conflict] of the migration script;
    - [src/app/admin/bookings/page.tsx]: the action buttons per status.

    JavaScript numbers are modelled by [Z] where the code only produces
    integers (minutes, slot lengths, millisecond timestamps) and by [Q]
    where it divides (durations in hours, prices).  Where the code
    multiplies, divides or adds numbers that need not be integers, the
    result is rounded to the nearest double ([Double.fl]).  [NaN] is
    modelled by [None].  JavaScript strings are modelled by [string]; [<]
    on strings is the code-unit lexicographic order. *)

From Stdlib Require Import ZArith QArith Qround Qabs Qpower Lqa SpecFloat.
From Stdlib Require Import String Ascii DecimalString List Bool Lia.
Import ListNotations.

Local Open Scope string_scope.
Local Open Scope Z_scope.

(** ** JavaScript string comparison *)

Module JsString.

(** [a < b] on two strings. *)
Definition lt (a b : string) : bool := String.ltb a b.
(** [a > b] is [b < a]. *)
Definition gt (a b : string) : bool := lt b a.
(** [a <= b] is [!(b < a)]. *)
Definition le (a b : string) : bool := negb (lt b a).
(** [a >= b] is [!(a < b)]. *)
Definition ge (a b : string) : bool := negb (lt a b).

End JsString.

(** ** Data model *)

(** The five values of the [status] column
    ([Database.public.Tables.bookings.Row.status]). *)
Inductive BookingStatus : Type :=
  | pending | confirmed | canceled | no_show | completed.

Definition BookingStatus_eqb (a b : BookingStatus) : bool :=
  match a, b with
  | pending, pending | confirmed, confirmed | canceled, canceled
  | no_show, no_show | completed, completed => true
  | _, _ => false
  end.

(** [SystemSettings] of [settings-service.ts].  The integer columns of the
    [system_settings] table are [Z], the [DECIMAL] ones are [Q]. *)
Record SystemSettings : Type := {
  opening_time : string;
  closing_time : string;
  is_24_7 : bool;
  advance_booking_days : Z;
  require_admin_approval : bool;
  booking_slot_duration : Z;
  min_booking_duration : Q;
  max_booking_duration : Q;
  cancellation_deadline : Z
}.

(** The fallback settings of [fetchSettings] / [getSettings]. *)
Definition defaultSettings : SystemSettings := {|
  opening_time := "06:00";
  closing_time := "22:00";
  is_24_7 := false;
  advance_booking_days := 7;
  require_admin_approval := true;
  booking_slot_duration := 30;
  min_booking_duration := 1;
  max_booking_duration := 4;
  cancellation_deadline := 2
|}.

(** A 24/7 configuration: the defaults with the toggle on. *)
Definition settings_24_7 : SystemSettings := {|
  opening_time := "06:00";
  closing_time := "22:00";
  is_24_7 := true;
  advance_booking_days := 7;
  require_admin_approval := true;
  booking_slot_duration := 30;
  min_booking_duration := 1;
  max_booking_duration := 4;
  cancellation_deadline := 2
|}.

(** [Game] of [book/page.tsx] (the fields the booking logic reads). *)
Record Game : Type := {
  game_id_of : string;
  price_per_hour : Q
}.

(** An element of the [existingBookings] state of the booking page:
    the [start_time, end_time] projection of an active booking. *)
Record Slot : Type := {
  start_time : string;
  end_time : string
}.

(** ** JavaScript values used by the booking page *)

Module Js.

(** [Number(s)] for the strings the time fields hold: a run of decimal
    digits, and the empty string (which converts to 0).  Every other
    string yields [None], standing for [NaN]; the further literals
    JavaScript accepts (signs, fractions, exponents, hexadecimal,
    surrounding blanks) do not occur in [HH:MM] values. *)
Definition digitOf (c : ascii) : option Z :=
  let n := Z.of_nat (nat_of_ascii c) in
  if (48 <=? n) && (n <=? 57) then Some (n - 48) else None.

Fixpoint NumberAcc (s : string) (acc : Z) : option Z :=
  match s with
  | EmptyString => Some acc
  | String c r =>
      match digitOf c with
      | Some d => NumberAcc r (10 * acc + d)
      | None => None
      end
  end.

Definition Number (s : string) : option Z := NumberAcc s 0.

(** [s.split(sep)] for a one-character separator. *)
Fixpoint split (sep : ascii) (s : string) : list string :=
  match s with
  | EmptyString => [EmptyString]
  | String c r =>
      if Ascii.eqb c sep then EmptyString :: split sep r
      else match split sep r with
           | h :: t => String c h :: t
           | [] => [String c EmptyString]
           end
  end.

(** [n.toString()] for an integer. *)
Definition toString (n : Z) : string :=
  NilZero.string_of_int (Z.to_int n).

Fixpoint repeat_char (c : ascii) (n : nat) : string :=
  match n with
  | O => EmptyString
  | S k => String c (repeat_char c k)
  end.

(** [s.padStart(targetLength, c)] for a one-character pad string. *)
Definition padStart (targetLength : nat) (c : ascii) (s : string) : string :=
  repeat_char c (targetLength - String.length s) ++ s.

(** [Math.round]: the nearest integer, ties towards plus infinity. *)
Definition Math_round (x : Q) : Z := Qfloor (x + (1 # 2))%Q.

(** [a < b] on numbers. *)
Definition Qltb (a b : Q) : bool := negb (Qle_bool b a).

End Js.

(** ** Double-precision arithmetic *)

(** A JavaScript number is an IEEE 754 binary64 value.  The finite ones
    are the rationals [m * 2^e] with [|m| < 2^53]; they are modelled by
    the rational itself.  Every arithmetic operation returns the double
    nearest to the exact result, a tie going to the even significand.
    The exponent is left unbounded: magnitudes of [2^1024] and more
    (where JavaScript has [Infinity]) and below [2^-1022] (where doubles
    thin out) are outside the model. *)
Module Double.

(** [2^e] for any integer [e]. *)
Definition pow2 (e : Z) : Q := Qpower 2 e.

(** The binary exponent of [x <> 0]: the [e] with [2^e <= |x| < 2^(e+1)]. *)
Definition exponent (x : Q) : Z :=
  let k := Z.log2 (Z.abs (Qnum x)) - Z.log2 (Z.pos (Qden x)) in
  if Qle_bool (pow2 k) (Qabs x) then k else k - 1.

(** The integer nearest to [x], a tie going to the even one. *)
Definition roundTiesToEven (x : Q) : Z :=
  let f := Qfloor x in
  match (x - inject_Z f ?= 1 # 2)%Q with
  | Lt => f
  | Gt => f + 1
  | Eq => if Z.even f then f else f + 1
  end.

(** The double nearest to [x]: [x] is scaled so that its integer part
    has 53 bits, rounded to an integer, and scaled back. *)
Definition fl (x : Q) : Q :=
  if Qeq_bool x 0 then 0%Q
  else
    let e := exponent x - 52 in
    (inject_Z (roundTiesToEven (x / pow2 e)) * pow2 e)%Q.

(** A number as the program receives it ([parseFloat], a JSON number): the
    double nearest to the decimal. *)
Definition ofQ (x : Q) : Q := fl x.

(** [x * y], [x / y] and [x + y] on doubles. *)
Definition mul (x y : Q) : Q := fl (x * y).
Definition div (x y : Q) : Q := fl (x / y).
Definition add (x y : Q) : Q := fl (x + y).

(** The value of a float of the Standard Library's IEEE 754
    specification; [None] for an infinity or a NaN. *)
Definition ofSpecFloat (f : spec_float) : option Q :=
  match f with
  | S754_zero _ => Some 0%Q
  | S754_finite s m e =>
      Some ((if s then -1 else 1) * inject_Z (Z.pos m) * pow2 e)%Q
  | _ => None
  end.

(** An integer as a binary64 float of that specification. *)
Definition toSpecFloat (n : Z) : spec_float :=
  binary_normalize 53 1024 n 0 false.

Definition agrees (x : Q) (f : spec_float) : bool :=
  match ofSpecFloat f with
  | Some y => Qeq_bool x y
  | None => false
  end.

End Double.

(** ** The booking page, [src/app/book/page.tsx] *)

Module BookPage.

Import JsString Js.

(** [const [h, m] = t.split(':').map(Number)] followed by [h * 60 + m];
    [None] when either component is [NaN] or missing. *)
Definition totalMinutes (t : string) : option Z :=
  match map Number (split ":"%char t) with
  | Some h :: Some m :: _ => Some (h * 60 + m)
  | _ => None
  end.

(** The template string built in the loops of [generateTimeOptions]:
    [hour = Math.floor(minutes / 60)], [minute = minutes % 60], both
    padded to two characters. *)
Definition formatTime (minutes : Z) : string :=
  let hour := minutes / 60 in
  let minute := Z.rem minutes 60 in
  padStart 2 "0"%char (toString hour) ++ ":" ++ padStart 2 "0"%char (toString minute).

Definition isEmpty (s : string) : bool :=
  match s with EmptyString => true | _ => false end.

(** [calculateDuration]; the result is in hours, [None] is [NaN]
    (every comparison with [NaN] is false, and the final quotient is
    [NaN]).  The quotient is given exactly; the double the code holds
    is its rounding, [Double.ofQ], taken where the value enters a
    product ([calculateCost]).  The comparisons with the configured
    bounds answer the same on both (lemma [duration_tests_on_doubles]). *)
Definition calculateDuration (settings : option SystemSettings)
           (startTime endTime : string) : option Q :=
  match settings with
  | None => Some 0%Q
  | Some settings =>
      if isEmpty startTime || isEmpty endTime then Some 0%Q
      else
        match totalMinutes startTime, totalMinutes endTime with
        | Some startTotalMinutes, Some endTotalMinutes0 =>
            let endTotalMinutes :=
              if is_24_7 settings && (endTotalMinutes0 <=? startTotalMinutes)
              then endTotalMinutes0 + 24 * 60
              else endTotalMinutes0 in
            if endTotalMinutes <=? startTotalMinutes then Some 0%Q
            else Some (inject_Z (endTotalMinutes - startTotalMinutes) / 60)%Q
        | _, _ => None
        end
  end.

(** [Math.round(selectedGame.price_per_hour * duration)]: both factors
    are doubles and so is their product. *)
Definition roundedProduct (price duration : Q) : Z :=
  Math_round (Double.mul (Double.ofQ price) (Double.ofQ duration)).

(** [calculateCost]: the value given to [setEstimatedCost]. *)
Definition calculateCost (selectedGame : option Game)
           (settings : option SystemSettings)
           (startTime endTime : string) : Z :=
  match selectedGame with
  | None => 0
  | Some game =>
      if isEmpty startTime || isEmpty endTime then 0
      else
        match calculateDuration settings startTime endTime with
        | Some duration =>
            if Qltb 0 duration
            then roundedProduct (price_per_hour game) duration
            else 0
        | None => 0
        end
  end.

(** The callback given to [existingBookings.some] in both
    [validateTimeSelection] and [isTimeSlotAvailable]. *)
Definition conflictsWith (startTime endTime : string) (booking : Slot) : bool :=
  (ge startTime (start_time booking) && lt startTime (end_time booking))
  || (gt endTime (start_time booking) && le endTime (end_time booking))
  || (le startTime (start_time booking) && ge endTime (end_time booking)).

(** [hasConflict] of [validateTimeSelection]. *)
Definition hasConflict (existingBookings : list Slot)
           (startTime endTime : string) : bool :=
  existsb (conflictsWith startTime endTime) existingBookings.

Definition isTimeSlotAvailable (existingBookings : list Slot)
           (startTime endTime : string) : bool :=
  negb (existsb (conflictsWith startTime endTime) existingBookings).

(** The value [validateTimeSelection] leaves in [timeError]: empty, or
    one of its three messages (the two duration messages carry the
    bound they print). *)
Inductive TimeError : Type :=
  | NoTimeError
  | MinimumDuration (hours : Q)
  | MaximumDuration (hours : Q)
  | ConflictsWithExisting.

Definition validateTimeSelection (settings : option SystemSettings)
           (existingBookings : list Slot)
           (startTime endTime : string) : TimeError :=
  match settings with
  | None => NoTimeError
  | Some s =>
      if isEmpty startTime || isEmpty endTime then NoTimeError
      else
        let duration := calculateDuration settings startTime endTime in
        if match duration with
           | Some d => Qltb d (min_booking_duration s)
           | None => false
           end
        then MinimumDuration (min_booking_duration s)
        else if match duration with
                | Some d => Qltb (max_booking_duration s) d
                | None => false
                end
        then MaximumDuration (max_booking_duration s)
        else if hasConflict existingBookings startTime endTime
        then ConflictsWithExisting
        else NoTimeError
  end.

(** The [for] loop of [generateTimeOptions]:
    [for (minutes = m; minutes < stop; minutes += slotDuration)].
    The loop is run on fuel; [None] means the fuel ran out before the
    loop test failed. *)
Fixpoint timeLoop (fuel : nat) (minutes stop slotDuration : Z)
  : option (list string) :=
  if minutes <? stop then
    match fuel with
    | O => None
    | S fuel' =>
        option_map (cons (formatTime minutes))
                   (timeLoop fuel' (minutes + slotDuration) stop slotDuration)
    end
  else Some [].

(** [generateTimeOptions].  When a bound of the regular mode is [NaN]
    the loop test is false at once and the result is empty. *)
Definition generateTimeOptions (fuel : nat) (settings : option SystemSettings)
  : option (list string) :=
  match settings with
  | None => Some []
  | Some s =>
      let slotDuration := booking_slot_duration s in
      if is_24_7 s then timeLoop fuel 0 (24 * 60) slotDuration
      else
        match totalMinutes (opening_time s), totalMinutes (closing_time s) with
        | Some startTotalMinutes, Some endTotalMinutes =>
            timeLoop fuel startTotalMinutes endTotalMinutes slotDuration
        | _, _ => Some []
        end
  end.

(** Dates.  A [Date] is its time value: milliseconds since 1970-01-01
    00:00 UTC.  The host's time zone is the pair of offsets ECMAScript
    calls [LocalTZA(t, true)] and [LocalTZA(t, false)]: the offset of
    local time from UTC in force at the instant [t], and the offset to
    take for the local time value [t]. *)
Record TimeZone : Type := {
  offsetAtInstant : Z -> Z;
  offsetAtLocal : Z -> Z
}.

Definition msPerDay : Z := 86400000.

(** [LocalTime(t)], [UTC(t)], [Day(t)] and [TimeWithinDay(t)] of
    ECMAScript. *)
Definition LocalTime (tz : TimeZone) (t : Z) : Z := t + offsetAtInstant tz t.
Definition UTC (tz : TimeZone) (t : Z) : Z := t - offsetAtLocal tz t.
Definition Day (t : Z) : Z := t / msPerDay.
Definition TimeWithinDay (t : Z) : Z := t mod msPerDay.

(** [d.toISOString().split('T')[0]] is the UTC calendar day of [d],
    represented by its day number since 1970-01-01. *)
Definition isoDate (date : Z) : Z := Day date.

(** The calendar day the local getters of [d] ([getDate], [getMonth],
    [getFullYear]) show, as a day number. *)
Definition localDate (tz : TimeZone) (date : Z) : Z := Day (LocalTime tz date).

(** [d.setDate(d.getDate() + n)]: the local time of [d] is moved to the
    civil day [n] days on ([MakeDay] carries a day of the month past the
    end of the month into the following days), its time within the day
    is kept, and the result is taken back to UTC. *)
Definition addDays (tz : TimeZone) (date n : Z) : Z :=
  let t := LocalTime tz date in
  let newDate := (Day t + n) * msPerDay + TimeWithinDay t in
  UTC tz newDate.

(** [getMinDate]; [now] is [new Date()]. *)
Definition getMinDate (tz : TimeZone) (settings : option SystemSettings)
           (now : Z) : Z :=
  let today := now in
  if match settings with Some s => is_24_7 s | None => false end
  then isoDate today
  else
    let tomorrow := addDays tz now 1 in
    isoDate tomorrow.

(** [getMaxDate]. *)
Definition getMaxDate (tz : TimeZone) (settings : option SystemSettings)
           (now : Z) : Z :=
  match settings with
  | None => isoDate now
  | Some s => isoDate (addDays tz now (advance_booking_days s))
  end.

End BookPage.

(** ** Settings validation, [src/lib/settings-service.ts] *)

Module SettingsService.

Import Js.

(** [Partial<SystemSettings>]: every field may be absent. *)
Record PartialSettings : Type := {
  p_opening_time : option string;
  p_closing_time : option string;
  p_is_24_7 : option bool;
  p_advance_booking_days : option Z;
  p_require_admin_approval : option bool;
  p_booking_slot_duration : option Z;
  p_min_booking_duration : option Q;
  p_max_booking_duration : option Q;
  p_cancellation_deadline : option Z
}.

Definition noSettings : PartialSettings := {|
  p_opening_time := None; p_closing_time := None; p_is_24_7 := None;
  p_advance_booking_days := None; p_require_admin_approval := None;
  p_booking_slot_duration := None; p_min_booking_duration := None;
  p_max_booking_duration := None; p_cancellation_deadline := None
|}.

(** Truthiness of an optional field in a condition: an absent field
    ([undefined]), the number 0, the empty string and [false] are falsy. *)
Definition truthyZ (v : option Z) : bool :=
  match v with Some z => negb (z =? 0) | None => false end.

Definition truthyQ (v : option Q) : bool :=
  match v with Some q => negb (Qeq_bool q 0) | None => false end.

Definition truthyString (v : option string) : bool :=
  match v with Some EmptyString => false | Some _ => true | None => false end.

Definition truthyBool (v : option bool) : bool :=
  match v with Some b => b | None => false end.

Definition valZ (v : option Z) : Z := match v with Some z => z | None => 0 end.
Definition valQ (v : option Q) : Q := match v with Some q => q | None => 0%Q end.
Definition valString (v : option string) : string :=
  match v with Some t => t | None => EmptyString end.

(** [new Date(`2000-01-01T${t}:00`)] as minutes after local midnight,
    for [t] in the ISO form [HH:mm] (hours 00 to 23, minutes 00 to 59,
    and 24:00); any other text is taken to give an invalid date, [None],
    whose comparisons are all false. *)
Definition dateAt (t : string) : option Z :=
  match t with
  | String a (String b (String sep (String c (String d EmptyString)))) =>
      match digitOf a, digitOf b, digitOf c, digitOf d with
      | Some a, Some b, Some c, Some d =>
          let h := 10 * a + b in
          let m := 10 * c + d in
          if Ascii.eqb sep ":"%char
             && (((h <=? 23) && (m <=? 59)) || ((h =? 24) && (m =? 0)))
          then Some (h * 60 + m) else None
      | _, _, _, _ => None
      end
  | _ => None
  end.

(** [openTime >= closeTime] on two dates. *)
Definition dateGe (a b : option Z) : bool :=
  match a, b with
  | Some x, Some y => y <=? x
  | _, _ => false
  end.

Record ValidationResult : Type := {
  isValid : bool;
  errors : list string
}.

(** [errors.push(msg)] under a condition. *)
Definition pushIf (cond : bool) (msg : string) (errors : list string)
  : list string :=
  if cond then errors ++ [msg] else errors.

Definition validateSettings (settings : PartialSettings) : ValidationResult :=
  let errors : list string := [] in
  let errors :=
    pushIf (negb (truthyBool (p_is_24_7 settings))
            && truthyString (p_opening_time settings)
            && truthyString (p_closing_time settings)
            && dateGe (dateAt (valString (p_opening_time settings)))
                      (dateAt (valString (p_closing_time settings))))
           "Opening time must be before closing time" errors in
  let errors :=
    pushIf (truthyZ (p_advance_booking_days settings)
            && ((valZ (p_advance_booking_days settings) <? 1)
                || (30 <? valZ (p_advance_booking_days settings))))
           "Advance booking days must be between 1 and 30" errors in
  let errors :=
    pushIf (truthyZ (p_booking_slot_duration settings)
            && negb (existsb (Z.eqb (valZ (p_booking_slot_duration settings)))
                             [15; 30; 60]))
           "Booking slot duration must be 15, 30, or 60 minutes" errors in
  let errors :=
    pushIf (truthyQ (p_min_booking_duration settings)
            && truthyQ (p_max_booking_duration settings)
            && Qle_bool (valQ (p_max_booking_duration settings))
                        (valQ (p_min_booking_duration settings)))
           "Minimum booking duration must be less than maximum duration"
           errors in
  let errors :=
    pushIf (truthyQ (p_min_booking_duration settings)
            && (Qltb (valQ (p_min_booking_duration settings)) (1 # 2)
                || Qltb 8 (valQ (p_min_booking_duration settings))))
           "Minimum booking duration must be between 0.5 and 8 hours"
           errors in
  let errors :=
    pushIf (truthyQ (p_max_booking_duration settings)
            && (Qltb (valQ (p_max_booking_duration settings)) 1
                || Qltb 12 (valQ (p_max_booking_duration settings))))
           "Maximum booking duration must be between 1 and 12 hours"
           errors in
  let errors :=
    pushIf (truthyZ (p_cancellation_deadline settings)
            && ((valZ (p_cancellation_deadline settings) <? 0)
                || (48 <? valZ (p_cancellation_deadline settings))))
           "Cancellation deadline must be between 0 and 48 hours" errors in
  {| isValid := (List.length errors =? 0)%nat; errors := errors |}.

End SettingsService.

(** ** The bookings table and the booking service *)

Module BookingService.

Import JsString.

(** A row of the [bookings] table (the columns the service logic
    touches; cost and timestamps are left out). *)
Record Booking : Type := {
  id : nat;
  user_id : string;
  game_id : string;
  booking_date : string;
  start_time : string;
  end_time : string;
  status : BookingStatus;
  notes : option string
}.

(** [BookingInsert]: the argument of [createBooking]. *)
Record BookingInsert : Type := {
  ins_user_id : string;
  ins_game_id : string;
  ins_booking_date : string;
  ins_start_time : string;
  ins_end_time : string;
  ins_status : option BookingStatus;
  ins_notes : option string
}.

(** The table, with the next key the store will hand out. *)
Record Db : Type := {
  bookings : list Booking;
  next_id : nat
}.

(** What a round trip to the store does: it is served, or it fails
    with an error of the store or the network. *)
Inductive Outcome : Type :=
  | Served
  | Failed (e : string).

(** The [error] a service method returns: a store error passed on, or
    an [Error] the service itself created. *)
Inductive ServiceError : Type :=
  | StoreError (e : string)
  | JsError (message : string).

(** [{ data, error: null }] or [{ data: null, error }]. *)
Inductive Response (A : Type) : Type :=
  | Data (data : A)
  | Err (error : ServiceError).
Arguments Data {A} data.
Arguments Err {A} error.

Definition isActive (s : BookingStatus) : bool :=
  match s with pending | confirmed => true | _ => false end.

(** The SQL function [check_booking_conflict].  [TIME] values of the
    zero-padded form compare as their text does. *)
Definition check_booking_conflict (db : Db)
           (p_game_id p_booking_date p_start_time p_end_time : string)
           (p_exclude_booking_id : option nat) : bool :=
  let conflict_count :=
    List.length
      (filter
         (fun b =>
            String.eqb (game_id b) p_game_id
            && String.eqb (booking_date b) p_booking_date
            && isActive (status b)
            && (lt (start_time b) p_end_time && gt (end_time b) p_start_time)
            && match p_exclude_booking_id with
               | None => true
               | Some x => negb (Nat.eqb (id b) x)
               end)
         (bookings db)) in
  (0 <? conflict_count)%nat.

(** [supabase.rpc('check_booking_conflict', ...)]. *)
Definition rpc_check_booking_conflict (o : Outcome) (db : Db)
           (gameId bookingDate startTime endTime : string)
           (excludeBookingId : option nat) : Response bool :=
  match o with
  | Served =>
      Data (check_booking_conflict db gameId bookingDate startTime endTime
                                   excludeBookingId)
  | Failed e => Err (StoreError e)
  end.

(** [checkBookingConflict]: the [catch] branch logs and returns [false]. *)
Definition checkBookingConflict (o : Outcome) (db : Db)
           (gameId bookingDate startTime endTime : string)
           (excludeBookingId : option nat) : bool :=
  match rpc_check_booking_conflict o db gameId bookingDate startTime endTime
                                   excludeBookingId with
  | Data data => data
  | Err _ => false
  end.

(** Modelled from the spec: the default of the [status] column, whose
    table definition is not among the sources; a booking is "created in
    pending" when no status is supplied. *)
Definition status_default : BookingStatus := pending.

(** [supabase.from('bookings').insert([bookingData]).select(...).single()].
    A served insert stores the row; no migration in the sources puts an
    overlap constraint on the table. *)
Definition insert_booking (o : Outcome) (db : Db) (bookingData : BookingInsert)
  : Db * Response Booking :=
  match o with
  | Served =>
      let row := {|
        id := next_id db;
        user_id := ins_user_id bookingData;
        game_id := ins_game_id bookingData;
        booking_date := ins_booking_date bookingData;
        start_time := ins_start_time bookingData;
        end_time := ins_end_time bookingData;
        status := match ins_status bookingData with
                  | Some s => s
                  | None => status_default
                  end;
        notes := ins_notes bookingData
      |} in
      ({| bookings := bookings db ++ [row]; next_id := S (next_id db) |},
       Data row)
  | Failed e => (db, Err (StoreError e))
  end.

(** [createBooking].  [o_check] and [o_insert] are the outcomes of its
    two round trips. *)
Definition createBooking (o_check o_insert : Outcome) (db : Db)
           (bookingData : BookingInsert) : Db * Response Booking :=
  let hasConflict :=
    checkBookingConflict o_check db
      (ins_game_id bookingData) (ins_booking_date bookingData)
      (ins_start_time bookingData) (ins_end_time bookingData) None in
  if hasConflict then (db, Err (JsError "Time slot is already booked"))
  else insert_booking o_insert db bookingData.

(** [supabase.from('bookings').update(updateData).eq('id', bookingId)
    .select(...).single()]: every row with that key is updated;
    [single()] answers with the row when exactly one came back and with
    an error otherwise. *)
Definition applyUpdate (s : BookingStatus) (n : option string) (b : Booking)
  : Booking :=
  {| id := id b; user_id := user_id b; game_id := game_id b;
     booking_date := booking_date b;
     start_time := start_time b; end_time := end_time b;
     status := s;
     notes := match n with Some _ => n | None => notes b end |}.

Definition update_booking (o : Outcome) (db : Db) (bookingId : nat)
           (s : BookingStatus) (n : option string) : Db * Response Booking :=
  match o with
  | Served =>
      let rows :=
        map (fun b => if Nat.eqb (id b) bookingId then applyUpdate s n b else b)
            (bookings db) in
      let db' := {| bookings := rows; next_id := next_id db |} in
      match filter (fun b => Nat.eqb (id b) bookingId) rows with
      | [row] => (db', Data row)
      | _ => (db', Err (StoreError "PGRST116"))
      end
  | Failed e => (db, Err (StoreError e))
  end.

(** [updateBookingStatus]. *)
Definition updateBookingStatus (o : Outcome) (db : Db) (bookingId : nat)
           (status : BookingStatus) (notes : option string)
  : Db * Response Booking :=
  update_booking o db bookingId status notes.

(** [notes || fallback]. *)
Definition orElse (notes : option string) (fallback : string) : option string :=
  match notes with
  | Some EmptyString | None => Some fallback
  | Some n => Some n
  end.

Definition cancelBooking o db bookingId (reason : option string) :=
  updateBookingStatus o db bookingId canceled reason.

Definition confirmBooking o db bookingId :=
  updateBookingStatus o db bookingId confirmed None.

Definition markNoShow o db bookingId (notes : option string) :=
  updateBookingStatus o db bookingId no_show
                      (orElse notes "Customer did not show up").

Definition markCompleted o db bookingId (notes : option string) :=
  updateBookingStatus o db bookingId completed
                      (orElse notes "Booking completed successfully").

Definition adminCancelBooking o db bookingId (reason : option string) :=
  updateBookingStatus o db bookingId canceled
                      (orElse reason "Cancelled by admin").

Definition findBooking (db : Db) (bookingId : nat) : option Booking :=
  find (fun b => Nat.eqb (id b) bookingId) (bookings db).

End BookingService.

(** ** Two calls of [createBooking] in flight *)

Module Concurrent.

Import BookingService.

(** Where a call of [createBooking] stands: it suspends at each of its
    two [await]s. *)
Inductive Call : Type :=
  | AwaitCheck (bookingData : BookingInsert)
  | AwaitInsert (bookingData : BookingInsert)
  | Returned (result : Response Booking).

(** The call runs up to its next [await], or to its [return]. *)
Definition advance (o : Outcome) (db : Db) (c : Call) : Db * Call :=
  match c with
  | AwaitCheck bookingData =>
      if checkBookingConflict o db
           (ins_game_id bookingData) (ins_booking_date bookingData)
           (ins_start_time bookingData) (ins_end_time bookingData) None
      then (db, Returned (Err (JsError "Time slot is already booked")))
      else (db, AwaitInsert bookingData)
  | AwaitInsert bookingData =>
      let (db', r) := insert_booking o db bookingData in (db', Returned r)
  | Returned r => (db, Returned r)
  end.

Inductive Pick : Type := First | Second.

Record State : Type := {
  store : Db;
  call1 : Call;
  call2 : Call
}.

(** The store serves one round trip of one of the two calls. *)
Definition step (p : Pick) (o : Outcome) (st : State) : State :=
  match p with
  | First =>
      let (db', c) := advance o (store st) (call1 st) in
      {| store := db'; call1 := c; call2 := call2 st |}
  | Second =>
      let (db', c) := advance o (store st) (call2 st) in
      {| store := db'; call1 := call1 st; call2 := c |}
  end.

Fixpoint run (schedule : list (Pick * Outcome)) (st : State) : State :=
  match schedule with
  | [] => st
  | (p, o) :: rest => run rest (step p o st)
  end.

Definition start (db : Db) (r1 r2 : BookingInsert) : State :=
  {| store := db; call1 := AwaitCheck r1; call2 := AwaitCheck r2 |}.


End Concurrent.

(** ** The user's bookings page, [src/app/my-bookings/page.tsx] *)

Module MyBookingsPage.

Import BookingService Js.

Section WithDate.

(** [new Date(text).getTime()], the host's date parser: the timestamp
    in milliseconds, or [None] for an invalid date. *)
Variable Date_getTime : string -> option Z.

(** [canCancelBooking]; [now] is [new Date().getTime()]. *)
Definition canCancelBooking (booking : Booking) (now : Z) : bool :=
  let bookingDateTime :=
    Date_getTime (booking_date booking ++ "T" ++ start_time booking) in
  let hoursDifference :=
    option_map
      (fun t => (inject_Z (t - now) / inject_Z (1000 * 60 * 60))%Q)
      bookingDateTime in
  BookingStatus_eqb (status booking) pending
  || (BookingStatus_eqb (status booking) confirmed
      && match hoursDifference with
         | Some h => Qltb 2 h
         | None => false
         end).

End WithDate.

End MyBookingsPage.

(** ** The admin's bookings page, [src/app/admin/bookings/page.tsx] *)

Module AdminBookingsPage.

Import BookingService.

(** The buttons of a booking card. *)
Inductive Action : Type :=
  | Approve | Reject | MarkCompleted | MarkNoShow | Cancel.

(** Which buttons the card shows, by the booking's status. *)
Definition actions (s : BookingStatus) : list Action :=
  match s with
  | pending => [Approve; Reject]
  | confirmed => [MarkCompleted; MarkNoShow; Cancel]
  | canceled | no_show | completed => []
  end.

(** The handlers: [handleApproveBooking], [handleRejectBooking],
    [handleMarkCompleted], [handleMarkNoShow], [handleAdminCancel]. *)
Definition handle (a : Action) (o : Outcome) (db : Db) (bookingId : nat)
  : Db * Response Booking :=
  match a with
  | Approve => confirmBooking o db bookingId
  | Reject => cancelBooking o db bookingId (Some "Rejected by admin")
  | MarkCompleted => markCompleted o db bookingId None
  | MarkNoShow => markNoShow o db bookingId None
  | Cancel => adminCancelBooking o db bookingId None
  end.

(** The status a button asks for. *)
Definition target (a : Action) : BookingStatus :=
  match a with
  | Approve => confirmed
  | Reject => canceled
  | MarkCompleted => completed
  | MarkNoShow => no_show
  | Cancel => canceled
  end.

End AdminBookingsPage.

(** ** The rules the specification states, for comparison with the code *)

Module Spec.

Import JsString.

(** Section 4.3: two intervals overlap iff [s1 < e2 AND s2 < e1]. *)
Definition overlaps (s1 e1 : string) (b : Slot) : bool :=
  lt s1 (end_time b) && lt (start_time b) e1.

(** Section 4.5: the transitions an admin may trigger. *)
Definition admin_transition (from to : BookingStatus) : bool :=
  match from, to with
  | pending, confirmed | pending, canceled
  | confirmed, completed | confirmed, no_show | confirmed, canceled => true
  | _, _ => false
  end.

(** Section 4.5: the user may cancel a pending booking, and a confirmed
    one while more than [deadline] hours remain before its start;
    [remaining] is the time to the start in milliseconds. *)
Definition user_may_cancel (deadline : Z) (s : BookingStatus)
           (remaining : Z) : bool :=
  match s with
  | pending => true
  | confirmed => deadline * 3600000 <? remaining
  | _ => false
  end.

(** The times a slot generator should produce: [n] times from [first],
    [slot] minutes apart. *)
Fixpoint slotTimes (n : nat) (first slot : Z) : list Z :=
  match n with
  | O => []
  | S k => first :: slotTimes k (first + slot) slot
  end.

(** How many such times lie below [stop]: the quotient of the window
    by the slot, rounded up. *)
Definition slotCount (first stop slot : Z) : nat :=
  Z.to_nat ((stop - first + slot - 1) / slot).

(** A minute of the day survives formatting and parsing, and its text
    is not empty. *)
Definition roundTrips (m : Z) : bool :=
  negb (BookPage.isEmpty (BookPage.formatTime m))
  && match BookPage.totalMinutes (BookPage.formatTime m) with
     | Some m' => m' =? m
     | None => false
     end.

End Spec.

(** ** Example values *)

Module Examples.

Import SettingsService BookingService.

(** Settings that supply only a minimum duration of 0 hours. *)
Definition zeroMinimum : PartialSettings := {|
  p_opening_time := None; p_closing_time := None; p_is_24_7 := None;
  p_advance_booking_days := None; p_require_admin_approval := None;
  p_booking_slot_duration := None;
  p_min_booking_duration := Some 0%Q;
  p_max_booking_duration := None; p_cancellation_deadline := None
|}.

(** Settings with 0 for every numeric field that has a lower bound
    above 0. *)
Definition allZero : PartialSettings := {|
  p_opening_time := Some "06:00"; p_closing_time := Some "22:00";
  p_is_24_7 := Some false;
  p_advance_booking_days := Some 0; p_require_admin_approval := Some true;
  p_booking_slot_duration := Some 0;
  p_min_booking_duration := Some 0%Q;
  p_max_booking_duration := Some 0%Q; p_cancellation_deadline := Some 2
|}.

(** Settings that break every rule with non-zero values. *)
Definition allWrong : PartialSettings := {|
  p_opening_time := Some "22:00"; p_closing_time := Some "06:00";
  p_is_24_7 := Some false;
  p_advance_booking_days := Some 31; p_require_admin_approval := Some true;
  p_booking_slot_duration := Some 20;
  p_min_booking_duration := Some 13%Q;
  p_max_booking_duration := Some 13%Q; p_cancellation_deadline := Some 49
|}.

(** The defaults with a cancellation deadline of 24 hours. *)
Definition deadline24 : SystemSettings := {|
  opening_time := "06:00";
  closing_time := "22:00";
  is_24_7 := false;
  advance_booking_days := 7;
  require_admin_approval := true;
  booking_slot_duration := 30;
  min_booking_duration := 1;
  max_booking_duration := 4;
  cancellation_deadline := 24
|}.

(** A booking of the cricket pitch on 2025-03-01, 10:00 to 12:00. *)
Definition booking (i : nat) (s : BookingStatus) : Booking := {|
  id := i; user_id := "u1"; game_id := "cricket";
  booking_date := "2025-03-01";
  start_time := "10:00"; end_time := "12:00";
  status := s; notes := None
|}.

(** A confirmed booking of the pitch that runs past midnight, 23:00 to
    05:00. *)
Definition overnightBooking : Booking := {|
  id := 0; user_id := "u1"; game_id := "cricket";
  booking_date := "2025-03-01";
  start_time := "23:00"; end_time := "05:00";
  status := confirmed; notes := None
|}.

(** A request for the same pitch and day, 10:30 to 11:30. *)
Definition request : BookingInsert := {|
  ins_user_id := "u2"; ins_game_id := "cricket";
  ins_booking_date := "2025-03-01";
  ins_start_time := "10:30"; ins_end_time := "11:30";
  ins_status := None; ins_notes := None
|}.

Definition emptyDb : Db := {| bookings := []; next_id := 0 |}.

Definition oneBooking (s : BookingStatus) : Db :=
  {| bookings := [booking 0 s]; next_id := 1 |}.

(** A date parser under which every booking starts at millisecond
    [t]. *)
Definition startsAt (t : Z) : string -> option Z := fun _ => Some t.

(** A time zone without clock changes, [offset] milliseconds ahead of
    UTC. *)
Definition fixedZone (offset : Z) : BookPage.TimeZone := {|
  BookPage.offsetAtInstant := fun _ => offset;
  BookPage.offsetAtLocal := fun _ => offset
|}.

(** Indian Standard Time, UTC+05:30. *)
Definition Kolkata : BookPage.TimeZone := fixedZone 19800000.

(** New York around its clock change of 2025-03-09: five hours behind
    UTC until 07:00 UTC of that day, four hours behind from then on; the
    local times from 02:00 to 03:00 of that day, which the clocks skip,
    take the offset in force before the change. *)
Definition NewYork : BookPage.TimeZone := {|
  BookPage.offsetAtInstant :=
    fun t => if t <? 1741503600000 then -18000000 else -14400000;
  BookPage.offsetAtLocal :=
    fun t => if t <? 1741489200000 then -18000000 else -14400000
|}.

End Examples.

(** ** The rest of the booking form, [src/app/book/page.tsx] *)

Module BookPageForm.

Import JsString Js BookPage.

(** A number that is an integer, as an integer; [None] otherwise. *)
Definition wholeNumber (q : Q) : option Z :=
  let r := Qred q in
  if Z.pos (Qden r) =? 1 then Some (Qnum r) else None.

(** [addHoursToTime].  [hour * 60 + minute + (hours * 60)] is formed in
    doubles.  The model covers a parsable [timeString] and a sum that is
    a whole number of minutes; it answers [None] outside of that, where
    the page prints [NaN] or a minute with a fraction (for 4.1 hours the
    product is 245.99999999999997). *)
Definition addHoursToTime (timeString : string) (hours : Q) : option string :=
  match totalMinutes timeString with
  | Some hourMinute =>
      match wholeNumber
              (Double.add (inject_Z hourMinute)
                          (Double.mul (Double.ofQ hours) 60)) with
      | Some totalMinutes =>
          let newHour := Qfloor (Double.div (inject_Z totalMinutes) 60) in
          let newMinute := Z.rem totalMinutes 60 in
          let newHour := Z.rem newHour 24 in
          Some (padStart 2 "0"%char (toString newHour) ++ ":"
                ++ padStart 2 "0"%char (toString newMinute))
      | None => None
      end
  | None => None
  end.

(** [allTimes.filter(pred)] for a predicate that may fall outside the
    model. *)
Fixpoint filterOpt (pred : string -> option bool) (l : list string)
  : option (list string) :=
  match l with
  | [] => Some []
  | x :: r =>
      match pred x, filterOpt pred r with
      | Some true, Some r' => Some (x :: r')
      | Some false, Some r' => Some r'
      | _, _ => None
      end
  end.

(** [getAvailableStartTimes]. *)
Definition getAvailableStartTimes (fuel : nat) (settings : option SystemSettings)
           (existingBookings : list Slot) : option (list string) :=
  match settings with
  | None => Some []
  | Some s =>
      match generateTimeOptions fuel settings with
      | Some allTimes =>
          filterOpt
            (fun time =>
               option_map
                 (fun minDurationLater =>
                    isTimeSlotAvailable existingBookings time minDurationLater)
                 (addHoursToTime time (min_booking_duration s)))
            allTimes
      | None => None
      end
  end.

(** [a >= b] and [a <= b] on numbers. *)
Definition Qgeb (a b : Q) : bool := Qle_bool b a.
Definition Qleb (a b : Q) : bool := Qle_bool a b.

(** The callback that filters the options of the end-time select. *)
Definition endTimeAllowed (settings : option SystemSettings)
           (startTime time : string) : bool :=
  match settings with
  | None => false
  | Some s =>
      if isEmpty startTime then false
      else
        match calculateDuration settings startTime time with
        | Some duration =>
            Qgeb duration (min_booking_duration s)
            && Qleb duration (max_booking_duration s)
        | None => false
        end
  end.

(** The options of the end-time select:
    [generateTimeOptions().filter(...)]. *)
Definition endTimeOptions (fuel : nat) (settings : option SystemSettings)
           (startTime : string) : option (list string) :=
  option_map (filter (endTimeAllowed settings startTime))
             (generateTimeOptions fuel settings).

(** [fetchExistingBookings]: the new value of the [existingBookings]
    state; [previous] is kept when the game or the date is not chosen,
    and a failed read leaves the empty list. *)
Definition fetchExistingBookings (previous : list Slot)
           (o : BookingService.Outcome) (db : BookingService.Db)
           (gameId bookingDate : string) : list Slot :=
  if isEmpty gameId || isEmpty bookingDate then previous
  else
    match o with
    | BookingService.Served =>
        map (fun b => {| start_time := BookingService.start_time b;
                         end_time := BookingService.end_time b |})
            (filter (fun b =>
                       String.eqb (BookingService.game_id b) gameId
                       && String.eqb (BookingService.booking_date b) bookingDate
                       && BookingService.isActive (BookingService.status b))
                    (BookingService.bookings db))
    | BookingService.Failed _ => []
    end.

End BookPageForm.

(** ** Checks that are run over the minutes of a day *)

Module Checks.

Import JsString Js BookPage.

(** The text of minute [m] is below the text of the next minute. *)
Definition stepsUp (m : Z) : bool :=
  lt (formatTime m) (formatTime (m + 1)).

(** The text of minute [m], followed by a colon and more text, still
    parses to [m]. *)
Definition tailIgnored (rest : string) (m : Z) : bool :=
  match totalMinutes (formatTime m ++ ":" ++ rest) with
  | Some m' => m' =? m
  | None => false
  end.

Definition minutesOfDay : list Z := map Z.of_nat (seq 0 1441).


End Checks.

(** ** Submitting the booking form, [src/app/book/page.tsx] *)

Module BookPageSubmit.

Import Js BookPage BookingService.

(** The [formData] state. *)
Record FormData : Type := {
  gameId : string;
  bookingDate : string;
  startTime : string;
  endTime : string;
  formNotes : string
}.

(** The toast [handleSubmit] shows: an error with its description (the
    time error is shown as it stands), or the success message. *)
Inductive Toast : Type :=
  | ToastError (description : string)
  | ToastTimeError (timeError : TimeError)
  | ToastSuccess.

(** [error.message]. *)
Definition message (e : ServiceError) : string :=
  match e with
  | StoreError m => m
  | JsError m => m
  end.

(** [handleSubmit]; [user] is the signed-in user's id, [timeError] the
    state left by [validateTimeSelection]. *)
Definition handleSubmit (user : option string) (formData : FormData)
           (timeError : TimeError) (o_check o_insert : Outcome) (db : Db)
  : Db * Toast :=
  match user with
  | None => (db, ToastError "You must be logged in to make a booking")
  | Some userId =>
      if isEmpty (gameId formData) || isEmpty (bookingDate formData)
         || isEmpty (startTime formData) || isEmpty (endTime formData)
      then (db, ToastError "Please fill in all required fields")
      else
        match timeError with
        | NoTimeError =>
            let (db', result) :=
              createBooking o_check o_insert db
                {| ins_user_id := userId;
                   ins_game_id := gameId formData;
                   ins_booking_date := bookingDate formData;
                   ins_start_time := startTime formData;
                   ins_end_time := endTime formData;
                   ins_status := None;
                   ins_notes := if isEmpty (formNotes formData) then None
                                else Some (formNotes formData) |} in
            match result with
            | Err error =>
                (db', ToastError (if isEmpty (message error)
                                  then "Failed to create booking"
                                  else message error))
            | Data _ => (db', ToastSuccess)
            end
        | _ => (db, ToastTimeError timeError)
        end
  end.

End BookPageSubmit.

(** ** Conditions on the bookings table *)

Module Table.

Import JsString BookingService.

(** Two rows clash: both active, same game and date, and their
    intervals overlap by [s1 < e2 AND s2 < e1]. *)
Definition clash (a b : Booking) : bool :=
  String.eqb (game_id a) (game_id b)
  && String.eqb (booking_date a) (booking_date b)
  && isActive (status a) && isActive (status b)
  && lt (start_time a) (end_time b) && lt (start_time b) (end_time a).

(** No two rows of the list clash. *)
Fixpoint clashFree (rows : list Booking) : bool :=
  match rows with
  | [] => true
  | a :: r => forallb (fun b => negb (clash a b)) r && clashFree r
  end.

End Table.

(** ** The read queries of the booking service *)

Module Queries.

Import JsString BookingService.

(** [ORDER BY]: the rows ordered by a comparison (an insertion sort;
    rows with equal keys keep an order the store is free to choose). *)
Fixpoint insertBy {A : Type} (leb : A -> A -> bool) (x : A) (l : list A)
  : list A :=
  match l with
  | [] => [x]
  | y :: r => if leb x y then x :: y :: r else y :: insertBy leb x r
  end.

Fixpoint orderBy {A : Type} (leb : A -> A -> bool) (l : list A) : list A :=
  match l with
  | [] => []
  | x :: r => insertBy leb x (orderBy leb r)
  end.









End Queries.

(** ** The slot list of the game service, [src/lib/game-service.ts] *)

Module GameService.

Import JsString Js BookingService.

Record TimeSlot : Type := {
  slot_start : string;
  slot_end : string;
  slot_duration : Q
}.

(** The template string of [generateTimeSlots]. *)
Definition hhmm (hour minute : Z) : string :=
  padStart 2 "0"%char (toString hour) ++ ":"
  ++ padStart 2 "0"%char (toString minute).

(** The innermost loop,
    [for (duration = 1; duration <= 4; duration += 0.5)], over the
    durations counted in half hours (2 to 8); it stops at the first end
    hour above 22. *)
Fixpoint durationLoop (halfHours : list Z) (hour minute : Z)
         (startTime : string) : list TimeSlot :=
  match halfHours with
  | [] => []
  | h :: rest =>
      let endHour := hour + h / 2 in
      let endMinute := minute + Z.rem h 2 * 30 in
      let finalEndHour := if 60 <=? endMinute then endHour + 1 else endHour in
      let finalEndMinute :=
        if 60 <=? endMinute then endMinute - 60 else endMinute in
      if 22 <? finalEndHour then []
      else {| slot_start := startTime;
              slot_end := hhmm finalEndHour finalEndMinute;
              slot_duration := inject_Z h / 2 |}
           :: durationLoop rest hour minute startTime
  end.

(** [generateTimeSlots]: hours 6 to 21, minutes 0 and 30. *)
Definition generateTimeSlots : list TimeSlot :=
  flat_map
    (fun hour =>
       flat_map
         (fun minute =>
            durationLoop [2; 3; 4; 5; 6; 7; 8] hour minute (hhmm hour minute))
         [0; 30])
    [6; 7; 8; 9; 10; 11; 12; 13; 14; 15; 16; 17; 18; 19; 20; 21].

(** The callback of [bookings.some] in [getAvailableTimeSlots]. *)
Definition slotConflicts (slot : TimeSlot) (booking : Booking) : bool :=
  let bookingStart := start_time booking in
  let bookingEnd := end_time booking in
  (ge (slot_start slot) bookingStart && lt (slot_start slot) bookingEnd)
  || (gt (slot_end slot) bookingStart && le (slot_end slot) bookingEnd)
  || (le (slot_start slot) bookingStart && ge (slot_end slot) bookingEnd).

(** [getAvailableTimeSlots(gameId, date)]. *)
Definition getAvailableTimeSlots (o : Outcome) (db : Db) (gameId date : string)
  : Response (list TimeSlot) :=
  match o with
  | Served =>
      let bookings :=
        Queries.orderBy
          (fun a b => le (start_time a) (start_time b))
          (filter (fun b =>
                     String.eqb (game_id b) gameId
                     && String.eqb (booking_date b) date
                     && isActive (status b))
                  (bookings db)) in
      let allPossibleSlots := generateTimeSlots in
      Data (filter (fun slot => negb (existsb (slotConflicts slot) bookings))
                   allPossibleSlots)
  | Failed e => Err (StoreError e)
  end.

(** A slot list check: start and end are times of day, the start is on
    a half hour from 06:00, the end is the start plus the duration and
    not after 22:30, and the duration is between 1 and 4 hours. *)
Definition slotOk (slot : TimeSlot) : bool :=
  match BookPage.totalMinutes (slot_start slot),
        BookPage.totalMinutes (slot_end slot) with
  | Some s, Some e =>
      String.eqb (slot_start slot) (BookPage.formatTime s)
      && String.eqb (slot_end slot) (BookPage.formatTime e)
      && (360 <=? s) && (Z.rem s 30 =? 0) && (e <=? 1350)
      && Qeq_bool (inject_Z (e - s) / 60) (slot_duration slot)
      && Qle_bool 1 (slot_duration slot) && Qle_bool (slot_duration slot) 4
      && lt (slot_start slot) (slot_end slot)
  | _, _ => false
  end.

End GameService.

(** ** More example values *)

Module Examples2.

(** The form filled in for the cricket pitch, 14:00 to 15:30. *)
Definition form : BookPageSubmit.FormData := {|
  BookPageSubmit.gameId := "cricket";
  BookPageSubmit.bookingDate := "2025-03-01";
  BookPageSubmit.startTime := "14:00";
  BookPageSubmit.endTime := "15:30";
  BookPageSubmit.formNotes := ""
|}.

End Examples2.

(** * Properties *)

(** ** Order facts about string comparison *)

Section StringOrder.

Import JsString.

Lemma ascii_compare_lt_trans (a b c : ascii) :
  Ascii.compare a b = Lt -> Ascii.compare b c = Lt -> Ascii.compare a c = Lt.
Proof.
  unfold Ascii.compare. rewrite !N.compare_lt_iff. apply N.lt_trans.
Qed.

Lemma ascii_compare_refl (a : ascii) : Ascii.compare a a = Eq.
Proof. unfold Ascii.compare. apply N.compare_refl. Qed.

Lemma compare_lt_trans (a b c : string) :
  String.compare a b = Lt -> String.compare b c = Lt -> String.compare a c = Lt.
Proof.
  revert b c. induction a as [|x a IH]; intros [|y b] [|z c]; simpl;
    try congruence.
  destruct (Ascii.compare x y) eqn:Hxy; try discriminate;
    destruct (Ascii.compare y z) eqn:Hyz; try discriminate; intros H1 H2.
  - apply Ascii.compare_eq_iff in Hxy, Hyz. subst.
    rewrite ascii_compare_refl. eauto.
  - apply Ascii.compare_eq_iff in Hxy. subst. now rewrite Hyz.
  - apply Ascii.compare_eq_iff in Hyz. subst. now rewrite Hxy.
  - now rewrite (ascii_compare_lt_trans _ _ _ Hxy Hyz).
Qed.

Lemma lt_trans (a b c : string) :
  lt a b = true -> lt b c = true -> lt a c = true.
Proof.
  unfold lt, String.ltb.
  destruct (String.compare a b) eqn:Hab; try discriminate.
  destruct (String.compare b c) eqn:Hbc; try discriminate.
  now rewrite (compare_lt_trans _ _ _ Hab Hbc).
Qed.

Lemma lt_irrefl (a : string) : lt a a = false.
Proof.
  unfold lt, String.ltb.
  destruct (String.compare a a) eqn:H; trivial.
  pose proof (String.compare_antisym a a) as E. rewrite H in E. discriminate.
Qed.

Lemma lt_asym (a b : string) : lt a b = true -> lt b a = false.
Proof.
  unfold lt, String.ltb. rewrite (String.compare_antisym b a).
  destruct (String.compare a b); simpl; congruence.
Qed.

(** Trichotomy, in the form used below: not below and not above is equal. *)
Lemma lt_total (a b : string) :
  lt a b = false -> lt b a = false -> a = b.
Proof.
  unfold lt, String.ltb. rewrite (String.compare_antisym b a).
  destruct (String.compare a b) eqn:H; simpl; try discriminate.
  intros _ _. now apply String.compare_eq_iff.
Qed.

Lemma le_lt_trans (a b c : string) :
  le a b = true -> lt b c = true -> lt a c = true.
Proof.
  unfold le. intros Hab Hbc. apply negb_true_iff in Hab.
  destruct (lt a b) eqn:E.
  - eapply lt_trans; eauto.
  - now rewrite (lt_total a b E Hab).
Qed.

Lemma lt_le_trans (a b c : string) :
  lt a b = true -> le b c = true -> lt a c = true.
Proof.
  unfold le. intros Hab Hbc. apply negb_true_iff in Hbc.
  destruct (lt b c) eqn:E.
  - eapply lt_trans; eauto.
  - now rewrite <- (lt_total b c E Hbc).
Qed.

End StringOrder.

(** ** The conflict test against the overlap inequality *)

Section ConflictTest.

Import JsString BookPage Spec.

Lemma conflictsWith_overlaps (s1 e1 : string) (b : Slot) :
  lt s1 e1 = true ->
  lt (start_time b) (end_time b) = true ->
  conflictsWith s1 e1 b = overlaps s1 e1 b.
Proof.
  intros Hc Hb. unfold conflictsWith, overlaps, ge, gt.
  destruct b as [s2 e2]; simpl in *.
  destruct (lt s1 e2) eqn:A; destruct (lt s2 e1) eqn:B; simpl.
  - (* both inequalities hold: one of the three clauses fires *)
    rewrite andb_true_r.
    destruct (lt s1 s2) eqn:C; simpl.
    + unfold le. rewrite (lt_asym _ _ C). simpl.
      destruct (lt e2 e1) eqn:D; simpl; trivial.
      rewrite (lt_asym _ _ D). reflexivity.
    + reflexivity.
  - (* s1 < e2 but not s2 < e1: then e1 <= s2, so s1 < s2 and e1 < e2 *)
    assert (L : le e1 s2 = true) by (unfold le; now rewrite B).
    pose proof (lt_le_trans s1 e1 s2 Hc L) as C.
    pose proof (le_lt_trans e1 s2 e2 L Hb) as D.
    unfold le. rewrite C, D. simpl. now rewrite ?andb_false_r.
  - (* s2 < e1 but not s1 < e2: then e2 <= s1, so s2 < s1 and e2 < e1 *)
    assert (L : le e2 s1 = true) by (unfold le; now rewrite A).
    pose proof (lt_le_trans s2 e2 s1 Hb L) as C.
    pose proof (le_lt_trans e2 s1 e1 L Hc) as D.
    unfold le. rewrite C, D, (lt_asym _ _ C). simpl. now rewrite ?andb_false_r.
  - (* neither: impossible, since s1 < e1 <= s2 < e2 *)
    assert (L : le e1 s2 = true) by (unfold le; now rewrite B).
    pose proof (lt_le_trans s1 e1 s2 Hc L) as C.
    pose proof (lt_trans s1 s2 e2 C Hb) as D.
    congruence.
Qed.

End ConflictTest.

(** ** Claim C2: the conflict test of the booking page *)

Section ConflictClaim.

Import JsString BookPage Spec.

Lemma hasConflict_exists (existing : list Slot) (s1 e1 : string) :
  lt s1 e1 = true ->
  (forall b, In b existing -> lt (start_time b) (end_time b) = true) ->
  (hasConflict existing s1 e1 = true <->
   exists b, In b existing /\ overlaps s1 e1 b = true).
Proof.
  intros Hc Hall. unfold hasConflict. rewrite existsb_exists.
  split; intros [b [Hin Hb]]; exists b; split; trivial.
  - now rewrite <- (conflictsWith_overlaps s1 e1 b Hc (Hall b Hin)).
  - now rewrite (conflictsWith_overlaps s1 e1 b Hc (Hall b Hin)).
Qed.

Lemma touching_is_no_overlap (s1 e1 : string) (b : Slot) :
  e1 = start_time b \/ s1 = end_time b -> overlaps s1 e1 b = false.
Proof.
  unfold overlaps. intros [-> | ->]; rewrite lt_irrefl.
  - apply andb_false_r.
  - reflexivity.
Qed.

End ConflictClaim.

(** X26. For a candidate [s1 < e1] and existing bookings that each have
    [start_time < end_time], the conflict test of [validateTimeSelection]
    and [isTimeSlotAvailable] reports a conflict exactly when some
    existing booking satisfies [s1 < e2] and [s2 < e1]; a candidate that
    only touches a booking's boundary does not conflict with that
    booking. *)
Theorem conflict_test_iff_overlap :
  forall (existing : list Slot) (s1 e1 : string),
    JsString.lt s1 e1 = true ->
    (forall b, In b existing ->
               JsString.lt (start_time b) (end_time b) = true) ->
    (BookPage.hasConflict existing s1 e1 = true <->
     exists b, In b existing
               /\ JsString.lt s1 (end_time b) = true
               /\ JsString.lt (start_time b) e1 = true)
    /\ BookPage.isTimeSlotAvailable existing s1 e1
       = negb (BookPage.hasConflict existing s1 e1)
    /\ (forall b, In b existing ->
                  e1 = start_time b \/ s1 = end_time b ->
                  BookPage.conflictsWith s1 e1 b = false)
    /\ (forall settings,
          BookPage.validateTimeSelection settings existing s1 e1
          = BookPage.ConflictsWithExisting ->
          BookPage.hasConflict existing s1 e1 = true).
Proof.
  intros existing s1 e1 Hc Hall.
  split; [|split; [|split]]; [split| | |].
  - intros H. apply (hasConflict_exists existing s1 e1 Hc Hall) in H.
    destruct H as [b [Hin Hb]]. exists b.
    apply andb_true_iff in Hb. tauto.
  - intros [b [Hin [H1 H2]]].
    apply (hasConflict_exists existing s1 e1 Hc Hall).
    exists b. split; trivial. unfold Spec.overlaps. now rewrite H1, H2.
  - reflexivity.
  - intros b Hin Htouch.
    rewrite (conflictsWith_overlaps s1 e1 b Hc (Hall b Hin)).
    now apply touching_is_no_overlap.
  - intros settings. unfold BookPage.validateTimeSelection.
    destruct settings as [st|]; [|discriminate].
    destruct (BookPage.isEmpty s1 || BookPage.isEmpty e1); [discriminate|].
    repeat match goal with
           | |- context [if ?c then _ else _] =>
               destruct c eqn:?; try discriminate
           end.
    trivial.
Qed.

(** Scenario 3 through the theorem: existing 10:00-12:00, candidate
    09:30-10:30. *)
Lemma conflict_test_iff_overlap_witness :
  (BookPage.hasConflict [{| start_time := "10:00"; end_time := "12:00" |}]
                        "09:30" "10:30" = true <->
   exists b, In b [{| start_time := "10:00"; end_time := "12:00" |}]
             /\ JsString.lt "09:30" (end_time b) = true
             /\ JsString.lt (start_time b) "10:30" = true)
  /\ BookPage.isTimeSlotAvailable
       [{| start_time := "10:00"; end_time := "12:00" |}] "09:30" "10:30"
     = negb (BookPage.hasConflict
               [{| start_time := "10:00"; end_time := "12:00" |}]
               "09:30" "10:30")
  /\ (forall b, In b [{| start_time := "10:00"; end_time := "12:00" |}] ->
                "10:30" = start_time b \/ "09:30" = end_time b ->
                BookPage.conflictsWith "09:30" "10:30" b = false)
  /\ (forall settings,
        BookPage.validateTimeSelection settings
          [{| start_time := "10:00"; end_time := "12:00" |}] "09:30" "10:30"
        = BookPage.ConflictsWithExisting ->
        BookPage.hasConflict
          [{| start_time := "10:00"; end_time := "12:00" |}] "09:30" "10:30"
        = true).
Proof.
  apply (conflict_test_iff_overlap
           [{| start_time := "10:00"; end_time := "12:00" |}] "09:30" "10:30").
  - reflexivity.
  - intros b [<- | []]. reflexivity.
Defined.

(** With an existing booking that runs overnight (end not after start,
    as 24/7 operation allows) the equivalence is lost: the booking
    23:00-05:00 makes the test report a conflict for 10:00-11:00,
    although the inequality [s1 < e2 AND s2 < e1] does not hold. *)
Lemma conflict_test_overnight_counterexample :
  JsString.lt "10:00" "11:00" = true
  /\ ~ (BookPage.hasConflict
          [{| start_time := "23:00"; end_time := "05:00" |}] "10:00" "11:00"
        = true <->
        exists b, In b [{| start_time := "23:00"; end_time := "05:00" |}]
                  /\ JsString.lt "10:00" (end_time b) = true
                  /\ JsString.lt (start_time b) "11:00" = true).
Proof.
  split; [reflexivity|].
  intros [H _]. destruct (H eq_refl) as [b [[<- | []] [H1 _]]].
  discriminate H1.
Qed.

(** C2 (a defect of the code). The third clause of the page's test,
    [startTime <= booking.start_time && endTime >= booking.end_time],
    is written for a candidate that encloses a booking.  It also holds
    for every candidate [s1 < e1] that lies between the end and the
    start of a booking running past midnight ([e2 <= s1] and
    [e1 <= s2]): there the page reports a conflict and
    [isTimeSlotAvailable] answers false, although [s1 < e2 AND s2 < e1]
    is false, and although the server's [check_booking_conflict] finds no
    conflict on the table the booking was read from. *)
Theorem page_test_false_conflict :
  forall (s1 e1 : string) (b : BookingService.Booking) (n : nat),
    JsString.lt s1 e1 = true ->
    JsString.le (BookingService.end_time b) s1 = true ->
    JsString.le e1 (BookingService.start_time b) = true ->
    BookingService.isActive (BookingService.status b) = true ->
    BookPage.isEmpty (BookingService.game_id b) = false ->
    BookPage.isEmpty (BookingService.booking_date b) = false ->
    let db := {| BookingService.bookings := [b];
                 BookingService.next_id := n |} in
    let existingBookings :=
      BookPageForm.fetchExistingBookings [] BookingService.Served db
        (BookingService.game_id b) (BookingService.booking_date b) in
    BookPage.hasConflict existingBookings s1 e1 = true
    /\ BookPage.isTimeSlotAvailable existingBookings s1 e1 = false
    /\ (JsString.lt s1 (BookingService.end_time b)
        && JsString.lt (BookingService.start_time b) e1) = false
    /\ BookingService.check_booking_conflict db
         (BookingService.game_id b) (BookingService.booking_date b)
         s1 e1 None = false
    /\ JsString.lt (BookingService.end_time b) (BookingService.start_time b)
       = true.
Proof.
  intros s1 e1 b n Hc He Hs Hact Hg Hd db existingBookings.
  assert (Ex : existingBookings
               = [{| start_time := BookingService.start_time b;
                     end_time := BookingService.end_time b |}]).
  { unfold existingBookings, BookPageForm.fetchExistingBookings, db.
    rewrite Hg, Hd. cbn [orb BookingService.bookings filter].
    now rewrite !String.eqb_refl, Hact. }
  assert (A : JsString.lt s1 (BookingService.end_time b) = false).
  { unfold JsString.le in He. now apply negb_true_iff in He. }
  assert (B : JsString.lt (BookingService.start_time b) e1 = false).
  { unfold JsString.le in Hs. now apply negb_true_iff in Hs. }
  assert (C : JsString.lt s1 (BookingService.start_time b) = true)
    by (exact (lt_le_trans _ _ _ Hc Hs)).
  assert (D : JsString.lt (BookingService.end_time b) e1 = true)
    by (exact (le_lt_trans _ _ _ He Hc)).
  assert (H : BookPage.hasConflict existingBookings s1 e1 = true).
  { rewrite Ex. unfold BookPage.hasConflict, BookPage.conflictsWith,
      JsString.ge, JsString.gt, JsString.le.
    cbn [existsb start_time end_time].
    rewrite C, B, (lt_asym _ _ C), (lt_asym _ _ D). reflexivity. }
  split; [exact H|]. split; [|split; [|split]].
  - unfold BookPage.isTimeSlotAvailable.
    unfold BookPage.hasConflict in H. now rewrite H.
  - now rewrite A.
  - unfold BookingService.check_booking_conflict, db, JsString.gt.
    cbn [BookingService.bookings filter]. rewrite B.
    now rewrite !andb_false_r.
  - exact (lt_le_trans _ _ _ D Hs).
Qed.

(** The failing input: the booking 23:00-05:00 and the candidate
    10:00-11:00. *)
Lemma page_test_false_conflict_witness :
  BookPage.hasConflict
    (BookPageForm.fetchExistingBookings [] BookingService.Served
       {| BookingService.bookings := [Examples.overnightBooking];
          BookingService.next_id := 1 |}
       "cricket" "2025-03-01")
    "10:00" "11:00" = true
  /\ BookingService.check_booking_conflict
       {| BookingService.bookings := [Examples.overnightBooking];
          BookingService.next_id := 1 |}
       "cricket" "2025-03-01" "10:00" "11:00" None = false.
Proof.
  destruct (page_test_false_conflict "10:00" "11:00"
              Examples.overnightBooking 1
              eq_refl eq_refl eq_refl eq_refl eq_refl eq_refl)
    as (H & _ & _ & S & _).
  split; [exact H | exact S].
Defined.

(** The same input through [validateTimeSelection], under 24/7
    operation. *)
Example validateTimeSelection_false_conflict :
  BookPage.validateTimeSelection (Some settings_24_7)
    [{| start_time := "23:00"; end_time := "05:00" |}] "10:00" "11:00"
  = BookPage.ConflictsWithExisting.
Proof. reflexivity. Qed.

(** The three scenario-3 evaluations. *)
Example scenario3_touching :
  BookPage.hasConflict [{| start_time := "10:00"; end_time := "12:00" |}]
                       "09:00" "10:00" = false
  /\ BookPage.hasConflict [{| start_time := "10:00"; end_time := "12:00" |}]
                          "12:00" "13:00" = false
  /\ BookPage.hasConflict [{| start_time := "10:00"; end_time := "12:00" |}]
                          "09:30" "10:30" = true.
Proof. repeat split. Qed.

(** ** Times of day and their [HH:MM] text *)

Section TimeText.

Import Js BookPage Spec.

Lemma roundTrips_day :
  forallb roundTrips (map Z.of_nat (seq 0 1441)) = true.
Proof. vm_compute. reflexivity. Qed.

Lemma roundTrips_ok (m : Z) : 0 <= m <= 1440 -> roundTrips m = true.
Proof.
  intros Hm. pose proof roundTrips_day as H.
  rewrite forallb_forall in H. apply H.
  apply in_map_iff. exists (Z.to_nat m). split; [lia|].
  apply in_seq. lia.
Qed.

Lemma totalMinutes_formatTime (m : Z) :
  0 <= m <= 1440 -> totalMinutes (formatTime m) = Some m.
Proof.
  intros Hm. pose proof (roundTrips_ok m Hm) as H. unfold roundTrips in H.
  apply andb_true_iff in H. destruct H as [_ H].
  destruct (totalMinutes (formatTime m)) as [m'|]; [|discriminate].
  apply Z.eqb_eq in H. now subst.
Qed.

Lemma formatTime_not_empty (m : Z) :
  0 <= m <= 1440 -> isEmpty (formatTime m) = false.
Proof.
  intros Hm. pose proof (roundTrips_ok m Hm) as H. unfold roundTrips in H.
  apply andb_true_iff in H. destruct H as [H _].
  now apply negb_true_iff in H.
Qed.

(** [calculateDuration] on two times of day, by cases. *)
Lemma calculateDuration_times (settings : SystemSettings) (s e : Z) :
  0 <= s <= 1440 -> 0 <= e <= 1440 ->
  calculateDuration (Some settings) (formatTime s) (formatTime e)
  = if s <? e then Some (inject_Z (e - s) / 60)%Q
    else if is_24_7 settings && (s <? e + 24 * 60)
         then Some (inject_Z (e + 24 * 60 - s) / 60)%Q
         else Some 0%Q.
Proof.
  intros Hs He. unfold calculateDuration.
  rewrite (formatTime_not_empty s Hs), (formatTime_not_empty e He).
  rewrite (totalMinutes_formatTime s Hs), (totalMinutes_formatTime e He).
  simpl orb. cbv iota.
  destruct (s <? e) eqn:Hlt.
  - apply Z.ltb_lt in Hlt.
    assert (E : (e <=? s) = false) by (apply Z.leb_gt; lia).
    rewrite E, andb_false_r. rewrite E. reflexivity.
  - apply Z.ltb_ge in Hlt.
    assert (E : (e <=? s) = true) by (apply Z.leb_le; lia).
    rewrite E, andb_true_r.
    destruct (is_24_7 settings); cbn [andb].
    + destruct (s <? e + 24 * 60) eqn:Hw.
      * apply Z.ltb_lt in Hw.
        assert (E' : (e + 24 * 60 <=? s) = false) by (apply Z.leb_gt; lia).
        now rewrite E'.
      * apply Z.ltb_ge in Hw.
        assert (E' : (e + 24 * 60 <=? s) = true) by (apply Z.leb_le; lia).
        now rewrite E'.
    + now rewrite E.
Qed.

End TimeText.

(** ** Rounding *)

Section Rounding.

Import Js.

(** [Math.round] picks the integer [c] with [c <= x + 1/2 < c + 1]:
    the nearest integer, a half going up. *)
Lemma Math_round_nearest (x : Q) :
  (inject_Z (Math_round x) <= x + (1 # 2)
   /\ x + (1 # 2) < inject_Z (Math_round x) + 1)%Q.
Proof.
  unfold Math_round. split.
  - apply Qfloor_le.
  - pose proof (Qlt_floor (x + (1 # 2))) as H.
    rewrite inject_Z_plus in H. exact H.
Qed.

Lemma Math_round_comp (x y : Q) : (x == y)%Q -> Math_round x = Math_round y.
Proof.
  intros H. unfold Math_round. apply Qfloor_comp. now rewrite H.
Qed.

Lemma Math_round_inject_Z (n : Z) : Math_round (inject_Z n) = n.
Proof.
  unfold Math_round, Qfloor, inject_Z, Qplus. simpl.
  rewrite Z.add_comm, Z.div_add by lia. reflexivity.
Qed.

Lemma Qltb_lt (a b : Q) : Qltb a b = true <-> (a < b)%Q.
Proof.
  unfold Qltb. rewrite negb_true_iff. split; intros H.
  - apply Qnot_le_lt. intros L. apply Qle_bool_iff in L. congruence.
  - destruct (Qle_bool b a) eqn:E; trivial.
    apply Qle_bool_iff in E. exfalso. now apply (Qlt_not_le a b).
Qed.

Lemma Qltb_ge (a b : Q) : Qltb a b = false <-> (b <= a)%Q.
Proof.
  unfold Qltb. rewrite negb_false_iff. apply Qle_bool_iff.
Qed.

Lemma Math_round_mono (x y : Q) :
  (x <= y)%Q -> Math_round x <= Math_round y.
Proof.
  intros H. unfold Math_round. apply Qfloor_resp_le.
  now apply Qplus_le_l.
Qed.

Lemma Math_round_nonneg (x : Q) : (0 <= x)%Q -> 0 <= Math_round x.
Proof.
  intros H. change 0 with (Math_round (inject_Z 0)) at 1.
  apply Math_round_mono. exact H.
Qed.

(** The integer part of a number lying between [n] and [n + 1]. *)
Lemma Qfloor_unique (x : Q) (n : Z) :
  (inject_Z n <= x)%Q -> (x < inject_Z n + 1)%Q -> Qfloor x = n.
Proof.
  intros L U. pose proof (Qfloor_le x) as L'. pose proof (Qlt_floor x) as U'.
  rewrite inject_Z_plus in U'. change (inject_Z 1) with 1%Q in U'.
  assert (A : (inject_Z (Qfloor x) < inject_Z (n + 1))%Q)
    by (rewrite inject_Z_plus; change (inject_Z 1) with 1%Q; lra).
  assert (B : (inject_Z n < inject_Z (Qfloor x + 1))%Q)
    by (rewrite inject_Z_plus; change (inject_Z 1) with 1%Q; lra).
  rewrite <- Zlt_Qlt in A, B. lia.
Qed.

(** A positive number of minutes is a positive number of hours. *)
Lemma hours_positive (k : Z) : 0 < k -> Qltb 0 (inject_Z k / 60) = true.
Proof.
  intros Hk. apply Qltb_lt.
  apply Qlt_shift_div_l; [reflexivity|].
  rewrite Qmult_0_l. replace 0%Q with (inject_Z 0) by reflexivity.
  now rewrite <- Zlt_Qlt.
Qed.

End Rounding.

(** ** Double-precision rounding *)

Section DoubleFacts.

Import Double.
Local Open Scope Q_scope.

Lemma two_not_0 : ~ 2 == 0.
Proof. discriminate. Qed.

Lemma pow2_pos (e : Z) : 0 < pow2 e.
Proof. apply Qpower_0_lt. reflexivity. Qed.

Lemma pow2_plus (a b : Z) : pow2 (a + b) == pow2 a * pow2 b.
Proof. apply Qpower_plus, two_not_0. Qed.

Lemma pow2_le (a b : Z) : (a <= b)%Z -> pow2 a <= pow2 b.
Proof. intros H. apply Qpower_le_compat_l; [exact H | discriminate]. Qed.

Lemma pow2_lt (a b : Z) : (a < b)%Z -> pow2 a < pow2 b.
Proof. intros H. apply Qpower_lt_compat_l; [exact H | reflexivity]. Qed.

Lemma pow2_lt_inv (a b : Z) : pow2 a < pow2 b -> (a < b)%Z.
Proof. intros H. apply (Qpower_lt_compat_l_inv 2); [exact H | reflexivity]. Qed.

Lemma pow2_inject (e : Z) : (0 <= e)%Z -> pow2 e == inject_Z (2 ^ e).
Proof. intros H. unfold pow2. now rewrite Zpower_Qpower. Qed.

Lemma pow2_succ (a : Z) : pow2 (a + 1) == 2 * pow2 a.
Proof. rewrite pow2_plus. change (pow2 1) with 2. ring. Qed.


Lemma log2_bounds (n : Z) :
  (0 < n)%Z ->
  pow2 (Z.log2 n) <= inject_Z n /\ inject_Z n < pow2 (Z.log2 n + 1).
Proof.
  intros Hn. pose proof (Z.log2_spec n Hn) as [L U].
  pose proof (Z.log2_nonneg n) as Hl.
  rewrite !pow2_inject by lia. rewrite <- Zle_Qle, <- Zlt_Qlt.
  split; [exact L|]. exact U.
Qed.

(** The exponent of a positive number: [2^e <= x < 2^(e+1)]. *)
Lemma exponent_spec (x : Q) :
  0 < x -> pow2 (exponent x) <= x /\ x < pow2 (exponent x + 1).
Proof.
  intros Hx. destruct x as [n d].
  assert (Hn : (0 < n)%Z) by (unfold Qlt in Hx; simpl in Hx; lia).
  unfold exponent. cbn [Qnum Qden]. rewrite Z.abs_eq by lia.
  set (a := Z.log2 n). set (b := Z.log2 (Z.pos d)).
  destruct (log2_bounds n Hn) as [An An'].
  destruct (log2_bounds (Z.pos d) eq_refl) as [Bd Bd'].
  fold a in An, An'. fold b in Bd, Bd'.
  pose proof (pow2_pos a) as Pa. pose proof (pow2_pos b) as Pb.
  pose proof (pow2_succ a) as Sa. pose proof (pow2_succ b) as Sb.
  assert (Ex : (n # d) * inject_Z (Z.pos d) == inject_Z n).
  { rewrite (Qmake_Qdiv n d). field. discriminate. }
  assert (K : pow2 (a - b) * pow2 b == pow2 a).
  { rewrite <- pow2_plus. now replace (a - b + b)%Z with a by lia. }
  pose proof (pow2_pos (a - b)) as Pk.
  pose proof (pow2_succ (a - b)) as Sk.
  assert (K1 : 2 * pow2 (a - b - 1) == pow2 (a - b)).
  { rewrite <- pow2_succ. now replace (a - b - 1 + 1)%Z with (a - b)%Z by lia. }
  pose proof (pow2_pos (a - b - 1)) as Pk1.
  assert (Up : (n # d) < pow2 (a - b + 1)).
  { rewrite Sk. apply Qnot_le_lt. intros C.
    assert (inject_Z n >= 2 * pow2 a); [|lra].
    rewrite <- Ex, <- K.
    apply Qle_trans with (2 * pow2 (a - b) * inject_Z (Z.pos d)).
    - rewrite <- Qmult_assoc. apply Qmult_le_l; [reflexivity|].
      apply Qmult_le_l; trivial.
    - apply Qmult_le_compat_r; [exact C | lra]. }
  assert (Lo : pow2 (a - b - 1) <= (n # d)).
  { apply Qnot_lt_le. intros C.
    assert (inject_Z n < pow2 a); [|lra].
    rewrite <- Ex, <- K, <- K1.
    apply Qlt_le_trans with (pow2 (a - b - 1) * inject_Z (Z.pos d)).
    - apply Qmult_lt_compat_r; [lra | exact C].
    - rewrite <- Qmult_assoc, (Qmult_comm 2), <- Qmult_assoc.
      apply Qmult_le_l; trivial. rewrite Qmult_comm. lra. }
  destruct (Qle_bool (pow2 (a - b)) (Qabs (n # d))) eqn:E.
  - apply Qle_bool_iff in E. rewrite Qabs_pos in E by lra.
    split; trivial.
  - assert (C : (n # d) < pow2 (a - b)).
    { apply Qnot_le_lt. intros C.
      assert (Qle_bool (pow2 (a - b)) (Qabs (n # d)) = true); [|congruence].
      apply Qle_bool_iff. rewrite Qabs_pos by lra. exact C. }
    split; trivial.
    now replace (a - b - 1 + 1)%Z with (a - b)%Z by lia.
Qed.

(** The exponent is determined by the value. *)
Lemma exponent_unique (x : Q) (e : Z) :
  pow2 e <= x -> x < pow2 (e + 1) -> exponent x = e.
Proof.
  intros L U.
  assert (Hx : 0 < x) by (pose proof (pow2_pos e); lra).
  destruct (exponent_spec x Hx) as [L' U'].
  assert (A : (e < exponent x + 1)%Z) by (apply pow2_lt_inv; lra).
  assert (B : (exponent x < e + 1)%Z) by (apply pow2_lt_inv; lra).
  lia.
Qed.

Lemma exponent_comp (x y : Q) : 0 < x -> x == y -> exponent x = exponent y.
Proof.
  intros Hx E. symmetry.
  destruct (exponent_spec x Hx) as [L U].
  apply exponent_unique; lra.
Qed.

Lemma exponent_mono (x y : Q) : 0 < x -> x <= y -> (exponent x <= exponent y)%Z.
Proof.
  intros Hx Hxy.
  destruct (exponent_spec x Hx) as [L _].
  destruct (exponent_spec y) as [_ U]; [lra|].
  assert (A : (exponent x < exponent y + 1)%Z) by (apply pow2_lt_inv; lra).
  lia.
Qed.


(** Rounding to the nearest integer. *)
Lemma roundTiesToEven_near (x : Q) :
  x - (1 # 2) <= inject_Z (roundTiesToEven x)
  /\ inject_Z (roundTiesToEven x) <= x + (1 # 2).
Proof.
  unfold roundTiesToEven.
  pose proof (Qfloor_le x) as L. pose proof (Qlt_floor x) as U.
  rewrite inject_Z_plus in U. change (inject_Z 1) with 1 in U.
  destruct (Qcompare_spec (x - inject_Z (Qfloor x)) (1 # 2)) as [E|E|E].
  - destruct (Z.even (Qfloor x)); rewrite ?inject_Z_plus;
      change (inject_Z 1) with 1; lra.
  - lra.
  - rewrite inject_Z_plus. change (inject_Z 1) with 1. lra.
Qed.

Lemma roundTiesToEven_floor (x : Q) :
  (Qfloor x <= roundTiesToEven x <= Qfloor x + 1)%Z.
Proof.
  unfold roundTiesToEven.
  destruct (x - inject_Z (Qfloor x) ?= 1 # 2); try lia.
  destruct (Z.even (Qfloor x)); lia.
Qed.

Lemma roundTiesToEven_comp (x y : Q) :
  x == y -> roundTiesToEven x = roundTiesToEven y.
Proof.
  intros E. unfold roundTiesToEven.
  rewrite (Qfloor_comp x y E).
  assert (C : (x - inject_Z (Qfloor y) ?= 1 # 2)
              = (y - inject_Z (Qfloor y) ?= 1 # 2))
    by (apply Qcompare_comp; [now rewrite E | reflexivity]).
  now rewrite C.
Qed.

Lemma roundTiesToEven_Z (n : Z) : roundTiesToEven (inject_Z n) = n.
Proof.
  unfold roundTiesToEven. rewrite Qfloor_Z.
  assert (C : (inject_Z n - inject_Z n ?= 1 # 2) = Lt).
  { apply (proj1 (Qlt_alt _ _)). lra. }
  now rewrite C.
Qed.

Lemma roundTiesToEven_mono (x y : Q) :
  x <= y -> (roundTiesToEven x <= roundTiesToEven y)%Z.
Proof.
  intros H. pose proof (Qfloor_resp_le x y H) as F.
  pose proof (roundTiesToEven_floor x) as Bx.
  pose proof (roundTiesToEven_floor y) as By'.
  destruct (Z.eq_dec (Qfloor x) (Qfloor y)) as [E|E]; [|lia].
  unfold roundTiesToEven. rewrite E.
  destruct (Qcompare_spec (x - inject_Z (Qfloor y)) (1 # 2)) as [Cx|Cx|Cx];
    destruct (Qcompare_spec (y - inject_Z (Qfloor y)) (1 # 2)) as [Cy|Cy|Cy];
    try lia; try lra; destruct (Z.even (Qfloor y)); lia.
Qed.

(** An integer bound on [x] bounds the rounded value. *)
Lemma roundTiesToEven_ge (x : Q) (n : Z) :
  inject_Z n <= x -> (n <= roundTiesToEven x)%Z.
Proof.
  intros H. rewrite <- (roundTiesToEven_Z n). now apply roundTiesToEven_mono.
Qed.

Lemma roundTiesToEven_le (x : Q) (n : Z) :
  x <= inject_Z n -> (roundTiesToEven x <= n)%Z.
Proof.
  intros H. rewrite <- (roundTiesToEven_Z n). now apply roundTiesToEven_mono.
Qed.

(** [fl] on a positive number. *)
Lemma fl_pos_eq (x : Q) :
  0 < x ->
  fl x = inject_Z (roundTiesToEven (x / pow2 (exponent x - 52)))
         * pow2 (exponent x - 52).
Proof.
  intros Hx. unfold fl.
  destruct (Qeq_bool x 0) eqn:E; trivial.
  apply Qeq_bool_iff in E. lra.
Qed.

Lemma fl_0 (x : Q) : x == 0 -> fl x = 0.
Proof.
  intros E. unfold fl. apply Qeq_bool_iff in E. now rewrite E.
Qed.

(** The scaled value lies in [[2^52, 2^53)]. *)
Lemma scaled_bounds (x : Q) :
  0 < x ->
  inject_Z (2 ^ 52) <= x / pow2 (exponent x - 52)
  /\ x / pow2 (exponent x - 52) < inject_Z (2 ^ 53).
Proof.
  intros Hx. destruct (exponent_spec x Hx) as [L U].
  pose proof (pow2_pos (exponent x - 52)) as P.
  assert (E1 : pow2 (exponent x) == inject_Z (2 ^ 52) * pow2 (exponent x - 52)).
  { rewrite <- (pow2_inject 52) by lia. rewrite <- pow2_plus.
    now replace (52 + (exponent x - 52))%Z with (exponent x) by lia. }
  assert (E2 : pow2 (exponent x + 1)
               == inject_Z (2 ^ 53) * pow2 (exponent x - 52)).
  { rewrite <- (pow2_inject 53) by lia. rewrite <- pow2_plus.
    now replace (53 + (exponent x - 52))%Z with (exponent x + 1)%Z by lia. }
  split.
  - apply Qle_shift_div_l; trivial. lra.
  - apply Qlt_shift_div_r; trivial. lra.
Qed.

Lemma exponent_abs (x : Q) : exponent (Qabs x) = exponent x.
Proof.
  destruct x as [n d]. unfold exponent, Qabs. cbn [Qnum Qden].
  now rewrite Z.abs_idemp.
Qed.

Lemma exponent_comp_any (x y : Q) : ~ x == 0 -> x == y -> exponent x = exponent y.
Proof.
  intros N E. rewrite <- (exponent_abs x), <- (exponent_abs y).
  apply exponent_comp.
  - pose proof (Qabs_nonneg x) as H. apply Qle_lteq in H.
    destruct H as [H|H]; trivial.
    exfalso. apply N. symmetry in H.
    destruct (Qabs_Qle_condition x 0) as [C _].
    destruct C as [C1 C2]; [rewrite H; apply Qle_refl|]. lra.
  - now rewrite E.
Qed.

Lemma fl_comp (x y : Q) : x == y -> fl x == fl y.
Proof.
  intros E. destruct (Qlt_le_dec 0 x) as [Hx|Hx].
  - rewrite (fl_pos_eq x Hx), (fl_pos_eq y) by lra.
    rewrite (exponent_comp x y Hx E).
    rewrite (roundTiesToEven_comp (x / pow2 (exponent y - 52))
                                  (y / pow2 (exponent y - 52))).
    + reflexivity.
    + now rewrite E.
  - destruct (Qeq_dec x 0) as [Z0|N0].
    + rewrite (fl_0 x Z0), (fl_0 y) by lra. reflexivity.
    + (* negative numbers *)
      unfold fl.
      assert (Ex : Qeq_bool x 0 = false).
      { destruct (Qeq_bool x 0) eqn:B; trivial. apply Qeq_bool_iff in B. tauto. }
      assert (Ey : Qeq_bool y 0 = false).
      { destruct (Qeq_bool y 0) eqn:B; trivial. apply Qeq_bool_iff in B.
        exfalso. apply N0. lra. }
      rewrite Ex, Ey.
      assert (Ee : exponent x = exponent y)
        by (now apply exponent_comp_any).
      rewrite Ee.
      rewrite (roundTiesToEven_comp (x / pow2 (exponent y - 52))
                                    (y / pow2 (exponent y - 52))).
      * reflexivity.
      * now rewrite E.
Qed.

(** [fl] keeps the sign and the order of numbers that are not negative. *)
Lemma fl_nonneg (x : Q) : 0 <= x -> 0 <= fl x.
Proof.
  intros H. apply Qle_lteq in H. destruct H as [H|H].
  - rewrite (fl_pos_eq x H).
    destruct (scaled_bounds x H) as [L _].
    pose proof (roundTiesToEven_ge _ _ L) as R.
    pose proof (pow2_pos (exponent x - 52)) as P.
    apply Qmult_le_0_compat; [|lra].
    change 0 with (inject_Z 0). rewrite <- Zle_Qle. lia.
  - rewrite (fl_0 x) by lra. apply Qle_refl.
Qed.

Lemma fl_mono_pos (x y : Q) : 0 < x -> x <= y -> fl x <= fl y.
Proof.
  intros Hx Hxy. assert (Hy : 0 < y) by lra.
  rewrite (fl_pos_eq x Hx), (fl_pos_eq y Hy).
  pose proof (exponent_mono x y Hx Hxy) as M.
  pose proof (pow2_pos (exponent x - 52)) as Px.
  pose proof (pow2_pos (exponent y - 52)) as Py.
  destruct (scaled_bounds x Hx) as [_ Ux].
  destruct (scaled_bounds y Hy) as [Ly _].
  destruct (Z.eq_dec (exponent x) (exponent y)) as [E|E].
  - rewrite E in *. apply Qmult_le_compat_r; [|lra].
    rewrite <- Zle_Qle. apply roundTiesToEven_mono.
    apply Qmult_le_compat_r; [exact Hxy|].
    apply Qlt_le_weak, Qinv_lt_0_compat, Py.
  - apply Qle_trans with (pow2 (exponent y)).
    + apply Qle_trans with (pow2 (exponent x + 1)).
      * assert (R : (roundTiesToEven (x / pow2 (exponent x - 52)) <= 2 ^ 53)%Z)
          by (apply roundTiesToEven_le; lra).
        rewrite Zle_Qle in R.
        assert (E2 : pow2 (exponent x + 1)
                     == inject_Z (2 ^ 53) * pow2 (exponent x - 52)).
        { rewrite <- (pow2_inject 53) by lia. rewrite <- pow2_plus.
          now replace (53 + (exponent x - 52))%Z with (exponent x + 1)%Z by lia. }
        rewrite E2. apply Qmult_le_compat_r; [exact R | lra].
      * apply pow2_le. lia.
    + assert (R : (2 ^ 52 <= roundTiesToEven (y / pow2 (exponent y - 52)))%Z)
        by (apply roundTiesToEven_ge; lra).
      rewrite Zle_Qle in R.
      assert (E1 : pow2 (exponent y)
                   == inject_Z (2 ^ 52) * pow2 (exponent y - 52)).
      { rewrite <- (pow2_inject 52) by lia. rewrite <- pow2_plus.
        now replace (52 + (exponent y - 52))%Z with (exponent y) by lia. }
      rewrite E1. apply Qmult_le_compat_r; [exact R | lra].
Qed.

Lemma fl_mono (x y : Q) : 0 <= x -> x <= y -> fl x <= fl y.
Proof.
  intros Hx Hxy. apply Qle_lteq in Hx. destruct Hx as [Hx|Hx].
  - now apply fl_mono_pos.
  - rewrite (fl_0 x) by lra. apply fl_nonneg. lra.
Qed.

(** A number with at most 53 significant bits is not changed. *)
Lemma fl_exact (x : Q) (m e : Z) :
  (0 < m < 2 ^ 53)%Z -> x == inject_Z m * pow2 e -> fl x == x.
Proof.
  intros Hm Ex.
  pose proof (pow2_pos e) as Pe.
  assert (Hm0 : 0 < inject_Z m).
  { change 0 with (inject_Z 0). rewrite <- Zlt_Qlt. lia. }
  assert (Hx : 0 < x).
  { rewrite Ex. apply Qmult_lt_0_compat; trivial. }
  destruct (exponent_spec x Hx) as [L _].
  set (E := exponent x) in *.
  assert (B : (E - 52 <= e)%Z).
  { assert (C : pow2 E < pow2 (53 + e)).
    { apply Qle_lt_trans with x; trivial. rewrite Ex, pow2_plus.
      apply Qmult_lt_compat_r; trivial.
      rewrite pow2_inject by lia. rewrite <- Zlt_Qlt. lia. }
    apply pow2_lt_inv in C. lia. }
  pose proof (pow2_pos (E - 52)) as P.
  assert (S : x / pow2 (E - 52) == inject_Z (m * 2 ^ (e - (E - 52)))).
  { rewrite inject_Z_mult, <- pow2_inject by lia.
    rewrite Ex. replace e with ((e - (E - 52)) + (E - 52))%Z at 1 by lia.
    rewrite pow2_plus. field. lra. }
  rewrite (fl_pos_eq x Hx). fold E.
  rewrite (roundTiesToEven_comp _ _ S), roundTiesToEven_Z.
  rewrite <- S. field. lra.
Qed.

Lemma fl_exact_Z (n : Z) : (0 <= n < 2 ^ 53)%Z -> fl (inject_Z n) == inject_Z n.
Proof.
  intros H. destruct (Z.eq_dec n 0) as [->|N].
  - reflexivity.
  - apply (fl_exact _ n 0); [lia|]. change (pow2 0) with 1. ring.
Qed.

(** The relative error of one rounding is at most [2^-53]. *)
Lemma fl_error (x : Q) :
  0 <= x ->
  x * (1 - pow2 (-53)) <= fl x /\ fl x <= x * (1 + pow2 (-53)).
Proof.
  intros H. apply Qle_lteq in H. destruct H as [Hx|Hx].
  - rewrite (fl_pos_eq x Hx).
    pose proof (pow2_pos (exponent x - 52)) as P.
    destruct (scaled_bounds x Hx) as [L _].
    destruct (roundTiesToEven_near (x / pow2 (exponent x - 52))) as [N1 N2].
    set (p := pow2 (exponent x - 52)) in *.
    set (r := inject_Z (roundTiesToEven (x / p))) in *.
    assert (Ex : x == (x / p) * p) by (field; lra).
    assert (Hp : p * inject_Z (2 ^ 52) <= x).
    { apply Qle_trans with ((x / p) * p); [|rewrite <- Ex; apply Qle_refl].
      rewrite Qmult_comm. apply Qmult_le_compat_r; [exact L | lra]. }
    assert (H53 : pow2 (-53) * inject_Z (2 ^ 52) == 1 # 2) by reflexivity.
    assert (Hh : p * (1 # 2) <= x * pow2 (-53)).
    { rewrite <- H53.
      rewrite (Qmult_comm (pow2 (-53))), Qmult_assoc.
      apply Qmult_le_compat_r; [exact Hp|]. apply Qlt_le_weak, pow2_pos. }
    assert (A : (x / p - (1 # 2)) * p <= r * p)
      by (apply Qmult_le_compat_r; [exact N1 | lra]).
    assert (B : r * p <= (x / p + (1 # 2)) * p)
      by (apply Qmult_le_compat_r; [exact N2 | lra]).
    assert (A' : (x / p - (1 # 2)) * p == x - p * (1 # 2)) by (field; lra).
    assert (B' : (x / p + (1 # 2)) * p == x + p * (1 # 2)) by (field; lra).
    split; lra.
  - rewrite (fl_0 x) by lra. split; rewrite <- Hx; lra.
Qed.


(** Rounding keeps a positive number positive. *)
Lemma fl_pos (x : Q) : 0 < x -> 0 < fl x.
Proof.
  intros Hx. rewrite (fl_pos_eq x Hx).
  destruct (scaled_bounds x Hx) as [L _].
  pose proof (roundTiesToEven_ge _ _ L) as R.
  pose proof (pow2_pos (exponent x - 52)) as P.
  apply Qmult_lt_0_compat; [|exact P].
  change 0 with (inject_Z 0). rewrite <- Zlt_Qlt. lia.
Qed.

(** A whole number of quarters with at most 53 bits is a double. *)
Lemma fl_exact_quarters (x : Q) (k : Z) :
  (0 <= k < 2 ^ 53)%Z -> x == inject_Z k / 4 -> fl x == x.
Proof.
  intros Hk E. destruct (Z.eq_dec k 0) as [->|N].
  - rewrite (fl_0 x); rewrite E; reflexivity.
  - apply (fl_exact x k (-2)); [lia|].
    rewrite E. change (pow2 (-2)) with (/ 4). reflexivity.
Qed.

End DoubleFacts.

(** The rounding [Double.fl] against the IEEE 754 specification of the
    Standard Library ([SpecFloat], binary64): the quotient [m / 60] for
    every number of minutes up to a day, and the products of the prices
    0.1, 0.2, ... 10.0 with the durations of 0.5 to 8 hours. *)
Lemma fl_agrees_with_SpecFloat :
  forallb (fun m =>
             Double.agrees
               (Double.div (inject_Z m) 60)
               (SFdiv 53 1024 (Double.toSpecFloat m) (Double.toSpecFloat 60)))
          (map Z.of_nat (seq 1 1440)) = true
  /\ forallb (fun p =>
       forallb (fun h =>
                  Double.agrees
                    (Double.mul (Double.ofQ (inject_Z p / 10))
                                (Double.ofQ (inject_Z h / 2)))
                    (SFmul 53 1024
                       (SFdiv 53 1024 (Double.toSpecFloat p)
                                      (Double.toSpecFloat 10))
                       (SFdiv 53 1024 (Double.toSpecFloat h)
                                      (Double.toSpecFloat 2))))
               (map Z.of_nat (seq 1 16)))
       (map Z.of_nat (seq 1 100)) = true.
Proof. split; vm_compute; reflexivity. Qed.

(** ** The rounded product of price and duration *)

Section CostFacts.

Import Js Double BookPage.
Local Open Scope Q_scope.

Lemma roundedProduct_comp (p p' d d' : Q) :
  p == p' -> d == d' -> roundedProduct p d = roundedProduct p' d'.
Proof.
  intros Ep Ed. unfold roundedProduct, mul, ofQ.
  apply Math_round_comp, fl_comp.
  now rewrite (fl_comp p p' Ep), (fl_comp d d' Ed).
Qed.

(** A whole price and a whole number of quarter hours: nothing is
    rounded before [Math.round]. *)
Lemma roundedProduct_exact (price d : Q) (p k : Z) :
  (0 <= p < 2 ^ 53)%Z -> (0 <= k < 2 ^ 53)%Z -> (p * k < 2 ^ 53)%Z ->
  price == inject_Z p -> d == inject_Z k / 4 ->
  roundedProduct price d = Math_round (price * d).
Proof.
  intros Hp Hk Hpk Ep Ed. unfold roundedProduct, mul, ofQ.
  apply Math_round_comp.
  assert (E1 : fl price == price).
  { rewrite (fl_comp _ _ Ep), Ep. now apply fl_exact_Z. }
  assert (E2 : fl d == d) by (now apply (fl_exact_quarters d k)).
  rewrite (fl_comp (fl price * fl d) (price * d)) by (now rewrite E1, E2).
  apply (fl_exact_quarters _ (p * k)); [nia|].
  rewrite Ep, Ed, inject_Z_mult. field.
Qed.

Lemma Qmult_le_both (a b c d : Q) :
  0 <= a -> a <= c -> 0 <= b -> b <= d -> a * b <= c * d.
Proof.
  intros Ha Hac Hb Hbd.
  apply Qle_trans with (c * b).
  - apply Qmult_le_compat_r; trivial.
  - rewrite !(Qmult_comm c). apply Qmult_le_compat_r; trivial.
    now apply Qle_trans with a.
Qed.

(** In general three roundings come before [Math.round]; together they
    change the product by a factor between [1 - 2^-51] and [1 + 2^-51]. *)
Lemma product_error (price d : Q) :
  0 <= price -> 0 <= d ->
  price * d * (1 - pow2 (-51)) <= mul (ofQ price) (ofQ d)
  /\ mul (ofQ price) (ofQ d) <= price * d * (1 + pow2 (-51)).
Proof.
  intros Hp Hd. unfold mul, ofQ.
  destruct (fl_error price Hp) as [P1 P2].
  destruct (fl_error d Hd) as [D1 D2].
  pose proof (fl_nonneg price Hp) as Np.
  pose proof (fl_nonneg d Hd) as Nd.
  assert (Nab : 0 <= fl price * fl d) by (now apply Qmult_le_0_compat).
  destruct (fl_error (fl price * fl d) Nab) as [C1 C2].
  set (u := pow2 (-53)) in *.
  assert (U0 : 0 <= 1 - u) by (unfold u; discriminate).
  assert (U1 : 0 <= 1 + u) by (unfold u; discriminate).
  assert (Hi : fl price * fl d <= price * (1 + u) * (d * (1 + u)))
    by (apply Qmult_le_both; trivial).
  assert (Lo : price * (1 - u) * (d * (1 - u)) <= fl price * fl d).
  { apply Qmult_le_both; trivial; now apply Qmult_le_0_compat. }
  assert (Npd : 0 <= price * d) by (now apply Qmult_le_0_compat).
  split.
  - apply Qle_trans with (price * (1 - u) * (d * (1 - u)) * (1 - u)).
    + setoid_replace (price * (1 - u) * (d * (1 - u)) * (1 - u))
        with (price * d * ((1 - u) * (1 - u) * (1 - u))) by ring.
      rewrite !(Qmult_comm (price * d)).
      apply Qmult_le_compat_r; trivial; unfold u; discriminate.
    + apply Qle_trans with (fl price * fl d * (1 - u)); trivial.
      apply Qmult_le_compat_r; trivial.
  - apply Qle_trans with (price * (1 + u) * (d * (1 + u)) * (1 + u)).
    + apply Qle_trans with (fl price * fl d * (1 + u)); trivial.
      apply Qmult_le_compat_r; trivial.
    + setoid_replace (price * (1 + u) * (d * (1 + u)) * (1 + u))
        with (price * d * ((1 + u) * (1 + u) * (1 + u))) by ring.
      rewrite !(Qmult_comm (price * d)).
      apply Qmult_le_compat_r; trivial; unfold u; discriminate.
Qed.

Lemma roundedProduct_bounds (price d : Q) :
  0 <= price -> 0 <= d ->
  (Math_round (price * d * (1 - pow2 (-51))) <= roundedProduct price d
   /\ roundedProduct price d <= Math_round (price * d * (1 + pow2 (-51))))%Z.
Proof.
  intros Hp Hd. destruct (product_error price d Hp Hd) as [L U].
  unfold roundedProduct. split; now apply Math_round_mono.
Qed.

Lemma roundedProduct_mono (price d1 d2 : Q) :
  0 <= price -> 0 <= d1 -> d1 <= d2 ->
  (roundedProduct price d1 <= roundedProduct price d2)%Z.
Proof.
  intros Hp H1 H12. unfold roundedProduct, mul, ofQ.
  pose proof (fl_nonneg price Hp) as Np.
  pose proof (fl_nonneg d1 H1) as N1.
  pose proof (fl_mono d1 d2 H1 H12) as M.
  apply Math_round_mono, fl_mono.
  - now apply Qmult_le_0_compat.
  - rewrite !(Qmult_comm (fl price)). now apply Qmult_le_compat_r.
Qed.

Lemma roundedProduct_nonneg (price d : Q) :
  0 <= price -> 0 <= d -> (0 <= roundedProduct price d)%Z.
Proof.
  intros Hp Hd. unfold roundedProduct, mul, ofQ.
  apply Math_round_nonneg, fl_nonneg, Qmult_le_0_compat; now apply fl_nonneg.
Qed.

(** A price in whole quarters and a whole number of hours. *)
Lemma roundedProduct_exact_quarter_price (price d : Q) (j h : Z) :
  (0 <= j < 2 ^ 53)%Z -> (0 <= h < 2 ^ 53)%Z -> (j * h < 2 ^ 53)%Z ->
  price == inject_Z j / 4 -> d == inject_Z h ->
  roundedProduct price d = Math_round (price * d).
Proof.
  intros Hj Hh Hjh Ep Ed. unfold roundedProduct, mul, ofQ.
  apply Math_round_comp.
  assert (E1 : fl price == price) by (now apply (fl_exact_quarters price j)).
  assert (E2 : fl d == d).
  { rewrite (fl_comp _ _ Ed), Ed. now apply fl_exact_Z. }
  rewrite (fl_comp (fl price * fl d) (price * d)) by (now rewrite E1, E2).
  apply (fl_exact_quarters _ (j * h)); [nia|].
  rewrite Ep, Ed, inject_Z_mult. field.
Qed.

(** Six hours at a price in whole hundredths: the roundings of the
    double product never change the result of [Math.round]. *)
Lemma six_hours_in_cents (price d : Q) (c : Z) :
  (0 <= c < 2 ^ 40)%Z -> price == inject_Z c / 100 -> d == 6 ->
  roundedProduct price d = Math_round (price * d).
Proof.
  intros Hc Ep Ed.
  assert (P0 : 0 <= price).
  { rewrite Ep. apply Qle_shift_div_l; [reflexivity|].
    rewrite Qmult_0_l. change 0 with (inject_Z 0). rewrite <- Zle_Qle. lia. }
  assert (D0 : 0 <= d) by (rewrite Ed; discriminate).
  destruct (product_error price d P0 D0) as [L U].
  change (pow2 (-51)) with (1 # 2251799813685248) in L, U.
  destruct (Math_round_nearest (price * d)) as [N1 N2].
  assert (X : 50 * (price * d) == 3 * inject_Z c) by (rewrite Ep, Ed; field).
  unfold roundedProduct.
  set (y := mul (ofQ price) (ofQ d)) in *.
  set (x := price * d) in *.
  set (n := Math_round x) in *.
  assert (C0 : 0 <= inject_Z c)
    by (change 0 with (inject_Z 0); rewrite <- Zle_Qle; lia).
  assert (C1 : inject_Z c < inject_Z (2 ^ 40)) by (rewrite <- Zlt_Qlt; lia).
  change (inject_Z (2 ^ 40)) with 1099511627776 in C1.
  assert (R : (50 * n <= 3 * c + 25 < 50 * n + 50)%Z).
  { split.
    - rewrite Zle_Qle, inject_Z_mult, inject_Z_plus, inject_Z_mult.
      change (inject_Z 50) with 50. change (inject_Z 25) with 25.
      change (inject_Z 3) with 3. lra.
    - rewrite Zlt_Qlt, !inject_Z_plus, !inject_Z_mult.
      change (inject_Z 50) with 50. change (inject_Z 25) with 25.
      change (inject_Z 3) with 3. lra. }
  destruct (Z.eq_dec (3 * c + 25) (50 * n)) as [T|T].
  - (* a tie: the price is a whole number of quarters *)
    pose proof (Z.div_mod c 25) as DM.
    pose proof (Z.mod_pos_bound c 25) as MB.
    assert (E : c = (25 * (c / 25))%Z) by lia.
    unfold y, n, x.
    apply (roundedProduct_exact_quarter_price price d (c / 25) 6); try lia.
    + rewrite Ep. rewrite E at 1. rewrite inject_Z_mult. field.
    + exact Ed.
  - (* no tie: the result is at least 1/50 away from the next change *)
    assert (R1 : inject_Z (50 * n + 1) <= inject_Z (3 * c + 25))
      by (rewrite <- Zle_Qle; lia).
    assert (R2 : inject_Z (3 * c + 25) <= inject_Z (50 * n + 49))
      by (rewrite <- Zle_Qle; lia).
    rewrite !inject_Z_plus, !inject_Z_mult in R1, R2.
    change (inject_Z 50) with 50 in R1, R2.
    change (inject_Z 25) with 25 in R1, R2.
    change (inject_Z 49) with 49 in R2. change (inject_Z 1) with 1 in R1.
    change (inject_Z 3) with 3 in R1, R2.
    unfold Math_round at 1.
    apply Qfloor_unique; lra.
Qed.

End CostFacts.

(** ** Durations compared with the configured bounds *)

Section DurationTests.

Import Js Double.
Local Open Scope Q_scope.

(** [calculateDuration] is modelled by the exact quotient, and its
    result is compared with the configured minimum and maximum as exact
    numbers.  The code compares the doubles.  For a duration of up to
    two days and a bound with at most two decimals the answers are the
    same. *)
Lemma duration_tests_on_doubles (m n : Z) :
  (0 <= m <= 2880)%Z -> (0 <= n < 2 ^ 30)%Z ->
  Qltb (div (inject_Z m) 60) (ofQ (inject_Z n / 100))
  = Qltb (inject_Z m / 60) (inject_Z n / 100)
  /\ Qltb (ofQ (inject_Z n / 100)) (div (inject_Z m) 60)
     = Qltb (inject_Z n / 100) (inject_Z m / 60).
Proof.
  intros Hm Hn. unfold div, ofQ.
  assert (M0 : 0 <= inject_Z m)
    by (change 0 with (inject_Z 0); rewrite <- Zle_Qle; lia).
  assert (M1 : inject_Z m <= inject_Z 2880) by (rewrite <- Zle_Qle; lia).
  assert (N0 : 0 <= inject_Z n)
    by (change 0 with (inject_Z 0); rewrite <- Zle_Qle; lia).
  assert (N1 : inject_Z n < inject_Z (2 ^ 30)) by (rewrite <- Zlt_Qlt; lia).
  change (inject_Z 2880) with 2880 in M1.
  change (inject_Z (2 ^ 30)) with 1073741824 in N1.
  assert (A0 : 0 <= inject_Z m / 60) by (apply Qle_shift_div_l; lra).
  assert (B0 : 0 <= inject_Z n / 100) by (apply Qle_shift_div_l; lra).
  destruct (fl_error _ A0) as [A1 A2]. destruct (fl_error _ B0) as [B1 B2].
  change (pow2 (-53)) with (1 # 9007199254740992) in A1, A2, B1, B2.
  assert (Ea : 60 * (inject_Z m / 60) == inject_Z m) by field.
  assert (Eb : 100 * (inject_Z n / 100) == inject_Z n) by field.
  set (a := inject_Z m / 60) in *. set (b := inject_Z n / 100) in *.
  destruct (Z.lt_trichotomy (5 * m) (3 * n)) as [C|[C|C]].
  - (* the duration is below the bound, by 1/300 at least *)
    assert (G : inject_Z (5 * m + 1) <= inject_Z (3 * n))
      by (rewrite <- Zle_Qle; lia).
    rewrite inject_Z_plus, !inject_Z_mult in G.
    change (inject_Z 5) with 5 in G. change (inject_Z 3) with 3 in G.
    change (inject_Z 1) with 1 in G.
    assert (L1 : fl a < fl b) by lra. assert (L2 : a < b) by lra.
    rewrite (proj2 (Qltb_lt _ _) L1), (proj2 (Qltb_lt _ _) L2).
    split; [reflexivity|].
    rewrite (proj2 (Qltb_ge _ _)), (proj2 (Qltb_ge _ _)); trivial;
      now apply Qlt_le_weak.
  - (* the two are equal *)
    assert (E : a == b).
    { assert (G : inject_Z (5 * m) == inject_Z (3 * n)) by (now rewrite C).
      rewrite !inject_Z_mult in G.
      change (inject_Z 5) with 5 in G. change (inject_Z 3) with 3 in G. lra. }
    pose proof (fl_comp a b E) as F.
    rewrite !(proj2 (Qltb_ge _ _)); try (split; reflexivity);
      rewrite ?E, ?F; apply Qle_refl.
  - (* the duration is above the bound *)
    assert (G : inject_Z (3 * n + 1) <= inject_Z (5 * m))
      by (rewrite <- Zle_Qle; lia).
    rewrite inject_Z_plus, !inject_Z_mult in G.
    change (inject_Z 5) with 5 in G. change (inject_Z 3) with 3 in G.
    change (inject_Z 1) with 1 in G.
    assert (L1 : fl b < fl a) by lra. assert (L2 : b < a) by lra.
    rewrite (proj2 (Qltb_lt _ _) L1), (proj2 (Qltb_lt _ _) L2).
    split; [|reflexivity].
    rewrite (proj2 (Qltb_ge _ _)), (proj2 (Qltb_ge _ _)); trivial;
      now apply Qlt_le_weak.
Qed.

End DurationTests.

(** ** Claim C4: overnight wrap of the duration *)

(** C4. For two times of day with the end not after the start: when
    [is_24_7] is true the duration is that of the end moved 1440 minutes
    later, and the cost is the rounded product of the price and that
    duration (so 23:00-05:00 lasts 6 hours and costs 6 times the price:
    exactly that for a whole price, and that rounded to the nearest whole
    unit, a half going up, for a price in whole hundredths); when
    [is_24_7] is false the duration is 0 and the cost is 0. *)
Theorem duration_wraps_only_in_24_7 :
  forall (settings : SystemSettings) (game : Game) (s e : Z),
    0 <= s < 1440 -> 0 <= e < 1440 -> e <= s ->
    (is_24_7 settings = true ->
     BookPage.calculateDuration (Some settings)
       (BookPage.formatTime s) (BookPage.formatTime e)
     = Some (inject_Z (e + 1440 - s) / 60)%Q
     /\ BookPage.calculateCost (Some game) (Some settings)
          (BookPage.formatTime s) (BookPage.formatTime e)
        = BookPage.roundedProduct (price_per_hour game)
                                  (inject_Z (e + 1440 - s) / 60)%Q
     /\ BookPage.calculateDuration (Some settings) "23:00" "05:00"
        = Some (inject_Z 360 / 60)%Q
     /\ (forall p : Z, 0 <= p < 2 ^ 48 ->
           (price_per_hour game == inject_Z p)%Q ->
           BookPage.calculateCost (Some game) (Some settings) "23:00" "05:00"
           = p * 6)
     /\ (forall c : Z, 0 <= c < 2 ^ 40 ->
           (price_per_hour game == inject_Z c / 100)%Q ->
           BookPage.calculateCost (Some game) (Some settings) "23:00" "05:00"
           = Js.Math_round (price_per_hour game * 6)%Q))
    /\ (is_24_7 settings = false ->
        BookPage.calculateDuration (Some settings)
          (BookPage.formatTime s) (BookPage.formatTime e) = Some 0%Q
        /\ BookPage.calculateCost (Some game) (Some settings)
             (BookPage.formatTime s) (BookPage.formatTime e) = 0).
Proof.
  intros settings game s e Hs He Hes.
  assert (Hs' : 0 <= s <= 1440) by lia.
  assert (He' : 0 <= e <= 1440) by lia.
  pose proof (calculateDuration_times settings s e Hs' He') as D.
  assert (L : (s <? e) = false) by (apply Z.ltb_ge; lia).
  rewrite L in D.
  split; intros H247; rewrite H247 in D; cbn [andb] in D.
  - assert (W : (s <? e + 24 * 60) = true) by (apply Z.ltb_lt; lia).
    rewrite W in D.
    assert (D6 : BookPage.calculateDuration (Some settings) "23:00" "05:00"
                 = Some (inject_Z 360 / 60)%Q)
      by (unfold BookPage.calculateDuration; rewrite H247; reflexivity).
    assert (C6 : BookPage.calculateCost (Some game) (Some settings)
                   "23:00" "05:00"
                 = BookPage.roundedProduct (price_per_hour game)
                                           (inject_Z 360 / 60)%Q).
    { unfold BookPage.calculateCost. cbn [BookPage.isEmpty orb].
      now rewrite D6, (hours_positive 360) by lia. }
    split; [exact D|]. split; [|split; [|split]].
    + unfold BookPage.calculateCost.
      rewrite (formatTime_not_empty s Hs'), (formatTime_not_empty e He').
      cbn [orb]. rewrite D.
      change (e + 24 * 60 - s) with (e + 1440 - s).
      rewrite hours_positive by lia. reflexivity.
    + exact D6.
    + intros p Hp Ep. rewrite C6.
      rewrite (roundedProduct_exact _ _ p 24); trivial; try lia;
        try reflexivity.
      rewrite (Math_round_comp _ (inject_Z (p * 6))).
      * apply Math_round_inject_Z.
      * rewrite Ep, inject_Z_mult. field.
    + intros c Hc Ec. rewrite C6.
      rewrite (six_hours_in_cents _ _ c Hc Ec); [|reflexivity].
      apply Math_round_comp.
      apply Qmult_comp; reflexivity.
  - split; [exact D|].
    unfold BookPage.calculateCost.
    rewrite (formatTime_not_empty s Hs'), (formatTime_not_empty e He').
    cbn [orb]. rewrite D. reflexivity.
Qed.

(** Scenario 4 through the theorem: 23:00 is minute 1380, 05:00 is
    minute 300. *)
Lemma duration_wraps_only_in_24_7_witness :
  BookPage.calculateDuration (Some settings_24_7)
    (BookPage.formatTime 1380) (BookPage.formatTime 300)
  = Some (inject_Z (300 + 1440 - 1380) / 60)%Q.
Proof.
  refine (proj1 (proj1 (duration_wraps_only_in_24_7 settings_24_7
                          {| game_id_of := "g"; price_per_hour := 500 |}
                          1380 300 _ _ _) eq_refl)); lia.
Defined.

(** ** Claim C5: the cost of a candidate interval *)

(** C5 (as amended). For a positive hourly price and an interval of
    duration [d] hours, the cost is [Math.round] of the product formed
    in double arithmetic: for a price below [2^1000] (so that no double
    overflows) the whole number nearest, a half going up, to a value
    between [price * d * (1 - 2^-51)] and [price * d * (1 + 2^-51)]; and
    it is exactly the whole number nearest to [price * d], a half going
    up, when the price is a whole number [p] and the duration a whole
    number [k] of quarter hours with [p * k < 2^53].  A duration of 0 or
    less costs 0.  The cost of an interval from [t] to [t] is 0 when
    [is_24_7] is false; when it is true such an interval wraps to 24
    hours and costs 24 times a whole price.  A price of 500 over
    14:00-15:30 costs 750. *)
Theorem cost_is_rounded_price_times_duration :
  forall (game : Game) (settings : SystemSettings)
         (startTime endTime : string) (d : Q),
    (0 < price_per_hour game)%Q ->
    BookPage.isEmpty startTime = false ->
    BookPage.isEmpty endTime = false ->
    BookPage.calculateDuration (Some settings) startTime endTime = Some d ->
    ((0 < d)%Q ->
     ((price_per_hour game < Double.pow2 1000)%Q ->
      Js.Math_round (price_per_hour game * d * (1 - Double.pow2 (-51)))%Q
      <= BookPage.calculateCost (Some game) (Some settings) startTime endTime
      /\ BookPage.calculateCost (Some game) (Some settings) startTime endTime
         <= Js.Math_round (price_per_hour game * d * (1 + Double.pow2 (-51)))%Q)
     /\ (forall p k : Z,
           0 <= p < 2 ^ 53 -> 0 <= k < 2 ^ 53 -> p * k < 2 ^ 53 ->
           (price_per_hour game == inject_Z p)%Q ->
           (d == inject_Z k / 4)%Q ->
           (inject_Z (BookPage.calculateCost (Some game) (Some settings)
                                             startTime endTime)
            <= price_per_hour game * d + (1 # 2))%Q
           /\ (price_per_hour game * d + (1 # 2)
               < inject_Z (BookPage.calculateCost (Some game) (Some settings)
                                                  startTime endTime) + 1)%Q))
    /\ ((d <= 0)%Q ->
        BookPage.calculateCost (Some game) (Some settings) startTime endTime = 0)
    /\ (is_24_7 settings = false ->
        BookPage.calculateCost (Some game) (Some settings) startTime startTime
        = 0)
    /\ (is_24_7 settings = true ->
        forall t : Z, 0 <= t < 1440 ->
          BookPage.calculateCost (Some game) (Some settings)
            (BookPage.formatTime t) (BookPage.formatTime t)
          = BookPage.roundedProduct (price_per_hour game) (inject_Z 1440 / 60)%Q
          /\ (forall p : Z, 0 <= p < 2 ^ 46 ->
                (price_per_hour game == inject_Z p)%Q ->
                BookPage.calculateCost (Some game) (Some settings)
                  (BookPage.formatTime t) (BookPage.formatTime t)
                = 24 * p))
    /\ BookPage.calculateCost
         (Some {| game_id_of := game_id_of game; price_per_hour := 500 |})
         (Some settings) "14:00" "15:30" = 750.
Proof.
  intros game settings startTime endTime d Hprice Hs He Hd.
  split; [|split; [|split; [|split]]].
  - intros Hpos.
    assert (C : BookPage.calculateCost (Some game) (Some settings)
                  startTime endTime
                = BookPage.roundedProduct (price_per_hour game) d).
    { unfold BookPage.calculateCost. rewrite Hs, He, Hd. cbn [orb].
      now rewrite (proj2 (Qltb_lt 0 d) Hpos). }
    rewrite C. split.
    + intros _. apply roundedProduct_bounds; now apply Qlt_le_weak.
    + intros p k Hp Hk Hpk Ep Ek.
      rewrite (roundedProduct_exact _ _ p k Hp Hk Hpk Ep Ek).
      apply Math_round_nearest.
  - intros Hle. unfold BookPage.calculateCost.
    rewrite Hs, He, Hd. cbn [orb].
    now rewrite (proj2 (Qltb_ge 0 d) Hle).
  - intros H247. unfold BookPage.calculateCost, BookPage.calculateDuration.
    rewrite Hs, H247. cbn [orb andb].
    destruct (BookPage.totalMinutes startTime) as [m|]; trivial.
    now rewrite Z.leb_refl.
  - intros H247 t Ht.
    assert (Ht' : 0 <= t <= 1440) by lia.
    pose proof (calculateDuration_times settings t t Ht' Ht') as D.
    rewrite Z.ltb_irrefl, H247 in D. cbn [andb] in D.
    assert (W : (t <? t + 24 * 60) = true) by (apply Z.ltb_lt; lia).
    rewrite W in D.
    assert (C : BookPage.calculateCost (Some game) (Some settings)
                  (BookPage.formatTime t) (BookPage.formatTime t)
                = BookPage.roundedProduct (price_per_hour game)
                                          (inject_Z 1440 / 60)%Q).
    { unfold BookPage.calculateCost.
      rewrite (formatTime_not_empty t Ht'). cbn [orb]. rewrite D.
      replace (t + 24 * 60 - t) with 1440 by lia.
      now rewrite (hours_positive 1440) by lia. }
    split; [exact C|].
    intros p Hp Ep. rewrite C.
    rewrite (roundedProduct_exact _ _ p 96); trivial; try lia;
      try reflexivity.
    rewrite (Math_round_comp _ (inject_Z (24 * p))).
    + apply Math_round_inject_Z.
    + rewrite Ep, inject_Z_mult. field.
  - unfold BookPage.calculateCost, BookPage.calculateDuration.
    destruct (is_24_7 settings); vm_compute; reflexivity.
Qed.

(** Scenario 2 through the theorem. *)
Lemma cost_is_rounded_price_times_duration_witness :
  BookPage.calculateCost
    (Some {| game_id_of := "cricket"; price_per_hour := 500 |})
    (Some defaultSettings) "14:00" "15:30" = 750.
Proof.
  refine (proj2 (proj2 (proj2 (proj2
    (cost_is_rounded_price_times_duration
       {| game_id_of := "cricket"; price_per_hour := 500 |}
       defaultSettings "14:00" "15:30" (inject_Z 90 / 60)%Q _ _ _ _))))).
  - reflexivity.
  - reflexivity.
  - reflexivity.
  - reflexivity.
Defined.

(** C5 as stated fails in two ways.  Under 24/7 operation
    [cost(price, t, t)] is not 0: at price 500, the interval 10:00-10:00
    costs 12000.  And the product is rounded as a double before
    [Math.round] sees it: at price 8.2 the interval 10:00-17:30 (7.5
    hours) costs 61, while 8.2 times 7.5 is 61.5, which a half going up
    rounds to 62. *)
Lemma cost_claim_counterexample :
  ((0 < 500)%Q
   /\ BookPage.calculateCost
        (Some {| game_id_of := "cricket"; price_per_hour := 500 |})
        (Some settings_24_7) "10:00" "10:00" = 12000
   /\ BookPage.calculateCost
        (Some {| game_id_of := "cricket"; price_per_hour := 500 |})
        (Some settings_24_7) "10:00" "10:00" <> 0)
  /\ ((0 < 82 # 10)%Q
      /\ BookPage.calculateDuration (Some defaultSettings) "10:00" "17:30"
         = Some (inject_Z 450 / 60)%Q
      /\ BookPage.calculateCost
           (Some {| game_id_of := "cricket"; price_per_hour := 82 # 10 |})
           (Some defaultSettings) "10:00" "17:30" = 61
      /\ Js.Math_round ((82 # 10) * (inject_Z 450 / 60))%Q = 62).
Proof.
  split.
  - split; [reflexivity|]. split; [vm_compute; reflexivity|].
    vm_compute. discriminate.
  - split; [reflexivity|]. split; [reflexivity|].
    split; vm_compute; reflexivity.
Qed.

(** ** Claim C6: the candidate start times *)

Section SlotGenerator.

Import Js BookPage Spec.

Variables stop slot : Z.
Hypothesis slot_pos : 0 < slot.

Lemma slotCount_done (m : Z) : stop <= m -> slotCount m stop slot = O.
Proof.
  intros H. unfold slotCount.
  assert ((stop - m + slot - 1) / slot <= 0); [|lia].
  apply Z.lt_succ_r. apply Z.div_lt_upper_bound; lia.
Qed.

Lemma slotCount_step (m : Z) :
  m < stop -> slotCount m stop slot = S (slotCount (m + slot) stop slot).
Proof.
  intros H. unfold slotCount.
  replace (stop - m + slot - 1) with (stop - (m + slot) + slot - 1 + 1 * slot)
    by lia.
  rewrite Z.div_add by lia.
  assert (0 <= (stop - (m + slot) + slot - 1) / slot)
    by (apply Z.div_pos; lia).
  lia.
Qed.

(** With enough fuel the loop ends, and yields the slot times in order. *)
Lemma timeLoop_enough (fuel : nat) :
  forall m, (slotCount m stop slot <= fuel)%nat ->
    timeLoop fuel m stop slot
    = Some (map formatTime (slotTimes (slotCount m stop slot) m slot)).
Proof.
  induction fuel as [|fuel IH]; intros m Hfuel.
  - destruct (Z.ltb_spec m stop) as [Hlt|Hge].
    + rewrite (slotCount_step m Hlt) in Hfuel. lia.
    + simpl. rewrite (proj2 (Z.ltb_ge m stop) Hge).
      now rewrite (slotCount_done m Hge).
  - simpl. destruct (Z.ltb_spec m stop) as [Hlt|Hge].
    + rewrite (slotCount_step m Hlt) in *.
      rewrite IH by lia. reflexivity.
    + now rewrite (slotCount_done m Hge).
Qed.

Lemma slotTimes_nth (n : nat) :
  forall first k, (k < n)%nat ->
    nth_error (slotTimes n first slot) k = Some (first + Z.of_nat k * slot).
Proof.
  induction n as [|n IH]; intros first k Hk; [lia|].
  destruct k as [|k]; cbn [slotTimes nth_error].
  - f_equal. lia.
  - rewrite IH by lia. f_equal. lia.
Qed.

(** The last time is below [stop], and one more slot would not be. *)
Lemma slotCount_bounds (first : Z) :
  first < stop ->
  (0 < slotCount first stop slot)%nat
  /\ first + (Z.of_nat (slotCount first stop slot) - 1) * slot < stop
  /\ stop <= first + Z.of_nat (slotCount first stop slot) * slot.
Proof.
  intros H. unfold slotCount.
  set (q := (stop - first + slot - 1) / slot).
  assert (Hq : 0 <= q) by (apply Z.div_pos; lia).
  pose proof (Z.mul_div_le (stop - first + slot - 1) slot slot_pos) as L.
  pose proof (Z.mul_succ_div_gt (stop - first + slot - 1) slot slot_pos) as U.
  fold q in L, U.
  assert (q <> 0).
  { intros E. rewrite E in U. lia. }
  rewrite Z2Nat.id by lia. repeat split; nia.
Qed.

End SlotGenerator.

Section StartTimes.

Import Js BookPage Spec.

Lemma slotCount_at_most_96 (first stop slot : Z) :
  In slot [15; 30; 60] -> 0 <= first -> stop <= 1440 ->
  (slotCount first stop slot <= 96)%nat.
Proof.
  intros Hslot Hf Hs. unfold slotCount.
  assert ((stop - first + slot - 1) / slot <= 96); [|lia].
  apply Z.lt_succ_r.
  destruct Hslot as [<- | [<- | [<- | []]]];
    apply Z.div_lt_upper_bound; lia.
Qed.

Lemma slot_is_positive (slot : Z) : In slot [15; 30; 60] -> 0 < slot.
Proof. intros [<- | [<- | [<- | []]]]; lia. Qed.

Lemma hd_slotTimes (n : nat) (first slot : Z) :
  (0 < n)%nat ->
  hd_error (map formatTime (slotTimes n first slot)) = Some (formatTime first).
Proof. destruct n; [lia | reflexivity]. Qed.

(** What the generator returns for a window [first, stop). *)
Lemma timeLoop_window (fuel : nat) (first stop slot : Z) :
  In slot [15; 30; 60] -> 0 <= first < stop -> stop <= 1440 ->
  (96 <= fuel)%nat ->
  timeLoop fuel first stop slot
  = Some (map formatTime (slotTimes (slotCount first stop slot) first slot)).
Proof.
  intros Hslot Hf Hs Hfuel.
  apply timeLoop_enough; [now apply slot_is_positive|].
  pose proof (slotCount_at_most_96 first stop slot Hslot) as B. lia.
Qed.

End StartTimes.

(** C6. For settings with a slot of 15, 30 or 60 minutes and, outside
    24/7 operation, opening and closing times of day with the opening
    first: given enough fuel (96 iterations) the generator returns the
    [HH:MM] texts of the times [first], [first + slot], ... in order,
    where [first] is the opening time (00:00 under 24/7); there is at
    least one; each lies strictly below the closing time (24:00 under
    24/7) and the next one after the last would not; under 24/7 there
    are exactly [1440 / slot] of them.  For 06:00-22:00 with slot 30 the
    first is "06:00" and the last "21:30". *)
Theorem generateTimeOptions_slots :
  forall (s : SystemSettings) (o c : Z) (fuel : nat),
    In (booking_slot_duration s) [15; 30; 60] ->
    (is_24_7 s = false ->
     0 <= o < c /\ c <= 1440
     /\ opening_time s = BookPage.formatTime o
     /\ closing_time s = BookPage.formatTime c) ->
    (96 <= fuel)%nat ->
    let first := if is_24_7 s then 0 else o in
    let stop := if is_24_7 s then 1440 else c in
    let slot := booking_slot_duration s in
    let n := Spec.slotCount first stop slot in
    BookPage.generateTimeOptions fuel (Some s)
    = Some (map BookPage.formatTime (Spec.slotTimes n first slot))
    /\ (0 < n)%nat
    /\ hd_error (map BookPage.formatTime (Spec.slotTimes n first slot))
       = Some (if is_24_7 s then "00:00" else opening_time s)
    /\ (forall k, (k < n)%nat ->
          nth_error (Spec.slotTimes n first slot) k
          = Some (first + Z.of_nat k * slot)
          /\ first + Z.of_nat k * slot < stop)
    /\ stop <= first + Z.of_nat n * slot
    /\ (is_24_7 s = true -> Z.of_nat n = 1440 / slot)
    /\ (exists l, BookPage.generateTimeOptions fuel (Some defaultSettings)
                  = Some l
                  /\ hd_error l = Some "06:00" /\ last l "" = "21:30").
Proof.
  intros s o c fuel Hslot Hopen Hfuel first stop slot n.
  assert (Hpos : 0 < slot) by now apply slot_is_positive.
  assert (Hwin : 0 <= first < stop /\ stop <= 1440).
  { unfold first, stop. destruct (is_24_7 s); [lia|].
    destruct (Hopen eq_refl) as (? & ? & _). lia. }
  destruct Hwin as [Hfirst Hstop].
  destruct (slotCount_bounds stop slot Hpos first (proj2 Hfirst))
    as (Hn & Hlast & Hcover).
  fold n in Hn, Hlast, Hcover.
  split; [|split; [|split; [|split; [|split; [|split]]]]].
  - unfold BookPage.generateTimeOptions. fold slot.
    unfold n, first, stop. destruct (is_24_7 s) eqn:H247.
    + now apply timeLoop_window.
    + destruct (Hopen eq_refl) as (Ho & Hc & -> & ->).
      rewrite !totalMinutes_formatTime by lia.
      apply timeLoop_window; trivial.
  - exact Hn.
  - rewrite hd_slotTimes by exact Hn. unfold first.
    destruct (is_24_7 s); [reflexivity|].
    destruct (Hopen eq_refl) as (_ & _ & -> & _). reflexivity.
  - intros k Hk. split.
    + now apply slotTimes_nth.
    + nia.
  - exact Hcover.
  - intros H247. unfold n, first, stop, Spec.slotCount. rewrite H247.
    unfold slot in *.
    destruct Hslot as [<- | [<- | [<- | []]]]; reflexivity.
  - eexists. split.
    + unfold BookPage.generateTimeOptions. cbn [is_24_7 defaultSettings].
      change (BookPage.totalMinutes (opening_time defaultSettings))
        with (Some 360).
      change (BookPage.totalMinutes (closing_time defaultSettings))
        with (Some 1320).
      cbv iota. apply timeLoop_window; cbn; try lia; tauto.
    + split; vm_compute; reflexivity.
Qed.

(** Scenario 1 through the theorem: the default settings, 06:00 being
    minute 360 and 22:00 minute 1320. *)
Lemma generateTimeOptions_slots_witness :
  BookPage.generateTimeOptions 96 (Some defaultSettings)
  = Some (map BookPage.formatTime (Spec.slotTimes 32 360 30)).
Proof.
  refine (proj1 (generateTimeOptions_slots defaultSettings 360 1320 96 _ _ _)).
  - right. left. reflexivity.
  - intros _. repeat split; try lia; reflexivity.
  - apply le_n.
Defined.

(** ** Claim C7: settings validation *)

(** C7 (the code departs from it). A supplied [min_booking_duration] of
    0 lies outside [0.5, 8], yet [validateSettings] reports no error and
    answers [isValid = true]: its guard [settings.min_booking_duration &&
    ...] takes the number 0 for an absent field.  The same holds for 0 in
    [max_booking_duration], [advance_booking_days] and
    [booking_slot_duration], and for a minimum equal to the maximum when
    both are 0. *)
Theorem validateSettings_zero_passes :
  SettingsService.validateSettings Examples.zeroMinimum
  = {| SettingsService.isValid := true; SettingsService.errors := [] |}
  /\ SettingsService.validateSettings Examples.allZero
     = {| SettingsService.isValid := true; SettingsService.errors := [] |}.
Proof. split; reflexivity. Qed.

(** Non-zero values that break the rules are all reported, in the order
    of the checks. *)
Example validateSettings_collects_all :
  SettingsService.validateSettings Examples.allWrong
  = {| SettingsService.isValid := false;
       SettingsService.errors :=
         [ "Opening time must be before closing time";
           "Advance booking days must be between 1 and 30";
           "Booking slot duration must be 15, 30, or 60 minutes";
           "Minimum booking duration must be less than maximum duration";
           "Minimum booking duration must be between 0.5 and 8 hours";
           "Maximum booking duration must be between 1 and 12 hours";
           "Cancellation deadline must be between 0 and 48 hours" ] |}.
Proof. reflexivity. Qed.


(** ** Claim C8: cancellation by the user *)

Section UserCancel.

Import Js BookingService MyBookingsPage.

Lemma two_hours_in_ms (x : Z) :
  Qltb 2 (inject_Z x / inject_Z (1000 * 60 * 60)) = true
  <-> 2 * 3600000 < x.
Proof.
  rewrite Qltb_lt. unfold Qlt, Qdiv, Qmult, Qinv, inject_Z. simpl.
  lia.
Qed.

End UserCancel.

(** C8 (as amended). When the booking's start parses to the timestamp
    [t], [canCancelBooking] allows the cancellation exactly when the
    booking is pending, or is confirmed with more than 2 hours (7200000
    ms) left before the start: the bound is the constant 2 of the page,
    which is the rule of the specification at a deadline of 2; a pending
    booking may always be canceled. *)
Theorem canCancelBooking_two_hours :
  forall (Date_getTime : string -> option Z)
         (booking : BookingService.Booking) (now t : Z),
    Date_getTime (BookingService.booking_date booking ++ "T"
                  ++ BookingService.start_time booking) = Some t ->
    (MyBookingsPage.canCancelBooking Date_getTime booking now = true <->
     BookingService.status booking = pending
     \/ (BookingService.status booking = confirmed
         /\ 2 * 3600000 < t - now))
    /\ MyBookingsPage.canCancelBooking Date_getTime booking now
       = Spec.user_may_cancel 2 (BookingService.status booking) (t - now)
    /\ (forall D b n, BookingService.status b = pending ->
                      MyBookingsPage.canCancelBooking D b n = true).
Proof.
  intros D b now t Ht. unfold MyBookingsPage.canCancelBooking.
  rewrite Ht. cbn [option_map].
  pose proof (two_hours_in_ms (t - now)) as H2.
  split; [|split].
  - destruct (BookingService.status b); cbn [BookingStatus_eqb orb andb].
    + split; auto.
    + split.
      * intros H. right. split; trivial. now apply H2.
      * intros [E | [_ H]]; [discriminate E|]. now apply H2.
    + split; [discriminate|]. intros [E | [E _]]; discriminate E.
    + split; [discriminate|]. intros [E | [E _]]; discriminate E.
    + split; [discriminate|]. intros [E | [E _]]; discriminate E.
  - destruct (BookingService.status b);
      cbn [BookingStatus_eqb orb andb Spec.user_may_cancel]; trivial.
    destruct (Z.ltb_spec (2 * 3600000) (t - now)) as [L|L].
    + now apply H2.
    + apply not_true_is_false. intros E. apply H2 in E. lia.
  - intros D' b' n' E. unfold MyBookingsPage.canCancelBooking.
    now rewrite E.
Qed.

(** A confirmed booking starting in three hours, through the theorem. *)
Lemma canCancelBooking_two_hours_witness :
  MyBookingsPage.canCancelBooking (Examples.startsAt 10800000)
    (Examples.booking 0 confirmed) 0
  = Spec.user_may_cancel 2 confirmed (10800000 - 0).
Proof.
  refine (proj1 (proj2 (canCancelBooking_two_hours
                          (Examples.startsAt 10800000)
                          (Examples.booking 0 confirmed) 0 10800000 _))).
  reflexivity.
Defined.

(** C8 as stated fails when the configured deadline is not 2: with a
    [cancellation_deadline] of 24 hours, a confirmed booking that starts
    in 3 hours can still be canceled on the page. *)
Lemma canCancelBooking_deadline_counterexample :
  0 <= cancellation_deadline Examples.deadline24 <= 48
  /\ ~ (MyBookingsPage.canCancelBooking (Examples.startsAt 10800000)
          (Examples.booking 0 confirmed) 0 = true
        <-> Spec.user_may_cancel
              (cancellation_deadline Examples.deadline24)
              confirmed (10800000 - 0) = true).
Proof.
  split; [cbn; lia|].
  intros [H _]. specialize (H eq_refl). discriminate H.
Qed.

(** ** Claim C10: the earliest selectable date *)

Section LocalDates.

Import BookPage.

(** Where the zone's offset is the same at [now] and at the local time
    [n] days on, [setDate] moves the instant by [n] times 24 hours. *)
Lemma addDays_same_offset (tz : TimeZone) (now n z : Z) :
  offsetAtInstant tz now = z ->
  offsetAtLocal tz (now + z + n * 86400000) = z ->
  addDays tz now n = now + n * 86400000.
Proof.
  intros Hi Hl. unfold addDays, UTC, LocalTime, Day, TimeWithinDay, msPerDay.
  rewrite Hi.
  assert (E : ((now + z) / 86400000 + n) * 86400000 + (now + z) mod 86400000
              = now + z + n * 86400000).
  { pose proof (Z.div_mod (now + z) 86400000). lia. }
  rewrite E, Hl. lia.
Qed.

End LocalDates.

(** C10 (a defect of the code). [getMinDate] moves the date in local
    time but returns the UTC calendar day of the result, so its answer is
    the UTC date of now, plus one day outside 24/7 operation.  That is
    today's or tomorrow's date only where local time is UTC.  In a zone
    ahead of UTC by [z], during the first [z] of the local day, the
    minimum outside 24/7 operation is the user's own date: a same-day
    booking is offered.  In a zone behind UTC, during the last hours of
    the local day, the minimum under 24/7 operation is the user's
    tomorrow. *)
Theorem getMinDate_is_a_utc_date :
  forall (tz : BookPage.TimeZone) (settings : SystemSettings) (now z : Z),
    BookPage.offsetAtInstant tz now = z ->
    BookPage.offsetAtLocal tz (now + z + 1 * 86400000) = z ->
    BookPage.getMinDate tz (Some settings) now
    = (if is_24_7 settings then now / 86400000 else now / 86400000 + 1)
    /\ BookPage.localDate tz now = (now + z) / 86400000
    /\ (0 < z < 86400000 -> 86400000 - z <= now mod 86400000 ->
        is_24_7 settings = false ->
        BookPage.getMinDate tz (Some settings) now = BookPage.localDate tz now)
    /\ (- 86400000 < z < 0 -> now mod 86400000 < - z ->
        is_24_7 settings = true ->
        BookPage.getMinDate tz (Some settings) now
        = BookPage.localDate tz now + 1)
    /\ (z = 0 ->
        BookPage.getMinDate tz (Some settings) now
        = if is_24_7 settings then BookPage.localDate tz now
          else BookPage.localDate tz now + 1).
Proof.
  intros tz settings now z Hi Hl.
  assert (M : BookPage.getMinDate tz (Some settings) now
              = if is_24_7 settings then now / 86400000
                else now / 86400000 + 1).
  { unfold BookPage.getMinDate.
    rewrite (addDays_same_offset tz now 1 z Hi Hl).
    unfold BookPage.isoDate, BookPage.Day, BookPage.msPerDay.
    rewrite Z.div_add by lia. reflexivity. }
  assert (L : BookPage.localDate tz now = (now + z) / 86400000).
  { unfold BookPage.localDate, BookPage.LocalTime, BookPage.Day,
      BookPage.msPerDay. now rewrite Hi. }
  pose proof (Z.div_mod now 86400000) as DM.
  pose proof (Z.mod_pos_bound now 86400000) as MB.
  split; [exact M|]. split; [exact L|]. rewrite M, L.
  split; [|split].
  - intros Hz Hr ->.
    apply (Z.div_unique_pos _ _ _ (now mod 86400000 + z - 86400000)); lia.
  - intros Hz Hr ->.
    assert (E : (now + z) / 86400000 = now / 86400000 - 1).
    { symmetry.
      apply (Z.div_unique_pos _ _ _ (now mod 86400000 + z + 86400000)); lia. }
    lia.
  - intros ->. now rewrite Z.add_0_r.
Qed.

(** In Kolkata at 03:00 on 2025-03-02 (21:30 UTC on 2025-03-01), outside
    24/7 operation: the earliest date is day 20149, which is 2025-03-02,
    the user's own date. *)
Lemma getMinDate_is_a_utc_date_witness :
  BookPage.getMinDate Examples.Kolkata (Some defaultSettings) 1740864600000
  = BookPage.localDate Examples.Kolkata 1740864600000
  /\ BookPage.localDate Examples.Kolkata 1740864600000
     = (1740864600000 + 19800000) / 86400000.
Proof.
  destruct (getMinDate_is_a_utc_date Examples.Kolkata defaultSettings
              1740864600000 19800000 eq_refl eq_refl)
    as (_ & L & Same & _).
  split; [|exact L].
  apply Same.
  - lia.
  - vm_compute. discriminate.
  - reflexivity.
Defined.

(** The same instant and the evening of 2025-03-08 in New York, by
    evaluation: day 20149 is 2025-03-02, day 20155 is 2025-03-08 and day
    20156 is 2025-03-09. *)
Example getMinDate_examples :
  BookPage.getMinDate Examples.Kolkata (Some defaultSettings) 1740864600000
  = 20149
  /\ BookPage.localDate Examples.Kolkata 1740864600000 = 20149
  /\ BookPage.getMinDate Examples.NewYork (Some settings_24_7) 1741480200000
     = 20156
  /\ BookPage.localDate Examples.NewYork 1741480200000 = 20155.
Proof. repeat split. Qed.

(** ** Claim C3: status updates *)

Section StatusUpdate.

Import BookingService.

Lemma find_hd_filter {A : Type} (p : A -> bool) (l : list A) :
  find p l = hd_error (filter p l).
Proof.
  induction l as [|x l IH]; simpl; trivial.
  destruct (p x); simpl; trivial.
Qed.

(** The update leaves the keys alone, so selecting by key commutes
    with it. *)
Lemma filter_updated (bookingId : nat) (s : BookingStatus)
      (n : option string) (rows : list Booking) :
  filter (fun b => Nat.eqb (id b) bookingId)
         (map (fun b => if Nat.eqb (id b) bookingId
                        then applyUpdate s n b else b) rows)
  = map (applyUpdate s n) (filter (fun b => Nat.eqb (id b) bookingId) rows).
Proof.
  induction rows as [|r rows IH]; simpl; trivial.
  destruct (Nat.eqb (id r) bookingId) eqn:E; simpl.
  - rewrite E. simpl. now rewrite IH.
  - now rewrite E.
Qed.

Lemma update_served (db : Db) (bookingId : nat) (b : Booking)
      (s : BookingStatus) (n : option string) :
  filter (fun r => Nat.eqb (id r) bookingId) (bookings db) = [b] ->
  exists db',
    updateBookingStatus Served db bookingId s n
    = (db', Data (applyUpdate s n b))
    /\ findBooking db' bookingId = Some (applyUpdate s n b).
Proof.
  intros H. unfold updateBookingStatus, update_booking.
  rewrite filter_updated, H. cbn [map].
  eexists. split; [reflexivity|].
  unfold findBooking. cbn [bookings].
  now rewrite find_hd_filter, filter_updated, H.
Qed.

End StatusUpdate.

(** C3 (as amended). [updateBookingStatus] checks no transition: when
    the key names exactly one booking and the store serves the call, the
    booking gets the requested status, whatever its current one, and the
    updated row is returned; when the store fails, its error is returned
    and nothing changes.  The table of section 4.5 is kept by the admin
    page alone, whose buttons ask for exactly the admin transitions of
    the table, and for none on a canceled, no-show or completed
    booking. *)
Theorem updateBookingStatus_any_transition :
  forall (db : BookingService.Db) (bookingId : nat)
         (b : BookingService.Booking) (s : BookingStatus) (n : option string),
    filter (fun r => Nat.eqb (BookingService.id r) bookingId)
           (BookingService.bookings db) = [b] ->
    (exists db',
       BookingService.updateBookingStatus BookingService.Served db bookingId s n
       = (db', BookingService.Data (BookingService.applyUpdate s n b))
       /\ BookingService.findBooking db' bookingId
          = Some (BookingService.applyUpdate s n b)
       /\ BookingService.status (BookingService.applyUpdate s n b) = s)
    /\ (forall e,
          BookingService.updateBookingStatus (BookingService.Failed e)
                                             db bookingId s n
          = (db, BookingService.Err (BookingService.StoreError e)))
    /\ (forall from a,
          In a (AdminBookingsPage.actions from) ->
          Spec.admin_transition from (AdminBookingsPage.target a) = true)
    /\ (forall from to,
          Spec.admin_transition from to = true ->
          exists a, In a (AdminBookingsPage.actions from)
                    /\ AdminBookingsPage.target a = to)
    /\ (forall a o d i, exists notes,
          AdminBookingsPage.handle a o d i
          = BookingService.updateBookingStatus
              o d i (AdminBookingsPage.target a) notes)
    /\ AdminBookingsPage.actions canceled = []
    /\ AdminBookingsPage.actions no_show = []
    /\ AdminBookingsPage.actions completed = [].
Proof.
  intros db bookingId b s n H.
  split; [|split; [|split; [|split; [|split]]]].
  - destruct (update_served db bookingId b s n H) as (db' & E & F).
    exists db'. repeat split; trivial.
  - reflexivity.
  - intros from a. destruct from; cbn; intuition (subst; reflexivity).
  - intros from to. destruct from, to; cbn; try discriminate; intros _.
    + exists AdminBookingsPage.Approve. cbn. tauto.
    + exists AdminBookingsPage.Reject. cbn. tauto.
    + exists AdminBookingsPage.Cancel. cbn. tauto.
    + exists AdminBookingsPage.MarkNoShow. cbn. tauto.
    + exists AdminBookingsPage.MarkCompleted. cbn. tauto.
  - intros a o d i. destruct a; eexists; reflexivity.
  - repeat split.
Qed.

(** An admin approving the only booking of the table, through the
    theorem. *)
Lemma updateBookingStatus_any_transition_witness :
  exists db',
    BookingService.updateBookingStatus BookingService.Served
      (Examples.oneBooking pending) 0 confirmed None
    = (db', BookingService.Data
              (BookingService.applyUpdate confirmed None
                 (Examples.booking 0 pending)))
    /\ BookingService.findBooking db' 0
       = Some (BookingService.applyUpdate confirmed None
                 (Examples.booking 0 pending))
    /\ BookingService.status
         (BookingService.applyUpdate confirmed None
            (Examples.booking 0 pending)) = confirmed.
Proof.
  refine (proj1 (updateBookingStatus_any_transition
                   (Examples.oneBooking pending) 0
                   (Examples.booking 0 pending) confirmed None _)).
  reflexivity.
Defined.

(** C3 as stated fails: the request completed -> confirmed, which the
    table does not allow, is served; the stored booking becomes
    confirmed and no error is returned. *)
Lemma updateBookingStatus_completed_counterexample :
  Spec.admin_transition completed confirmed = false
  /\ BookingService.findBooking (Examples.oneBooking completed) 0
     = Some (Examples.booking 0 completed)
  /\ BookingService.updateBookingStatus BookingService.Served
       (Examples.oneBooking completed) 0 confirmed None
     = (Examples.oneBooking confirmed,
        BookingService.Data (Examples.booking 0 confirmed))
  /\ BookingService.findBooking (Examples.oneBooking confirmed) 0
     = Some (Examples.booking 0 confirmed)
  /\ ~ (exists e,
          BookingService.updateBookingStatus BookingService.Served
            (Examples.oneBooking completed) 0 confirmed None
          = (Examples.oneBooking completed, BookingService.Err e)).
Proof.
  repeat split. intros [e H]. discriminate H.
Qed.

(** ** Claim C9: a failing conflict check *)

(** C9 (the code departs from it). When the round trip of the conflict
    check fails, [checkBookingConflict] answers [false] and
    [createBooking] goes on to insert, exactly as if the check had found
    nothing: the store error reaches no caller.  With the confirmed
    booking 10:00-12:00 in the table, a request for 10:30-11:30 is
    refused when the check is served, and is inserted over the existing
    booking when the check fails. *)
Theorem createBooking_failed_check_inserts :
  (forall e o db bookingData,
     BookingService.createBooking (BookingService.Failed e) o db bookingData
     = BookingService.insert_booking o db bookingData)
  /\ BookingService.createBooking BookingService.Served BookingService.Served
       (Examples.oneBooking confirmed) Examples.request
     = (Examples.oneBooking confirmed,
        BookingService.Err (BookingService.JsError "Time slot is already booked"))
  /\ BookingService.createBooking (BookingService.Failed "fetch failed")
       BookingService.Served (Examples.oneBooking confirmed) Examples.request
     = ({| BookingService.bookings :=
             [ Examples.booking 0 confirmed;
               {| BookingService.id := 1;
                  BookingService.user_id := "u2";
                  BookingService.game_id := "cricket";
                  BookingService.booking_date := "2025-03-01";
                  BookingService.start_time := "10:30";
                  BookingService.end_time := "11:30";
                  BookingService.status := pending;
                  BookingService.notes := None |} ];
           BookingService.next_id := 2 |},
        BookingService.Data
          {| BookingService.id := 1;
             BookingService.user_id := "u2";
             BookingService.game_id := "cricket";
             BookingService.booking_date := "2025-03-01";
             BookingService.start_time := "10:30";
             BookingService.end_time := "11:30";
             BookingService.status := pending;
             BookingService.notes := None |}).
Proof. repeat split. Qed.

(** ** Claim C1: two calls of [createBooking] *)

Section CreateBooking.

Import JsString BookingService Concurrent.


(** A created booking is the last row of the new table. *)
Lemma createBooking_created (o1 o2 : Outcome) (db db1 : Db)
      (r : BookingInsert) (b : Booking) :
  createBooking o1 o2 db r = (db1, Data b) ->
  bookings db1 = (bookings db ++ [b])%list
  /\ game_id b = ins_game_id r
  /\ booking_date b = ins_booking_date r
  /\ start_time b = ins_start_time r
  /\ end_time b = ins_end_time r.
Proof.
  unfold createBooking.
  destruct (checkBookingConflict _ _ _ _ _ _ _); [discriminate|].
  unfold insert_booking. destruct o2; [|discriminate].
  intros E. injection E as <- <-. cbn. tauto.
Qed.


End CreateBooking.





(** The text comparison does not see an interval that runs past midnight
    as overlapping itself: of two calls for 23:00-01:00, one after the
    other, both are stored. *)
Example createBooking_overnight_twice :
  let overnight :=
    {| BookingService.ins_user_id := "u2";
       BookingService.ins_game_id := "cricket";
       BookingService.ins_booking_date := "2025-03-01";
       BookingService.ins_start_time := "23:00";
       BookingService.ins_end_time := "01:00";
       BookingService.ins_status := None;
       BookingService.ins_notes := None |} in
  let db1 :=
    fst (BookingService.createBooking BookingService.Served
           BookingService.Served Examples.emptyDb overnight) in
  let db2 :=
    fst (BookingService.createBooking BookingService.Served
           BookingService.Served db1 overnight) in
  map (fun b => (BookingService.start_time b, BookingService.end_time b))
      (BookingService.bookings db2)
  = [ ("23:00", "01:00"); ("23:00", "01:00") ].
Proof. reflexivity. Qed.

(** * Further properties of the code *)

(** ** The [HH:MM] text of a time of day *)

Section TimeTextOrder.

Import JsString Js BookPage Checks.

Lemma minutesOfDay_In (m : Z) : 0 <= m <= 1440 -> In m minutesOfDay.
Proof.
  intros Hm. unfold minutesOfDay. apply in_map_iff.
  exists (Z.to_nat m). split; [lia|]. apply in_seq. lia.
Qed.

Lemma stepsUp_day : forallb stepsUp (map Z.of_nat (seq 0 1440)) = true.
Proof. vm_compute. reflexivity. Qed.

Lemma formatTime_next (m : Z) :
  0 <= m < 1440 -> lt (formatTime m) (formatTime (m + 1)) = true.
Proof.
  intros Hm. pose proof stepsUp_day as H. rewrite forallb_forall in H.
  apply (H m). apply in_map_iff. exists (Z.to_nat m).
  split; [lia|]. apply in_seq. lia.
Qed.

Lemma formatTime_lt_nat (n : nat) :
  forall a, 0 <= a -> a + Z.of_nat (S n) <= 1440 ->
            lt (formatTime a) (formatTime (a + Z.of_nat (S n))) = true.
Proof.
  induction n as [|n IH]; intros a Ha Hb.
  - apply formatTime_next. lia.
  - apply (lt_trans _ (formatTime (a + Z.of_nat (S n)))).
    + apply IH; lia.
    + replace (a + Z.of_nat (S (S n))) with (a + Z.of_nat (S n) + 1) by lia.
      apply formatTime_next. lia.
Qed.

Lemma formatTime_lt (a b : Z) :
  0 <= a -> a < b -> b <= 1440 -> lt (formatTime a) (formatTime b) = true.
Proof.
  intros Ha Hab Hb.
  replace b with (a + Z.of_nat (S (Z.to_nat (b - a - 1)))) by lia.
  apply formatTime_lt_nat; lia.
Qed.

Lemma tailIgnored_day (rest : string) :
  forallb (tailIgnored rest) minutesOfDay = true.
Proof. vm_compute. reflexivity. Qed.

End TimeTextOrder.

(** X1. On the minutes of a day the [HH:MM] text orders as the minutes
    do: the string comparison of two formatted times is the comparison
    of their minutes, and equal texts mean equal minutes. *)
Theorem formatTime_order :
  forall a b : Z,
    0 <= a <= 1440 -> 0 <= b <= 1440 ->
    JsString.lt (BookPage.formatTime a) (BookPage.formatTime b) = (a <? b)
    /\ JsString.le (BookPage.formatTime a) (BookPage.formatTime b) = (a <=? b)
    /\ (BookPage.formatTime a = BookPage.formatTime b -> a = b).
Proof.
  intros a b Ha Hb.
  assert (L : JsString.lt (BookPage.formatTime a) (BookPage.formatTime b)
              = (a <? b)).
  { destruct (Z.ltb_spec a b) as [H|H].
    - apply formatTime_lt; lia.
    - destruct (Z.eq_dec a b) as [->|Hne].
      + apply lt_irrefl.
      + apply lt_asym. apply formatTime_lt; lia. }
  assert (G : JsString.lt (BookPage.formatTime b) (BookPage.formatTime a)
              = (b <? a)).
  { destruct (Z.ltb_spec b a) as [H|H].
    - apply formatTime_lt; lia.
    - destruct (Z.eq_dec a b) as [->|Hne].
      + apply lt_irrefl.
      + apply lt_asym. apply formatTime_lt; lia. }
  split; [exact L|]. split.
  - unfold JsString.le. rewrite G. rewrite Z.leb_antisym. reflexivity.
  - intros E. rewrite E, lt_irrefl in L.
    rewrite E, lt_irrefl in G.
    symmetry in L, G. apply Z.ltb_ge in L, G. lia.
Qed.

Lemma formatTime_order_witness :
  JsString.lt (BookPage.formatTime 570) (BookPage.formatTime 600)
  = (570 <? 600).
Proof.
  refine (proj1 (formatTime_order 570 600 _ _)); lia.
Defined.

(** X2. Seconds are ignored: the text of a time of day followed by a
    colon and anything else (as in 06:00:00) parses to the same minute,
    so durations and generated times are the same with and without
    seconds. *)
Theorem totalMinutes_ignores_seconds :
  forall (m : Z) (rest : string),
    0 <= m <= 1440 ->
    BookPage.totalMinutes (BookPage.formatTime m ++ ":" ++ rest) = Some m
    /\ (forall settings t,
          BookPage.isEmpty t = false ->
          BookPage.calculateDuration (Some settings)
            (BookPage.formatTime m ++ ":" ++ rest) t
          = BookPage.calculateDuration (Some settings) (BookPage.formatTime m) t).
Proof.
  intros m rest Hm.
  assert (E : BookPage.totalMinutes (BookPage.formatTime m ++ ":" ++ rest)
              = Some m).
  { pose proof (tailIgnored_day rest) as H. rewrite forallb_forall in H.
    specialize (H m (minutesOfDay_In m Hm)). unfold Checks.tailIgnored in H.
    destruct (BookPage.totalMinutes _) as [m'|]; [|discriminate].
    apply Z.eqb_eq in H. now subst. }
  split; [exact E|].
  intros settings t Ht. unfold BookPage.calculateDuration.
  rewrite E, (totalMinutes_formatTime m Hm), (formatTime_not_empty m Hm).
  destruct (BookPage.formatTime m ++ ":" ++ rest) eqn:F; [|reflexivity].
  pose proof (formatTime_not_empty m Hm) as N.
  destruct (BookPage.formatTime m); [discriminate N | discriminate F].
Qed.

Lemma totalMinutes_ignores_seconds_witness :
  BookPage.totalMinutes (BookPage.formatTime 360 ++ ":" ++ "00") = Some 360.
Proof.
  refine (proj1 (totalMinutes_ignores_seconds 360 "00" _)). lia.
Defined.

(** ** Durations and costs *)

(** X3. Between two times of day the duration is a whole number [k] of
    minutes, never negative and never more than 24 hours; it is 0
    exactly when the venue is not open 24/7 and the end is not after the
    start, and under 24/7 operation it is never 0. *)
Theorem calculateDuration_bounds :
  forall (settings : SystemSettings) (s e : Z),
    0 <= s < 1440 -> 0 <= e < 1440 ->
    exists (k : Z) (d : Q),
      BookPage.calculateDuration (Some settings)
        (BookPage.formatTime s) (BookPage.formatTime e) = Some d
      /\ (d == inject_Z k / 60)%Q
      /\ 0 <= k <= 1440
      /\ (k = 0 <-> is_24_7 settings = false /\ e <= s)
      /\ (s < e -> k = e - s).
Proof.
  intros settings s e Hs He.
  assert (Hs' : 0 <= s <= 1440) by lia.
  assert (He' : 0 <= e <= 1440) by lia.
  rewrite (calculateDuration_times settings s e Hs' He').
  destruct (Z.ltb_spec s e) as [L|L].
  - exists (e - s), (inject_Z (e - s) / 60)%Q.
    repeat split; try reflexivity; try lia.
  - assert (W : (s <? e + 24 * 60) = true) by (apply Z.ltb_lt; lia).
    rewrite W, andb_true_r. destruct (is_24_7 settings).
    + exists (e + 24 * 60 - s), (inject_Z (e + 24 * 60 - s) / 60)%Q.
      repeat split; try reflexivity; try lia; try discriminate.
    + exists 0, 0%Q. repeat split; try reflexivity; try lia.
Qed.

Lemma calculateDuration_bounds_witness :
  exists (k : Z) (d : Q),
    BookPage.calculateDuration (Some defaultSettings)
      (BookPage.formatTime 840) (BookPage.formatTime 930) = Some d
    /\ (d == inject_Z k / 60)%Q
    /\ 0 <= k <= 1440
    /\ (k = 0 <-> is_24_7 defaultSettings = false /\ 930 <= 840)
    /\ (840 < 930 -> k = 930 - 840).
Proof.
  refine (calculateDuration_bounds defaultSettings 840 930 _ _); lia.
Defined.

Section CostOrder.

Import Js BookPage.

(** The cost as a function of the duration alone. *)
Lemma calculateCost_of_duration (game : Game) (settings : SystemSettings)
      (startTime endTime : string) (d : Q) :
  calculateDuration (Some settings) startTime endTime = Some d ->
  calculateCost (Some game) (Some settings) startTime endTime
  = if Qltb 0 d then roundedProduct (price_per_hour game) d else 0.
Proof.
  intros Hd. unfold calculateCost. rewrite Hd.
  destruct (isEmpty startTime || isEmpty endTime) eqn:E; trivial.
  unfold calculateDuration in Hd. rewrite E in Hd.
  injection Hd as <-. reflexivity.
Qed.

End CostOrder.

(** X4. For a price that is not negative the cost is never negative and
    grows with the duration: of two selections, the one with the longer
    (or equal) duration costs at least as much. *)
Theorem calculateCost_monotone :
  forall (game : Game) (settings : SystemSettings)
         (s1 e1 s2 e2 : string) (d1 d2 : Q),
    (0 <= price_per_hour game)%Q ->
    BookPage.calculateDuration (Some settings) s1 e1 = Some d1 ->
    BookPage.calculateDuration (Some settings) s2 e2 = Some d2 ->
    (d1 <= d2)%Q ->
    0 <= BookPage.calculateCost (Some game) (Some settings) s1 e1
    /\ BookPage.calculateCost (Some game) (Some settings) s1 e1
       <= BookPage.calculateCost (Some game) (Some settings) s2 e2.
Proof.
  intros game settings s1 e1 s2 e2 d1 d2 Hp H1 H2 Hle.
  rewrite (calculateCost_of_duration game settings s1 e1 d1 H1).
  rewrite (calculateCost_of_duration game settings s2 e2 d2 H2).
  destruct (Js.Qltb 0 d1) eqn:P1; destruct (Js.Qltb 0 d2) eqn:P2.
  - apply Qltb_lt in P1. split.
    + apply roundedProduct_nonneg; trivial. now apply Qlt_le_weak.
    + apply roundedProduct_mono; trivial. now apply Qlt_le_weak.
  - apply Qltb_lt in P1. apply Qltb_ge in P2. exfalso.
    apply (Qlt_irrefl 0). eapply Qlt_le_trans; [exact P1|].
    eapply Qle_trans; eauto.
  - apply Qltb_lt in P2. split; [lia|].
    apply roundedProduct_nonneg; trivial. now apply Qlt_le_weak.
  - lia.
Qed.

Lemma calculateCost_monotone_witness :
  0 <= BookPage.calculateCost
         (Some {| game_id_of := "cricket"; price_per_hour := 500 |})
         (Some defaultSettings) "14:00" "15:00"
  /\ BookPage.calculateCost
       (Some {| game_id_of := "cricket"; price_per_hour := 500 |})
       (Some defaultSettings) "14:00" "15:00"
     <= BookPage.calculateCost
          (Some {| game_id_of := "cricket"; price_per_hour := 500 |})
          (Some defaultSettings) "14:00" "15:30".
Proof.
  refine (calculateCost_monotone
            {| game_id_of := "cricket"; price_per_hour := 500 |}
            defaultSettings "14:00" "15:00" "14:00" "15:30"
            (inject_Z 60 / 60)%Q (inject_Z 90 / 60)%Q _ _ _ _).
  - discriminate.
  - reflexivity.
  - reflexivity.
  - discriminate.
Defined.

(** ** The options of the end-time select *)

Section EndTimes.

Import Js BookPage BookPageForm Spec.

Lemma isEmpty_app (a b : string) :
  isEmpty (a ++ b) = isEmpty a && isEmpty b.
Proof. destruct a; reflexivity. Qed.

(** A formatted time always holds its colon. *)
Lemma formatTime_never_empty (k : Z) : isEmpty (formatTime k) = false.
Proof.
  unfold formatTime. rewrite isEmpty_app. apply andb_false_r.
Qed.

Lemma timeLoop_formats (fuel : nat) :
  forall m stop slot l,
    timeLoop fuel m stop slot = Some l ->
    forall e, In e l -> exists k, e = formatTime k.
Proof.
  induction fuel as [|fuel IH]; intros m stop slot l; simpl.
  - destruct (m <? stop); [discriminate|].
    intros [= <-] e [].
  - destruct (m <? stop).
    + destruct (timeLoop fuel (m + slot) stop slot) as [r|] eqn:E;
        [|discriminate].
      intros [= <-] e [<- | Hin].
      * now exists m.
      * eapply IH; eauto.
    + intros [= <-] e [].
Qed.

Lemma generateTimeOptions_formats (fuel : nat) (settings : option SystemSettings)
      (l : list string) :
  generateTimeOptions fuel settings = Some l ->
  forall e, In e l -> exists k, e = formatTime k.
Proof.
  unfold generateTimeOptions. destruct settings as [s|].
  - destruct (is_24_7 s).
    + apply timeLoop_formats.
    + destruct (totalMinutes (opening_time s)); [|intros [= <-] e []].
      destruct (totalMinutes (closing_time s)); [|intros [= <-] e []].
      apply timeLoop_formats.
  - intros [= <-] e [].
Qed.

Lemma slotTimes_In (n : nat) :
  forall first slot x,
    In x (slotTimes n first slot) ->
    exists k, (k < n)%nat /\ x = first + Z.of_nat k * slot.
Proof.
  induction n as [|n IH]; intros first slot x; simpl; [intros []|].
  intros [<- | Hin].
  - exists O. split; lia.
  - destruct (IH _ _ _ Hin) as (k & Hk & ->).
    exists (S k). split; lia.
Qed.

End EndTimes.

(** X5. An end time offered by the end-time select has a duration within
    the configured minimum and maximum, so [validateTimeSelection] never
    answers with a duration message for it: the only error left is a
    conflict with an existing booking, raised exactly when
    [isTimeSlotAvailable] is false (the option is then shown
    disabled). *)
Theorem endTimeOptions_pass_validation :
  forall (fuel : nat) (settings : SystemSettings) (existing : list Slot)
         (startTime : string) (options : list string) (e : string),
    BookPageForm.endTimeOptions fuel (Some settings) startTime = Some options ->
    In e options ->
    (exists d,
       BookPage.calculateDuration (Some settings) startTime e = Some d
       /\ (min_booking_duration settings <= d)%Q
       /\ (d <= max_booking_duration settings)%Q)
    /\ BookPage.validateTimeSelection (Some settings) existing startTime e
       = (if BookPage.isTimeSlotAvailable existing startTime e
          then BookPage.NoTimeError
          else BookPage.ConflictsWithExisting).
Proof.
  intros fuel settings existing startTime options e Hopt Hin.
  unfold BookPageForm.endTimeOptions in Hopt.
  destruct (BookPage.generateTimeOptions fuel (Some settings)) as [all|] eqn:G;
    [|discriminate].
  injection Hopt as <-. apply filter_In in Hin. destruct Hin as [Hall Hok].
  destruct (generateTimeOptions_formats fuel _ all G e Hall) as [k ->].
  unfold BookPageForm.endTimeAllowed in Hok.
  destruct (BookPage.isEmpty startTime) eqn:Es; [discriminate|].
  destruct (BookPage.calculateDuration (Some settings) startTime
                                       (BookPage.formatTime k))
    as [d|] eqn:D; [|discriminate].
  apply andb_true_iff in Hok. destruct Hok as [Hmin Hmax].
  unfold BookPageForm.Qgeb in Hmin. unfold BookPageForm.Qleb in Hmax.
  split.
  - exists d. repeat split; now apply Qle_bool_iff.
  - unfold BookPage.validateTimeSelection.
    rewrite Es, formatTime_never_empty, D. cbn [orb].
    unfold Js.Qltb. rewrite Hmin, Hmax. cbn [negb].
    unfold BookPage.isTimeSlotAvailable, BookPage.hasConflict.
    now destruct (existsb _ existing).
Qed.

Lemma endTimeOptions_pass_validation_witness :
  BookPage.validateTimeSelection (Some defaultSettings)
    [{| start_time := "10:00"; end_time := "12:00" |}] "14:00" "15:30"
  = (if BookPage.isTimeSlotAvailable
          [{| start_time := "10:00"; end_time := "12:00" |}] "14:00" "15:30"
     then BookPage.NoTimeError
     else BookPage.ConflictsWithExisting).
Proof.
  refine (proj2 (endTimeOptions_pass_validation 96 defaultSettings
                   [{| start_time := "10:00"; end_time := "12:00" |}]
                   "14:00" _ "15:30" eq_refl _)).
  vm_compute. tauto.
Defined.

(** X6. Outside 24/7 operation, with opening and closing times of day,
    a slot of 15, 30 or 60 minutes and a positive minimum duration,
    every end time offered for a start time of day lies after that start
    and strictly before the closing time: the closing time itself is
    never offered as an end. *)
Theorem endTimeOptions_before_closing :
  forall (fuel : nat) (s : SystemSettings) (o c s0 : Z)
         (options : list string) (e : string),
    In (booking_slot_duration s) [15; 30; 60] ->
    is_24_7 s = false ->
    0 <= o < c -> c <= 1440 ->
    opening_time s = BookPage.formatTime o ->
    closing_time s = BookPage.formatTime c ->
    (0 < min_booking_duration s)%Q ->
    0 <= s0 < 1440 ->
    (96 <= fuel)%nat ->
    BookPageForm.endTimeOptions fuel (Some s) (BookPage.formatTime s0)
    = Some options ->
    In e options ->
    exists m, e = BookPage.formatTime m /\ s0 < m /\ o <= m /\ m < c
              /\ e <> closing_time s.
Proof.
  intros fuel s o c s0 options e Hslot H247 Ho Hc Eo Ec Hmin Hs0 Hfuel Hopt Hin.
  unfold BookPageForm.endTimeOptions, BookPage.generateTimeOptions in Hopt.
  rewrite H247, Eo, Ec in Hopt.
  rewrite !totalMinutes_formatTime in Hopt by lia.
  rewrite (timeLoop_window fuel o c _ Hslot Ho Hc Hfuel) in Hopt.
  cbn [option_map] in Hopt. injection Hopt as <-.
  apply filter_In in Hin. destruct Hin as [Hall Hok].
  apply in_map_iff in Hall. destruct Hall as (m & <- & Hm).
  destruct (slotTimes_In _ _ _ _ Hm) as (k & Hk & ->).
  pose proof (slot_is_positive _ Hslot) as Hpos.
  destruct (slotCount_bounds c _ Hpos o (proj2 Ho)) as (_ & Hlast & _).
  set (x := o + Z.of_nat k * booking_slot_duration s) in *.
  assert (Hx : o <= x < c) by (unfold x; split; nia).
  exists x. split; [reflexivity|].
  assert (Hsx : s0 < x).
  { unfold BookPageForm.endTimeAllowed in Hok.
    rewrite formatTime_never_empty in Hok.
    rewrite (calculateDuration_times s s0 x) in Hok by lia.
    rewrite H247 in Hok. cbn [andb] in Hok.
    destruct (Z.ltb_spec s0 x) as [L|L]; trivial.
    apply andb_true_iff in Hok. destruct Hok as [Hge _].
    unfold BookPageForm.Qgeb in Hge. apply Qle_bool_iff in Hge.
    exfalso. apply (Qlt_irrefl 0). eapply Qlt_le_trans; eauto. }
  repeat split; try lia.
  rewrite Ec. intros E.
  assert (Some x = Some c) as [= Exc]; [|lia].
  rewrite <- (totalMinutes_formatTime x), <- (totalMinutes_formatTime c) by lia.
  now rewrite E.
Qed.

Lemma endTimeOptions_before_closing_witness :
  exists m, "15:30" = BookPage.formatTime m /\ 840 < m /\ 360 <= m /\ m < 1320
            /\ "15:30" <> closing_time defaultSettings.
Proof.
  refine (endTimeOptions_before_closing 96 defaultSettings 360 1320 840
            _ "15:30" _ eq_refl _ _ eq_refl eq_refl _ _ _ eq_refl _).
  - right. left. reflexivity.
  - lia.
  - lia.
  - reflexivity.
  - lia.
  - apply le_n.
  - vm_compute. tauto.
Defined.

(** ** Adding hours to a time *)

Section AddHours.

Import Js BookPage BookPageForm.

Lemma Qred_inject_Z (x : Z) : Qred (inject_Z x) = inject_Z x.
Proof.
  pose proof (Qred_correct (inject_Z x)) as E.
  pose proof (gcd_Qred (inject_Z x)) as G.
  destruct (Qred (inject_Z x)) as [n d].
  unfold Qeq, inject_Z in E. simpl in E, G.
  rewrite Z.mul_1_r in E. subst n.
  rewrite Z.gcd_comm, (Z.mul_comm x), Z.gcd_mul_diag_l in G by lia.
  unfold inject_Z. f_equal; lia.
Qed.

Lemma wholeNumber_inject (q : Q) (x : Z) :
  (q == inject_Z x)%Q -> wholeNumber q = Some x.
Proof.
  intros H. unfold wholeNumber.
  rewrite (Qred_complete _ _ H), Qred_inject_Z. reflexivity.
Qed.

(** Hours and minutes of a minute count taken modulo a day. *)
Lemma mod_day_hour (t : Z) :
  0 <= t -> (t mod 1440) / 60 = Z.rem (t / 60) 24.
Proof.
  intros Ht.
  rewrite Z.rem_mod_nonneg by (try apply Z.div_pos; lia).
  change 1440 with (60 * 24).
  rewrite Z.rem_mul_r by lia.
  rewrite Z.mul_comm, Z.div_add by lia.
  rewrite Z.div_small by (apply Z.mod_pos_bound; lia).
  reflexivity.
Qed.

Lemma mod_day_minute (t : Z) :
  0 <= t -> Z.rem (t mod 1440) 60 = Z.rem t 60.
Proof.
  intros Ht.
  rewrite !Z.rem_mod_nonneg by (try apply Z.mod_pos_bound; lia).
  change 1440 with (60 * 24).
  rewrite Z.rem_mul_r by lia.
  rewrite Z.mul_comm, Z.mod_add by lia.
  apply Z.mod_mod. lia.
Qed.

(** [Math.floor(totalMinutes / 60)] on doubles is the integer quotient. *)
Lemma floor_div_60 (t : Z) :
  0 <= t < 2 ^ 52 -> Qfloor (Double.div (inject_Z t) 60) = t / 60.
Proof.
  intros Ht. unfold Double.div.
  pose proof (Z.div_mod t 60) as DM. pose proof (Z.mod_pos_bound t 60) as MB.
  assert (Hn : 0 <= t / 60 < 2 ^ 52).
  { split; [apply Z.div_pos; lia|].
    apply Z.le_lt_trans with t; [|lia]. apply Z.div_le_upper_bound; lia. }
  assert (T0 : (0 <= inject_Z t)%Q)
    by (change 0%Q with (inject_Z 0); rewrite <- Zle_Qle; lia).
  assert (T1 : (inject_Z t < inject_Z (2 ^ 52))%Q)
    by (rewrite <- Zlt_Qlt; lia).
  assert (N0 : (0 <= inject_Z (t / 60))%Q)
    by (change 0%Q with (inject_Z 0); rewrite <- Zle_Qle; lia).
  assert (Lo : (inject_Z (60 * (t / 60)) <= inject_Z t)%Q)
    by (rewrite <- Zle_Qle; lia).
  assert (Hi : (inject_Z t <= inject_Z (60 * (t / 60) + 59))%Q)
    by (rewrite <- Zle_Qle; lia).
  rewrite inject_Z_plus, inject_Z_mult in Hi. rewrite inject_Z_mult in Lo.
  change (inject_Z 60) with 60%Q in Lo, Hi.
  change (inject_Z 59) with 59%Q in Hi.
  change (inject_Z (2 ^ 52)) with 4503599627370496%Q in T1.
  assert (Q0 : (0 <= inject_Z t / 60)%Q) by (apply Qle_shift_div_l; lra).
  apply Qfloor_unique.
  - rewrite <- (fl_exact_Z (t / 60)) by lia.
    apply fl_mono; trivial. apply Qle_shift_div_l; lra.
  - destruct (fl_error (inject_Z t / 60) Q0) as [_ U].
    change (Double.pow2 (-53)) with (1 # 9007199254740992)%Q in U.
    assert (E : (inject_Z t == 60 * (inject_Z t / 60))%Q) by field.
    set (q := (inject_Z t / 60)%Q) in *.
    set (F := Double.fl q) in *.
    lra.
Qed.

(** A whole number of half hours gives a whole number of minutes. *)
Lemma half_hours_in_minutes (k : Z) :
  0 <= k < 2 ^ 48 ->
  (Double.mul (Double.ofQ (inject_Z k / 2)) 60 == inject_Z (30 * k))%Q.
Proof.
  intros Hk. unfold Double.mul, Double.ofQ.
  assert (E1 : (Double.fl (inject_Z k / 2) == inject_Z k / 2)%Q).
  { destruct (Z.eq_dec k 0) as [->|N]; [reflexivity|].
    apply (fl_exact _ k (-1)); [lia|].
    change (Double.pow2 (-1)) with (/ 2)%Q. reflexivity. }
  rewrite (fl_comp _ (inject_Z (30 * k))).
  - apply fl_exact_Z. lia.
  - rewrite E1, inject_Z_mult. field.
Qed.

End AddHours.

(** X7. [addHoursToTime] forms [hours * 60] in double arithmetic.  When
    that product is a whole number [x] of minutes (as for every whole
    number of half hours), adding it to the time of day [m] gives the
    text of minute [(m + x) mod 1440], always a time of day; when the
    sum passes midnight by less than a day the result is, as text, below
    the time it was computed from.  For 4.1 hours the product is
    245.99999999999997: added to 00:00 it leaves a minute with a
    fraction, added to 06:00 the sum rounds to the whole number 606 and
    the result is 10:06. *)
Theorem addHoursToTime_wraps :
  forall (m x : Z) (hours : Q),
    0 <= m <= 1440 ->
    (Double.mul (Double.ofQ hours) 60 == inject_Z x)%Q ->
    0 <= m + x < 2 ^ 52 ->
    BookPageForm.addHoursToTime (BookPage.formatTime m) hours
    = Some (BookPage.formatTime ((m + x) mod 1440))
    /\ 0 <= (m + x) mod 1440 < 1440
    /\ (m + x < 1440 -> (m + x) mod 1440 = m + x)
    /\ (1440 <= m + x -> x < 1440 ->
        JsString.lt (BookPage.formatTime ((m + x) mod 1440))
                    (BookPage.formatTime m) = true)
    /\ (forall k : Z, 0 <= k < 2 ^ 48 ->
          (Double.mul (Double.ofQ (inject_Z k / 2)) 60 == inject_Z (30 * k))%Q)
    /\ (Double.mul (Double.ofQ (41 # 10)) 60
        == 8655355533852671 # 35184372088832)%Q
    /\ BookPageForm.addHoursToTime "00:00" (41 # 10) = None
    /\ BookPageForm.addHoursToTime "06:00" (41 # 10) = Some "10:06".
Proof.
  intros m x hours Hm Hx Hsum.
  assert (B : 0 <= (m + x) mod 1440 < 1440) by (apply Z.mod_pos_bound; lia).
  split; [|split; [exact B|split; [|split; [|split; [|split; [|split]]]]]].
  - unfold BookPageForm.addHoursToTime.
    rewrite (totalMinutes_formatTime m Hm).
    assert (E : (Double.add (inject_Z m) (Double.mul (Double.ofQ hours) 60)
                 == inject_Z (m + x))%Q).
    { unfold Double.add. rewrite (fl_comp _ (inject_Z (m + x))).
      - apply fl_exact_Z. lia.
      - now rewrite Hx, inject_Z_plus. }
    rewrite (wholeNumber_inject _ _ E), floor_div_60 by lia.
    unfold BookPage.formatTime. cbv zeta.
    now rewrite (mod_day_hour _ (proj1 Hsum)), (mod_day_minute _ (proj1 Hsum)).
  - intros H. apply Z.mod_small. lia.
  - intros H1 H2. apply formatTime_lt; try lia.
    replace (m + x) with (m + x - 1440 + 1 * 1440) by lia.
    rewrite Z.mod_add by lia. rewrite Z.mod_small; lia.
  - apply half_hours_in_minutes.
  - vm_compute. reflexivity.
  - vm_compute. reflexivity.
  - vm_compute. reflexivity.
Qed.

Lemma addHoursToTime_wraps_witness :
  BookPageForm.addHoursToTime (BookPage.formatTime 1410) 1
  = Some (BookPage.formatTime ((1410 + 60) mod 1440)).
Proof.
  refine (proj1 (addHoursToTime_wraps 1410 60 1 _ _ _)).
  - lia.
  - reflexivity.
  - lia.
Defined.

(** ** The start times shown as available *)

Section AvailableStarts.

Import JsString Js BookPage BookPageForm.

Lemma filterOpt_In (pred : string -> option bool) (l : list string) :
  forall r, filterOpt pred l = Some r ->
            forall x, In x r <-> In x l /\ pred x = Some true.
Proof.
  induction l as [|a l IH]; simpl; intros r.
  - intros [= <-] x. simpl. tauto.
  - destruct (pred a) as [[|]|] eqn:Pa; try discriminate;
      destruct (filterOpt pred l) as [r'|]; try discriminate;
      intros [= <-] x; specialize (IH r' eq_refl x); simpl; rewrite ?IH.
    + split.
      * intros [<- | [H1 H2]]; auto.
      * intros [[<- | H1] H2]; auto.
    + split.
      * intros [H1 H2]; auto.
      * intros [[<- | H1] H2]; [congruence | auto].
Qed.

Lemma filterOpt_all (pred : string -> option bool) (l : list string) :
  forall r, filterOpt pred l = Some r ->
            (forall x, In x l -> pred x <> Some false) -> r = l.
Proof.
  induction l as [|a l IH]; simpl; intros r.
  - now intros [= <-].
  - destruct (pred a) as [[|]|] eqn:Pa; try discriminate;
      destruct (filterOpt pred l) as [r'|]; try discriminate;
      intros [= <-] H.
    + f_equal. apply IH; auto.
    + exfalso. apply (H a); auto.
Qed.

(** A candidate that starts inside a booking conflicts with it,
    whatever its end. *)
Lemma start_inside_conflicts (t later : string) (b : Slot) :
  ge t (start_time b) = true -> lt t (end_time b) = true ->
  conflictsWith t later b = true.
Proof.
  intros H1 H2. unfold conflictsWith. now rewrite H1, H2.
Qed.

End AvailableStarts.

(** X8. The start times shown as available are among the generated
    times; a generated time that falls inside an existing booking (at or
    after its start and before its end) is never among them; and with no
    existing booking every generated time is available. *)
Theorem getAvailableStartTimes_sound :
  forall (fuel : nat) (settings : SystemSettings) (existing : list Slot)
         (available : list string),
    BookPageForm.getAvailableStartTimes fuel (Some settings) existing
    = Some available ->
    exists allTimes,
      BookPage.generateTimeOptions fuel (Some settings) = Some allTimes
      /\ incl available allTimes
      /\ (forall t b, In b existing ->
                      JsString.ge t (start_time b) = true ->
                      JsString.lt t (end_time b) = true ->
                      ~ In t available)
      /\ (existing = [] -> available = allTimes).
Proof.
  intros fuel settings existing available H.
  unfold BookPageForm.getAvailableStartTimes in H.
  destruct (BookPage.generateTimeOptions fuel (Some settings)) as [all|] eqn:G;
    [|discriminate].
  exists all. split; [reflexivity|].
  pose proof (filterOpt_In _ _ _ H) as HIn.
  split; [|split].
  - intros x Hx. now apply HIn in Hx.
  - intros t b Hb H1 H2 Ht. apply HIn in Ht. destruct Ht as [_ Ht].
    destruct (BookPageForm.addHoursToTime t (min_booking_duration settings))
      as [later|]; [|discriminate].
    cbn [option_map] in Ht. injection Ht as Ht.
    unfold BookPage.isTimeSlotAvailable in Ht. apply negb_true_iff in Ht.
    assert (E : existsb (BookPage.conflictsWith t later) existing = true).
    { apply existsb_exists. exists b. split; trivial.
      now apply start_inside_conflicts. }
    congruence.
  - intros ->. apply (filterOpt_all _ _ _ H).
    intros x _. destruct (BookPageForm.addHoursToTime x _); discriminate.
Qed.

Lemma getAvailableStartTimes_sound_witness :
  exists allTimes,
    BookPage.generateTimeOptions 96 (Some defaultSettings) = Some allTimes
    /\ incl (filter (fun t => JsString.le t "09:00" || JsString.ge t "12:00")
                    (map BookPage.formatTime (Spec.slotTimes 32 360 30)))
            allTimes
    /\ (forall t b,
          In b [{| start_time := "10:00"; end_time := "12:00" |}] ->
          JsString.ge t (start_time b) = true ->
          JsString.lt t (end_time b) = true ->
          ~ In t (filter (fun t => JsString.le t "09:00"
                                   || JsString.ge t "12:00")
                         (map BookPage.formatTime (Spec.slotTimes 32 360 30))))
    /\ ([{| start_time := "10:00"; end_time := "12:00" |}] = [] ->
        filter (fun t => JsString.le t "09:00" || JsString.ge t "12:00")
               (map BookPage.formatTime (Spec.slotTimes 32 360 30))
        = allTimes).
Proof.
  refine (getAvailableStartTimes_sound 96 defaultSettings
            [{| start_time := "10:00"; end_time := "12:00" |}] _ _).
  vm_compute. reflexivity.
Defined.

(** ** The page's conflict test and the server's *)

Section PageAndServer.

Import JsString BookPage BookPageForm.

Lemma existsb_map {A B : Type} (f : B -> bool) (g : A -> B) (l : list A) :
  existsb f (map g l) = existsb (fun x => f (g x)) l.
Proof. induction l as [|x l IH]; simpl; congruence. Qed.

Lemma existsb_filter {A : Type} (f p : A -> bool) (l : list A) :
  existsb f (filter p l) = existsb (fun x => p x && f x) l.
Proof.
  induction l as [|x l IH]; simpl; trivial.
  destruct (p x); simpl; now rewrite IH.
Qed.

Lemma filter_length_pos {A : Type} (p : A -> bool) (l : list A) :
  (0 <? List.length (filter p l))%nat = existsb p l.
Proof.
  induction l as [|x l IH]; simpl; trivial.
  destruct (p x); simpl; trivial.
Qed.

Lemma existsb_ext_In {A : Type} (f g : A -> bool) (l : list A) :
  (forall x, In x l -> f x = g x) -> existsb f l = existsb g l.
Proof.
  induction l as [|x l IH]; simpl; intros H; trivial.
  rewrite (H x) by auto. rewrite IH; auto.
Qed.

(** The page's test over the fetched bookings is the server's check. *)
Lemma fetched_conflict_is_server_conflict
      (db : BookingService.Db) (previous : list Slot)
      (g d s1 e1 : string) :
  isEmpty g = false -> isEmpty d = false ->
  lt s1 e1 = true ->
  (forall b, In b (BookingService.bookings db) ->
             BookingService.game_id b = g ->
             BookingService.booking_date b = d ->
             BookingService.isActive (BookingService.status b) = true ->
             lt (BookingService.start_time b) (BookingService.end_time b)
             = true) ->
  hasConflict (fetchExistingBookings previous BookingService.Served db g d)
              s1 e1
  = BookingService.check_booking_conflict db g d s1 e1 None.
Proof.
  intros Hg Hd Hc Hrows.
  unfold fetchExistingBookings, BookingService.check_booking_conflict,
    hasConflict.
  rewrite Hg, Hd. cbn [orb].
  rewrite existsb_map, existsb_filter, filter_length_pos.
  apply existsb_ext_In. intros b Hb.
  destruct (String.eqb (BookingService.game_id b) g) eqn:Eg; trivial.
  destruct (String.eqb (BookingService.booking_date b) d) eqn:Ed; trivial.
  destruct (BookingService.isActive (BookingService.status b)) eqn:Ea;
    trivial.
  cbn [andb]. apply String.eqb_eq in Eg, Ed.
  rewrite andb_true_r.
  rewrite (conflictsWith_overlaps s1 e1
             {| start_time := BookingService.start_time b;
                end_time := BookingService.end_time b |} Hc
             (Hrows b Hb Eg Ed Ea)).
  unfold Spec.overlaps, gt. cbn [start_time end_time].
  apply andb_comm.
Qed.

End PageAndServer.

(** X9. When the read of the existing bookings is served, the page's
    conflict test over what it fetched agrees with the server's
    [check_booking_conflict] on the same table, for a candidate with
    start before end and active bookings of that game and date that
    each have start before end.  When that read fails, the page holds no
    bookings and reports no conflict for any selection. *)
Theorem page_conflict_test_matches_server :
  forall (db : BookingService.Db) (previous : list Slot)
         (gameId bookingDate s1 e1 : string),
    BookPage.isEmpty gameId = false ->
    BookPage.isEmpty bookingDate = false ->
    JsString.lt s1 e1 = true ->
    (forall b, In b (BookingService.bookings db) ->
               BookingService.game_id b = gameId ->
               BookingService.booking_date b = bookingDate ->
               BookingService.isActive (BookingService.status b) = true ->
               JsString.lt (BookingService.start_time b)
                           (BookingService.end_time b) = true) ->
    BookPage.hasConflict
      (BookPageForm.fetchExistingBookings previous BookingService.Served
                                          db gameId bookingDate) s1 e1
    = BookingService.check_booking_conflict db gameId bookingDate s1 e1 None
    /\ (forall err s e,
          BookPage.hasConflict
            (BookPageForm.fetchExistingBookings
               previous (BookingService.Failed err) db gameId bookingDate) s e
          = false).
Proof.
  intros db previous g d s1 e1 Hg Hd Hc Hrows. split.
  - now apply fetched_conflict_is_server_conflict.
  - intros err s e. unfold BookPageForm.fetchExistingBookings.
    rewrite Hg, Hd. reflexivity.
Qed.

Lemma page_conflict_test_matches_server_witness :
  BookPage.hasConflict
    (BookPageForm.fetchExistingBookings [] BookingService.Served
       (Examples.oneBooking confirmed) "cricket" "2025-03-01")
    "10:30" "11:30"
  = BookingService.check_booking_conflict (Examples.oneBooking confirmed)
      "cricket" "2025-03-01" "10:30" "11:30" None.
Proof.
  refine (proj1 (page_conflict_test_matches_server
                   (Examples.oneBooking confirmed) [] "cricket" "2025-03-01"
                   "10:30" "11:30" eq_refl eq_refl eq_refl _)).
  intros b [<- | []] _ _ _. reflexivity.
Defined.

(** ** Overnight candidates *)

Section Overnight.

Import JsString BookPage.

(** For a candidate whose end is not after its start, the third clause
    of the test (candidate encloses booking) cannot hold against a
    booking with start before end. *)
Lemma overnight_third_clause (s1 e1 : string) (b : Slot) :
  le e1 s1 = true ->
  lt (start_time b) (end_time b) = true ->
  le s1 (start_time b) && ge e1 (end_time b) = false.
Proof.
  intros Hc Hb.
  destruct (le s1 (start_time b)) eqn:A; trivial.
  destruct (ge e1 (end_time b)) eqn:B; trivial.
  exfalso.
  assert (B' : le (end_time b) e1 = true) by exact B.
  pose proof (lt_le_trans _ _ _ Hb B') as H1.
  pose proof (lt_le_trans _ _ _ H1 Hc) as H2.
  unfold le in A. rewrite H2 in A. discriminate A.
Qed.

End Overnight.

(** X10. For an overnight candidate (end not after start, as 24/7
    operation allows) and a booking with start before end, the page's
    test reports a conflict only when the candidate's start lies inside
    the booking or its end lies inside it.  A booking that starts after
    the candidate's start (later the same evening) is therefore never
    reported, and neither is one that ends before the candidate's end;
    the server's check reports nothing either when every booking starts
    after the candidate's start. *)
Theorem overnight_candidate_conflicts :
  forall (s1 e1 : string) (b : Slot),
    JsString.le e1 s1 = true ->
    JsString.lt (start_time b) (end_time b) = true ->
    BookPage.conflictsWith s1 e1 b
    = (JsString.ge s1 (start_time b) && JsString.lt s1 (end_time b))
      || (JsString.gt e1 (start_time b) && JsString.le e1 (end_time b))
    /\ (JsString.lt s1 (start_time b) = true ->
        BookPage.conflictsWith s1 e1 b = false)
    /\ (JsString.lt (end_time b) e1 = true ->
        BookPage.conflictsWith s1 e1 b = false)
    /\ (forall db g d x,
          (forall r, In r (BookingService.bookings db) ->
                     JsString.lt s1 (BookingService.start_time r) = true) ->
          BookingService.check_booking_conflict db g d s1 e1 x = false).
Proof.
  intros s1 e1 b Hc Hb.
  pose proof (overnight_third_clause s1 e1 b Hc Hb) as T.
  assert (E : BookPage.conflictsWith s1 e1 b
              = (JsString.ge s1 (start_time b) && JsString.lt s1 (end_time b))
                || (JsString.gt e1 (start_time b)
                    && JsString.le e1 (end_time b))).
  { unfold BookPage.conflictsWith. rewrite T. apply orb_false_r. }
  split; [exact E|]. split; [|split].
  - intros L. rewrite E. unfold JsString.ge, JsString.gt. rewrite L.
    pose proof (le_lt_trans _ _ _ Hc L) as H.
    now rewrite (lt_asym _ _ H).
  - intros L. rewrite E.
    pose proof (lt_le_trans _ _ _ L Hc) as H.
    rewrite (lt_asym _ _ H). unfold JsString.le at 1. rewrite L.
    cbn [negb]. now rewrite andb_false_r, andb_false_r.
  - intros db g d x Hrows.
    unfold BookingService.check_booking_conflict.
    rewrite filter_length_pos.
    apply not_true_is_false. intros Hex.
    apply existsb_exists in Hex. destruct Hex as (r & Hr & P).
    pose proof (le_lt_trans _ _ _ Hc (Hrows r Hr)) as Hlt.
    rewrite (lt_asym _ _ Hlt) in P.
    rewrite !andb_false_r in P. discriminate P.
Qed.

Lemma overnight_candidate_conflicts_witness :
  BookPage.conflictsWith "23:00" "05:00"
    {| start_time := "23:15"; end_time := "23:45" |} = false.
Proof.
  refine (proj1 (proj2 (overnight_candidate_conflicts "23:00" "05:00"
            {| start_time := "23:15"; end_time := "23:45" |} _ _)) _);
    reflexivity.
Defined.


(** ** The dates the picker allows *)

(** X11. Where the host's time zone has the same offset now and at
    the local times one day and [advance_booking_days] days on (no clock
    change in between), the date picker runs from [getMinDate] to
    [getMaxDate] over [advance_booking_days] days outside 24/7
    operation and over one more under it; [getMaxDate] is the UTC date
    of now plus the advance; and while the settings are not loaded the
    latest date is before the earliest, so no date can be picked. *)
Theorem date_window :
  forall (tz : BookPage.TimeZone) (settings : SystemSettings) (now z : Z),
    BookPage.offsetAtInstant tz now = z ->
    BookPage.offsetAtLocal tz (now + z + 1 * 86400000) = z ->
    BookPage.offsetAtLocal tz
      (now + z + advance_booking_days settings * 86400000) = z ->
    BookPage.getMaxDate tz (Some settings) now
    - BookPage.getMinDate tz (Some settings) now + 1
    = (if is_24_7 settings then advance_booking_days settings + 1
       else advance_booking_days settings)
    /\ BookPage.getMaxDate tz (Some settings) now
       = now / 86400000 + advance_booking_days settings
    /\ BookPage.getMaxDate tz None now < BookPage.getMinDate tz None now.
Proof.
  intros tz settings now z Hi H1 Hn.
  unfold BookPage.getMaxDate, BookPage.getMinDate.
  rewrite (addDays_same_offset tz now 1 z Hi H1).
  rewrite (addDays_same_offset tz now _ z Hi Hn).
  unfold BookPage.isoDate, BookPage.Day, BookPage.msPerDay.
  rewrite !Z.div_add by lia.
  destruct (is_24_7 settings); repeat split; lia.
Qed.

(** In Kolkata with the default settings: seven days, from day 20149 to
    day 20155. *)
Lemma date_window_witness :
  BookPage.getMaxDate Examples.Kolkata (Some defaultSettings) 1740864600000
  - BookPage.getMinDate Examples.Kolkata (Some defaultSettings) 1740864600000
  + 1 = 7.
Proof.
  exact (proj1 (date_window Examples.Kolkata defaultSettings 1740864600000
                  19800000 eq_refl eq_refl eq_refl)).
Defined.

(** Across a clock change the step of [setDate] is not 24 hours: in New
    York at 19:30 on 2025-03-08 (00:30 UTC on 2025-03-09) the day after,
    19:30 on 2025-03-09, is 23:30 UTC of the same UTC day, so the
    earliest date outside 24/7 operation is the UTC date of now (day
    20156), not the day after it. *)
Example getMinDate_clock_change :
  BookPage.addDays Examples.NewYork 1741480200000 1
  = 1741480200000 + 23 * 3600000
  /\ BookPage.getMinDate Examples.NewYork (Some defaultSettings) 1741480200000
     = 20156
  /\ BookPage.isoDate 1741480200000 = 20156.
Proof. repeat split. Qed.

(** ** Invariants of the bookings table *)

Section TableInvariants.

Import JsString BookingService Table.

Lemma clashFree_app (l : list Booking) (n : Booking) :
  clashFree (l ++ [n])%list
  = clashFree l && forallb (fun a => negb (clash a n)) l.
Proof.
  induction l as [|a l IH]; simpl; trivial.
  rewrite forallb_app, IH. simpl.
  destruct (forallb (fun b => negb (clash a b)) l);
    destruct (clash a n); destruct (clashFree l);
    destruct (forallb (fun a0 => negb (clash a0 n)) l); reflexivity.
Qed.

(** What a served check that finds nothing says about each row. *)
Lemma no_conflict_no_clash (db : Db) (r : BookingInsert) (n : Booking) :
  check_booking_conflict db (ins_game_id r) (ins_booking_date r)
                         (ins_start_time r) (ins_end_time r) None = false ->
  game_id n = ins_game_id r -> booking_date n = ins_booking_date r ->
  start_time n = ins_start_time r -> end_time n = ins_end_time r ->
  forallb (fun a => negb (clash a n)) (bookings db) = true.
Proof.
  intros Hc Eg Ed Es Ee. unfold check_booking_conflict in Hc.
  rewrite filter_length_pos in Hc.
  apply forallb_forall. intros a Ha. apply negb_true_iff.
  apply not_true_is_false. intros C.
  assert (X : existsb
                (fun b =>
                   String.eqb (game_id b) (ins_game_id r)
                   && String.eqb (booking_date b) (ins_booking_date r)
                   && isActive (status b)
                   && (lt (start_time b) (ins_end_time r)
                       && gt (end_time b) (ins_start_time r))
                   && true) (bookings db) = true); [|congruence].
  apply existsb_exists. exists a. split; trivial.
  unfold clash in C. rewrite Eg, Ed, Es, Ee in C.
  repeat (apply andb_true_iff in C; destruct C as [C ?]).
  unfold gt. repeat (apply andb_true_iff; split); trivial.
Qed.

(** An update changes neither game, date nor times; when it does not
    turn an inactive row active, it creates no clash. *)
Lemma clash_after_update (bookingId : nat) (s : BookingStatus)
      (n : option string) (a b : Booking) :
  (Nat.eqb (id a) bookingId = true -> isActive s = true ->
   isActive (status a) = true) ->
  (Nat.eqb (id b) bookingId = true -> isActive s = true ->
   isActive (status b) = true) ->
  clash (if Nat.eqb (id a) bookingId then applyUpdate s n a else a)
        (if Nat.eqb (id b) bookingId then applyUpdate s n b else b) = true ->
  clash a b = true.
Proof.
  intros Ha Hb.
  destruct (Nat.eqb (id a) bookingId) eqn:Ea;
    destruct (Nat.eqb (id b) bookingId) eqn:Eb;
    unfold clash, applyUpdate;
    cbn [game_id booking_date start_time end_time status];
    intros C; repeat (apply andb_true_iff in C; destruct C as [C ?]);
    repeat (apply andb_true_iff; split); auto.
Qed.

End TableInvariants.

Section TableUpdates.

Import JsString BookingService Table.

(** The rows after a served update, whatever [single()] answers. *)
Lemma update_rows (db : Db) (bookingId : nat) (s : BookingStatus)
      (n : option string) :
  fst (update_booking Served db bookingId s n)
  = {| bookings :=
         map (fun b => if Nat.eqb (id b) bookingId then applyUpdate s n b else b)
             (bookings db);
       next_id := next_id db |}.
Proof.
  unfold update_booking.
  destruct (filter _ _) as [|x [|y l]]; reflexivity.
Qed.

Lemma clashFree_map (f : Booking -> Booking) (l : list Booking) :
  (forall a b, In a l -> In b l -> clash (f a) (f b) = true ->
               clash a b = true) ->
  clashFree l = true -> clashFree (map f l) = true.
Proof.
  induction l as [|a l IH]; simpl; trivial.
  intros Hm H. apply andb_true_iff in H. destruct H as [H1 H2].
  apply andb_true_iff. split.
  - apply forallb_forall. intros y Hy. apply in_map_iff in Hy.
    destruct Hy as (b & <- & Hb).
    rewrite forallb_forall in H1. specialize (H1 b Hb).
    apply negb_true_iff in H1. apply negb_true_iff.
    apply not_true_is_false. intros C.
    rewrite (Hm a b) in H1; auto. discriminate.
  - apply IH; auto.
Qed.

End TableUpdates.

(** X12. The table stays free of clashes (two active bookings of one
    game and date with [s1 < e2] and [s2 < e1]) under one call of
    [createBooking] that runs on its own, with no other write between
    its served conflict check and its insert, whatever the request and
    whether or not the insert succeeds; and under [updateBookingStatus]
    whenever the update does not turn an inactive booking into an active
    one (so under every cancel, no-show, complete and under the approval
    of a pending booking).  Two calls whose checks are both served
    before either insert do leave a clash. *)
Theorem clashFree_preserved :
  forall db : BookingService.Db,
    Table.clashFree (BookingService.bookings db) = true ->
    (forall o bookingData,
       Table.clashFree
         (BookingService.bookings
            (fst (BookingService.createBooking BookingService.Served o
                                               db bookingData))) = true)
    /\ (forall o bookingId s n,
          (BookingService.isActive s = true ->
           forall r, In r (BookingService.bookings db) ->
                     BookingService.id r = bookingId ->
                     BookingService.isActive (BookingService.status r) = true) ->
          Table.clashFree
            (BookingService.bookings
               (fst (BookingService.updateBookingStatus o db bookingId s n)))
          = true)
    /\ (let final :=
          Concurrent.run
            [ (Concurrent.First, BookingService.Served);
              (Concurrent.Second, BookingService.Served);
              (Concurrent.First, BookingService.Served);
              (Concurrent.Second, BookingService.Served) ]
            (Concurrent.start Examples.emptyDb Examples.request
                              Examples.request) in
        Table.clashFree (BookingService.bookings Examples.emptyDb) = true
        /\ Table.clashFree
             (BookingService.bookings (Concurrent.store final)) = false).
Proof.
  intros db Hfree. split; [|split; [|split; reflexivity]].
  - intros o r. unfold BookingService.createBooking,
      BookingService.checkBookingConflict,
      BookingService.rpc_check_booking_conflict.
    destruct (BookingService.check_booking_conflict db _ _ _ _ None) eqn:C;
      [exact Hfree|].
    destruct o as [|e]; [|exact Hfree].
    cbn [BookingService.insert_booking fst BookingService.bookings].
    rewrite clashFree_app, Hfree. cbn [andb].
    now apply (no_conflict_no_clash db r).
  - intros o bookingId s n Hact.
    unfold BookingService.updateBookingStatus.
    destruct o as [|e]; [|exact Hfree].
    rewrite update_rows. cbn [BookingService.bookings].
    apply clashFree_map; trivial.
    intros a b Ha Hb. apply clash_after_update.
    + intros E Hs. apply Nat.eqb_eq in E. now apply (Hact Hs a).
    + intros E Hs. apply Nat.eqb_eq in E. now apply (Hact Hs b).
Qed.

Lemma clashFree_preserved_witness :
  Table.clashFree
    (BookingService.bookings
       (fst (BookingService.createBooking BookingService.Served
               BookingService.Served (Examples.oneBooking confirmed)
               Examples.request))) = true.
Proof.
  refine (proj1 (clashFree_preserved (Examples.oneBooking confirmed) _) _ _).
  reflexivity.
Defined.

Section UpdateFrame.

Import BookingService Table.

Lemma map_unchanged {A : Type} (f : A -> A) (l : list A) :
  (forall x, In x l -> f x = x) -> map f l = l.
Proof.
  induction l as [|x l IH]; simpl; intros H; trivial.
  rewrite H by auto. f_equal. apply IH. auto.
Qed.

Lemma filter_none {A : Type} (p : A -> bool) (l : list A) :
  (forall x, In x l -> p x = false) -> filter p l = [].
Proof.
  induction l as [|x l IH]; simpl; intros H; trivial.
  rewrite H by auto. apply IH. auto.
Qed.

Lemma Forall2_map_r {A : Type} (R : A -> A -> Prop) (f : A -> A) (l : list A) :
  (forall x, R x (f x)) -> Forall2 R l (map f l).
Proof.
  intros H. induction l; simpl; constructor; auto.
Qed.

End UpdateFrame.

(** X13. A status update touches nothing but the status and the notes of
    the rows with the given key: the table keeps its rows in place, each
    with its key, user, game, date and times, every row with another key
    is left exactly as it was, and the next key stays the same; a failed
    update changes nothing at all. *)
Theorem updateBookingStatus_frame :
  forall (o : BookingService.Outcome) (db : BookingService.Db)
         (bookingId : nat) (s : BookingStatus) (n : option string),
    Forall2
      (fun b b' =>
         BookingService.id b' = BookingService.id b
         /\ BookingService.user_id b' = BookingService.user_id b
         /\ BookingService.game_id b' = BookingService.game_id b
         /\ BookingService.booking_date b' = BookingService.booking_date b
         /\ BookingService.start_time b' = BookingService.start_time b
         /\ BookingService.end_time b' = BookingService.end_time b
         /\ (BookingService.id b <> bookingId -> b' = b))
      (BookingService.bookings db)
      (BookingService.bookings
         (fst (BookingService.updateBookingStatus o db bookingId s n)))
    /\ BookingService.next_id
         (fst (BookingService.updateBookingStatus o db bookingId s n))
       = BookingService.next_id db
    /\ (forall e,
          fst (BookingService.updateBookingStatus (BookingService.Failed e)
                                                  db bookingId s n) = db).
Proof.
  intros o db bookingId s n. split; [|split].
  - unfold BookingService.updateBookingStatus. destruct o as [|e].
    + rewrite update_rows. cbn [BookingService.bookings].
      apply Forall2_map_r. intros b.
      destruct (Nat.eqb_spec (BookingService.id b) bookingId) as [E|E].
      * cbn. repeat split; trivial. intros H. contradiction.
      * repeat split; trivial.
    + cbn. clear. induction (BookingService.bookings db); constructor;
        repeat split; trivial.
  - unfold BookingService.updateBookingStatus. destruct o as [|e].
    + rewrite update_rows. reflexivity.
    + reflexivity.
  - reflexivity.
Qed.

(** X14. A status update for a key that no booking has is answered with
    the error of [single()] (PGRST116), and the table is left exactly as
    it was. *)
Theorem updateBookingStatus_unknown_id :
  forall (db : BookingService.Db) (bookingId : nat)
         (s : BookingStatus) (n : option string),
    (forall b, In b (BookingService.bookings db) ->
               BookingService.id b <> bookingId) ->
    BookingService.updateBookingStatus BookingService.Served db bookingId s n
    = (db, BookingService.Err (BookingService.StoreError "PGRST116"))
    /\ BookingService.findBooking db bookingId = None.
Proof.
  intros db bookingId s n H.
  assert (P : forall b, In b (BookingService.bookings db) ->
                        Nat.eqb (BookingService.id b) bookingId = false).
  { intros b Hb. apply Nat.eqb_neq. auto. }
  split.
  - unfold BookingService.updateBookingStatus, BookingService.update_booking.
    rewrite map_unchanged.
    + rewrite (filter_none _ _ P). destruct db; reflexivity.
    + intros b Hb. now rewrite (P b Hb).
  - unfold BookingService.findBooking.
    rewrite find_hd_filter, (filter_none _ _ P). reflexivity.
Qed.

Lemma updateBookingStatus_unknown_id_witness :
  BookingService.updateBookingStatus BookingService.Served
    (Examples.oneBooking pending) 7 canceled None
  = (Examples.oneBooking pending,
     BookingService.Err (BookingService.StoreError "PGRST116")).
Proof.
  refine (proj1 (updateBookingStatus_unknown_id
                   (Examples.oneBooking pending) 7 canceled None _)).
  intros b [<- | []]. discriminate.
Defined.

(** X15. Cancelling, completing or marking a booking as no-show frees
    its slot: after the update the server's conflict check answers for
    every candidate as it answered before with that booking excluded. *)
Theorem inactive_status_frees_slot :
  forall (db : BookingService.Db) (bookingId : nat) (s : BookingStatus)
         (n : option string) (g d startTime endTime : string),
    BookingService.isActive s = false ->
    BookingService.check_booking_conflict
      (fst (BookingService.updateBookingStatus BookingService.Served
                                               db bookingId s n))
      g d startTime endTime None
    = BookingService.check_booking_conflict db g d startTime endTime
                                            (Some bookingId).
Proof.
  intros db bookingId s n g d st en Hs.
  unfold BookingService.updateBookingStatus. rewrite update_rows.
  unfold BookingService.check_booking_conflict.
  cbn [BookingService.bookings].
  rewrite !filter_length_pos, existsb_map.
  apply existsb_ext_In. intros b _.
  destruct (Nat.eqb (BookingService.id b) bookingId) eqn:E.
  - cbn [BookingService.applyUpdate BookingService.game_id
           BookingService.booking_date BookingService.status
           BookingService.start_time BookingService.end_time negb].
    rewrite Hs. now rewrite !andb_false_r.
  - reflexivity.
Qed.

Lemma inactive_status_frees_slot_witness :
  BookingService.check_booking_conflict
    (fst (BookingService.updateBookingStatus BookingService.Served
            (Examples.oneBooking confirmed) 0 canceled None))
    "cricket" "2025-03-01" "10:30" "11:30" None
  = BookingService.check_booking_conflict (Examples.oneBooking confirmed)
      "cricket" "2025-03-01" "10:30" "11:30" (Some 0%nat).
Proof.
  refine (inactive_status_frees_slot (Examples.oneBooking confirmed) 0
            canceled None "cricket" "2025-03-01" "10:30" "11:30" _).
  reflexivity.
Defined.

(** ** Ordered query results *)


Section Ordering.

Import JsString BookingService Queries.

Context {A : Type} (leb : A -> A -> bool).

Lemma insertBy_In (x : A) (l : list A) (y : A) :
  In y (insertBy leb x l) <-> y = x \/ In y l.
Proof.
  induction l as [|z l IH]; simpl.
  - intuition.
  - destruct (leb x z); simpl.
    + intuition.
    + rewrite IH. intuition.
Qed.

Lemma orderBy_In (l : list A) (y : A) : In y (orderBy leb l) <-> In y l.
Proof.
  induction l as [|x l IH]; simpl; [tauto|].
  rewrite insertBy_In, IH. intuition.
Qed.

Lemma existsb_orderBy (f : A -> bool) (l : list A) :
  existsb f (orderBy leb l) = existsb f l.
Proof.
  destruct (existsb f l) eqn:E.
  - apply existsb_exists in E. destruct E as (x & Hx & Fx).
    apply existsb_exists. exists x. split; trivial. now apply orderBy_In.
  - apply not_true_is_false. intros H. apply existsb_exists in H.
    destruct H as (x & Hx & Fx). apply (proj1 (orderBy_In _ _)) in Hx.
    assert (X : existsb f l = true)
      by (apply existsb_exists; exists x; split; trivial).
    congruence.
Qed.

Hypothesis leb_total : forall a b, leb a b = true \/ leb b a = true.
Hypothesis leb_trans :
  forall a b c, leb a b = true -> leb b c = true -> leb a c = true.





End Ordering.

Section DateOrder.

Import JsString BookingService Queries.






End DateOrder.



(** ** The slot list of the game service *)

Section GameSlots.

Import JsString BookingService GameService.

Lemma generateTimeSlots_ok : forallb slotOk generateTimeSlots = true.
Proof. vm_compute. reflexivity. Qed.

Lemma slotOk_start_before_end (slot : TimeSlot) :
  slotOk slot = true -> lt (slot_start slot) (slot_end slot) = true.
Proof.
  unfold slotOk.
  destruct (BookPage.totalMinutes (slot_start slot)); [|discriminate].
  destruct (BookPage.totalMinutes (slot_end slot)); [|discriminate].
  intros H. apply andb_true_iff in H. tauto.
Qed.

End GameSlots.

(** X19. [getAvailableTimeSlots] returns exactly the generated slots
    that overlap no active booking of the game and date (by
    [s1 < e2 AND s2 < e1]), when those bookings each have start before
    end.  Every generated slot starts at 06:00 or later on a half hour,
    lasts 1 to 4 hours, and ends at its start plus its duration, at
    22:30 at the latest; slots ending at 22:30 are generated.  A failed
    read returns the store's error. *)
Theorem getAvailableTimeSlots_sound :
  forall (db : BookingService.Db) (gameId date : string),
    (forall b, In b (BookingService.bookings db) ->
               BookingService.game_id b = gameId ->
               BookingService.booking_date b = date ->
               BookingService.isActive (BookingService.status b) = true ->
               JsString.lt (BookingService.start_time b)
                           (BookingService.end_time b) = true) ->
    exists slots,
      GameService.getAvailableTimeSlots BookingService.Served db gameId date
      = BookingService.Data slots
      /\ (forall slot,
            In slot slots <->
            In slot GameService.generateTimeSlots
            /\ forall b, In b (BookingService.bookings db) ->
                 BookingService.game_id b = gameId ->
                 BookingService.booking_date b = date ->
                 BookingService.isActive (BookingService.status b) = true ->
                 JsString.lt (GameService.slot_start slot)
                             (BookingService.end_time b)
                 && JsString.lt (BookingService.start_time b)
                                (GameService.slot_end slot) = false)
      /\ (forall slot, In slot GameService.generateTimeSlots ->
                       GameService.slotOk slot = true)
      /\ In {| GameService.slot_start := "21:30";
               GameService.slot_end := "22:30";
               GameService.slot_duration := inject_Z 2 / 2 |}
            GameService.generateTimeSlots
      /\ (forall e,
            GameService.getAvailableTimeSlots (BookingService.Failed e)
                                              db gameId date
            = BookingService.Err (BookingService.StoreError e)).
Proof.
  intros db g d Hrows. eexists. split; [reflexivity|].
  assert (Hok : forall slot, In slot GameService.generateTimeSlots ->
                             GameService.slotOk slot = true).
  { pose proof generateTimeSlots_ok as H. rewrite forallb_forall in H.
    exact H. }
  split; [|split; [exact Hok|split]].
  - intros slot. rewrite filter_In, negb_true_iff, existsb_orderBy.
    rewrite existsb_filter.
    split; intros [Hin H]; split; trivial.
    + intros b Hb Eg Ed Ea.
      assert (F : (String.eqb (BookingService.game_id b) g
                   && String.eqb (BookingService.booking_date b) d
                   && BookingService.isActive (BookingService.status b))
                  && GameService.slotConflicts slot b = false).
      { apply not_true_is_false. intros T.
        assert (X : existsb
                      (fun x =>
                         String.eqb (BookingService.game_id x) g
                         && String.eqb (BookingService.booking_date x) d
                         && BookingService.isActive (BookingService.status x)
                         && GameService.slotConflicts slot x)
                      (BookingService.bookings db) = true)
          by (apply existsb_exists; exists b; split; trivial).
        congruence. }
      rewrite Eg, Ed, Ea, !String.eqb_refl in F. cbn [andb] in F.
      change (GameService.slotConflicts slot b)
        with (BookPage.conflictsWith (GameService.slot_start slot)
                (GameService.slot_end slot)
                {| start_time := BookingService.start_time b;
                   end_time := BookingService.end_time b |}) in F.
      rewrite conflictsWith_overlaps in F; trivial.
      * apply slotOk_start_before_end. auto.
      * apply (Hrows b Hb Eg Ed Ea).
    + apply not_true_is_false. intros T. apply existsb_exists in T.
      destruct T as (b & Hb & P).
      apply andb_true_iff in P. destruct P as [P C].
      repeat (apply andb_true_iff in P; destruct P as [P ?]).
      apply String.eqb_eq in P.
      match goal with E : String.eqb _ d = true |- _ =>
        apply String.eqb_eq in E; rename E into Ed end.
      match goal with E : BookingService.isActive _ = true |- _ =>
        rename E into Ea end.
      change (GameService.slotConflicts slot b)
        with (BookPage.conflictsWith (GameService.slot_start slot)
                (GameService.slot_end slot)
                {| start_time := BookingService.start_time b;
                   end_time := BookingService.end_time b |}) in C.
      rewrite conflictsWith_overlaps in C.
      * unfold Spec.overlaps in C. cbn [start_time end_time] in C.
        rewrite (H b Hb P Ed Ea) in C. discriminate.
      * apply slotOk_start_before_end. auto.
      * apply (Hrows b Hb P Ed Ea).
  - vm_compute. tauto.
  - reflexivity.
Qed.

Lemma getAvailableTimeSlots_sound_witness :
  exists slots,
    GameService.getAvailableTimeSlots BookingService.Served
      (Examples.oneBooking confirmed) "cricket" "2025-03-01"
    = BookingService.Data slots.
Proof.
  destruct (getAvailableTimeSlots_sound (Examples.oneBooking confirmed)
              "cricket" "2025-03-01") as (slots & H & _).
  - intros b [<- | []] _ _ _. reflexivity.
  - exists slots. exact H.
Defined.


(** ** Settings validation on supplied, non-zero values *)

Section ValidSettings.

Import Js BookPage SettingsService Checks.









End ValidSettings.



(** Settings as the store returns them, closing before opening: the
    verdict is "valid". *)
Example validateSettings_times_with_seconds :
  SettingsService.isValid
    (SettingsService.validateSettings
       {| SettingsService.p_opening_time := Some "22:00:00";
          SettingsService.p_closing_time := Some "06:00:00";
          SettingsService.p_is_24_7 := Some false;
          SettingsService.p_advance_booking_days := Some 7;
          SettingsService.p_require_admin_approval := Some true;
          SettingsService.p_booking_slot_duration := Some 30;
          SettingsService.p_min_booking_duration := Some 1%Q;
          SettingsService.p_max_booking_duration := Some 4%Q;
          SettingsService.p_cancellation_deadline := Some 2 |}) = true.
Proof. reflexivity. Qed.

(** ** Submitting the form *)

Section Submit.

Import Js BookPage BookPageForm BookingService BookPageSubmit.

(** When [createBooking] returns an error the table is as before. *)
Lemma createBooking_error_keeps_db (o1 o2 : Outcome) (db db' : Db)
      (r : BookingInsert) (e : ServiceError) :
  createBooking o1 o2 db r = (db', Err e) -> db' = db.
Proof.
  unfold createBooking.
  destruct (checkBookingConflict _ _ _ _ _ _ _); [now intros [= <- _]|].
  unfold insert_booking. destruct o2; [discriminate|]. now intros [= <- _].
Qed.

(** A selection without time error has no conflict with the bookings
    shown. *)
Lemma no_time_error_no_conflict (settings : SystemSettings)
      (existing : list Slot) (s e : string) :
  isEmpty s = false -> isEmpty e = false ->
  validateTimeSelection (Some settings) existing s e = NoTimeError ->
  hasConflict existing s e = false.
Proof.
  intros Hs He. unfold validateTimeSelection. rewrite Hs, He. cbn [orb].
  repeat match goal with
         | |- context [if ?c then _ else _] =>
             destruct c eqn:?; try discriminate
         end.
  reflexivity.
Qed.

End Submit.

(** X21. [handleSubmit] changes the table only when it reports success,
    and it reports success only for a signed-in user with game, date,
    start and end filled in and no time error; the table then holds
    exactly one more booking, carrying the user and the form's game,
    date and times, with no status given by the page (so the status
    column's default). *)
Theorem handleSubmit_guards :
  forall (user : option string) (formData : BookPageSubmit.FormData)
         (timeError : BookPage.TimeError)
         (o1 o2 : BookingService.Outcome) (db db' : BookingService.Db)
         (toast : BookPageSubmit.Toast),
    BookPageSubmit.handleSubmit user formData timeError o1 o2 db
    = (db', toast) ->
    (toast <> BookPageSubmit.ToastSuccess -> db' = db)
    /\ (toast = BookPageSubmit.ToastSuccess ->
        exists userId b,
          user = Some userId
          /\ timeError = BookPage.NoTimeError
          /\ BookPage.isEmpty (BookPageSubmit.gameId formData) = false
          /\ BookPage.isEmpty (BookPageSubmit.bookingDate formData) = false
          /\ BookPage.isEmpty (BookPageSubmit.startTime formData) = false
          /\ BookPage.isEmpty (BookPageSubmit.endTime formData) = false
          /\ BookingService.bookings db'
             = (BookingService.bookings db ++ [b])%list
          /\ BookingService.user_id b = userId
          /\ BookingService.game_id b = BookPageSubmit.gameId formData
          /\ BookingService.booking_date b = BookPageSubmit.bookingDate formData
          /\ BookingService.start_time b = BookPageSubmit.startTime formData
          /\ BookingService.end_time b = BookPageSubmit.endTime formData
          /\ BookingService.status b = BookingService.status_default).
Proof.
  intros user f te o1 o2 db db' toast.
  unfold BookPageSubmit.handleSubmit.
  destruct user as [uid|]; [|intros [= <- <-]; split; [trivial|discriminate]].
  destruct (BookPage.isEmpty (BookPageSubmit.gameId f)) eqn:E1;
    [intros [= <- <-]; split; [trivial|discriminate]|].
  destruct (BookPage.isEmpty (BookPageSubmit.bookingDate f)) eqn:E2;
    [intros [= <- <-]; split; [trivial|discriminate]|].
  destruct (BookPage.isEmpty (BookPageSubmit.startTime f)) eqn:E3;
    [intros [= <- <-]; split; [trivial|discriminate]|].
  destruct (BookPage.isEmpty (BookPageSubmit.endTime f)) eqn:E4;
    [intros [= <- <-]; split; [trivial|discriminate]|].
  cbn [orb].
  destruct te; try (intros [= <- <-]; split; [trivial|discriminate]).
  destruct (BookingService.createBooking o1 o2 db _) as [d1 [b|e]] eqn:C;
    intros [= <- <-].
  - split; [intros H; now contradiction H|]. intros _.
    destruct (createBooking_created _ _ _ _ _ _ C) as (R & G & D & S & E).
    exists uid, b. repeat split; trivial.
    unfold BookingService.createBooking in C.
    destruct (BookingService.checkBookingConflict _ _ _ _ _ _ _);
      [discriminate|].
    unfold BookingService.insert_booking in C.
    destruct o2; [|discriminate]. now injection C as _ <-.
    unfold BookingService.createBooking in C.
    destruct (BookingService.checkBookingConflict _ _ _ _ _ _ _);
      [discriminate|].
    unfold BookingService.insert_booking in C.
    destruct o2; [|discriminate]. now injection C as _ <-.
  - split; [|discriminate]. intros _.
    now apply (createBooking_error_keeps_db _ _ _ _ _ _ C).
Qed.

Lemma handleSubmit_guards_witness :
  exists userId b,
    Some "u2" = Some userId
    /\ BookPage.NoTimeError = BookPage.NoTimeError
    /\ BookPage.isEmpty (BookPageSubmit.gameId Examples2.form) = false
    /\ BookPage.isEmpty (BookPageSubmit.bookingDate Examples2.form) = false
    /\ BookPage.isEmpty (BookPageSubmit.startTime Examples2.form) = false
    /\ BookPage.isEmpty (BookPageSubmit.endTime Examples2.form) = false
    /\ BookingService.bookings
         (fst (BookPageSubmit.handleSubmit (Some "u2") Examples2.form
                 BookPage.NoTimeError BookingService.Served
                 BookingService.Served (Examples.oneBooking confirmed)))
       = (BookingService.bookings (Examples.oneBooking confirmed) ++ [b])%list
    /\ BookingService.user_id b = userId
    /\ BookingService.game_id b = BookPageSubmit.gameId Examples2.form
    /\ BookingService.booking_date b
       = BookPageSubmit.bookingDate Examples2.form
    /\ BookingService.start_time b = BookPageSubmit.startTime Examples2.form
    /\ BookingService.end_time b = BookPageSubmit.endTime Examples2.form
    /\ BookingService.status b = BookingService.status_default.
Proof.
  refine (proj2 (handleSubmit_guards (Some "u2") Examples2.form
                   BookPage.NoTimeError BookingService.Served
                   BookingService.Served (Examples.oneBooking confirmed)
                   _ BookPageSubmit.ToastSuccess _) eq_refl).
  reflexivity.
Defined.

(** X22. What the page accepts, the server accepts, when nothing changed
    in between: if the selection (start before end) shows no time error
    against the bookings fetched from the table, those bookings each
    having start before end, then a submission by a signed-in user whose
    two round trips are served on the same table is reported as a
    success and appends the booking. *)
Theorem accepted_selection_is_inserted :
  forall (settings : SystemSettings) (db : BookingService.Db)
         (previous : list Slot) (userId : string)
         (formData : BookPageSubmit.FormData),
    BookPage.isEmpty (BookPageSubmit.gameId formData) = false ->
    BookPage.isEmpty (BookPageSubmit.bookingDate formData) = false ->
    BookPage.isEmpty (BookPageSubmit.startTime formData) = false ->
    BookPage.isEmpty (BookPageSubmit.endTime formData) = false ->
    JsString.lt (BookPageSubmit.startTime formData)
                (BookPageSubmit.endTime formData) = true ->
    (forall b, In b (BookingService.bookings db) ->
               BookingService.game_id b = BookPageSubmit.gameId formData ->
               BookingService.booking_date b
               = BookPageSubmit.bookingDate formData ->
               BookingService.isActive (BookingService.status b) = true ->
               JsString.lt (BookingService.start_time b)
                           (BookingService.end_time b) = true) ->
    BookPage.validateTimeSelection (Some settings)
      (BookPageForm.fetchExistingBookings previous BookingService.Served db
         (BookPageSubmit.gameId formData) (BookPageSubmit.bookingDate formData))
      (BookPageSubmit.startTime formData) (BookPageSubmit.endTime formData)
    = BookPage.NoTimeError ->
    exists b,
      BookPageSubmit.handleSubmit (Some userId) formData BookPage.NoTimeError
        BookingService.Served BookingService.Served db
      = ({| BookingService.bookings :=
              (BookingService.bookings db ++ [b])%list;
            BookingService.next_id := S (BookingService.next_id db) |},
         BookPageSubmit.ToastSuccess)
      /\ BookingService.start_time b = BookPageSubmit.startTime formData
      /\ BookingService.end_time b = BookPageSubmit.endTime formData
      /\ BookingService.id b = BookingService.next_id db.
Proof.
  intros settings db previous uid f E1 E2 E3 E4 Hc Hrows Hv.
  pose proof (no_time_error_no_conflict settings _ _ _ E3 E4 Hv) as Hn.
  rewrite (fetched_conflict_is_server_conflict db previous _ _ _ _
             E1 E2 Hc Hrows) in Hn.
  unfold BookPageSubmit.handleSubmit. rewrite E1, E2, E3, E4. cbn [orb].
  unfold BookingService.createBooking, BookingService.checkBookingConflict,
    BookingService.rpc_check_booking_conflict.
  cbn [BookingService.ins_game_id BookingService.ins_booking_date
       BookingService.ins_start_time BookingService.ins_end_time].
  rewrite Hn. cbn [BookingService.insert_booking].
  eexists. split; [reflexivity|]. repeat split.
Qed.

Lemma accepted_selection_is_inserted_witness :
  exists b,
    BookPageSubmit.handleSubmit (Some "u2") Examples2.form BookPage.NoTimeError
      BookingService.Served BookingService.Served
      (Examples.oneBooking confirmed)
    = ({| BookingService.bookings :=
            (BookingService.bookings (Examples.oneBooking confirmed)
             ++ [b])%list;
          BookingService.next_id :=
            S (BookingService.next_id (Examples.oneBooking confirmed)) |},
       BookPageSubmit.ToastSuccess)
    /\ BookingService.start_time b = BookPageSubmit.startTime Examples2.form
    /\ BookingService.end_time b = BookPageSubmit.endTime Examples2.form
    /\ BookingService.id b
       = BookingService.next_id (Examples.oneBooking confirmed).
Proof.
  refine (accepted_selection_is_inserted defaultSettings
            (Examples.oneBooking confirmed) [] "u2" Examples2.form
            eq_refl eq_refl eq_refl eq_refl eq_refl _ _).
  - intros b [<- | []] _ _ _. reflexivity.
  - reflexivity.
Defined.

(** ** More on the generator and the time check *)

Section LoopEnds.

Import BookPage.

Lemma timeLoop_never_ends (fuel : nat) :
  forall m stop slot, slot <= 0 -> m < stop ->
                      timeLoop fuel m stop slot = None.
Proof.
  induction fuel as [|fuel IH]; intros m stop slot Hs Hm; simpl;
    rewrite (proj2 (Z.ltb_lt m stop) Hm); trivial.
  rewrite IH by lia. reflexivity.
Qed.

End LoopEnds.

(** X23. The loop of [generateTimeOptions] ends exactly when the slot is
    positive: over a non-empty window a positive slot gives the result
    with enough fuel, whereas a slot of 0 (which [validateSettings]
    lets through) or less never lets the loop end, whatever the fuel. *)
Theorem generateTimeOptions_ends_iff_positive_slot :
  forall (s : SystemSettings),
    is_24_7 s = true ->
    (0 < booking_slot_duration s ->
     exists l, forall fuel,
         (Spec.slotCount 0 1440 (booking_slot_duration s) <= fuel)%nat ->
         BookPage.generateTimeOptions fuel (Some s) = Some l)
    /\ (booking_slot_duration s <= 0 ->
        forall fuel, BookPage.generateTimeOptions fuel (Some s) = None).
Proof.
  intros s H247. split.
  - intros Hpos. eexists. intros fuel Hfuel.
    unfold BookPage.generateTimeOptions. rewrite H247.
    apply (timeLoop_enough (24 * 60) _ Hpos fuel 0 Hfuel).
  - intros Hneg fuel. unfold BookPage.generateTimeOptions. rewrite H247.
    apply timeLoop_never_ends; lia.
Qed.

Lemma generateTimeOptions_ends_iff_positive_slot_witness :
  exists l, forall fuel,
      (Spec.slotCount 0 1440 (booking_slot_duration settings_24_7) <= fuel)%nat ->
      BookPage.generateTimeOptions fuel (Some settings_24_7) = Some l.
Proof.
  refine (proj1 (generateTimeOptions_ends_iff_positive_slot settings_24_7 _) _).
  - reflexivity.
  - reflexivity.
Defined.



(** ** The notes written by the status wrappers *)

Section Notes.

Import BookingService.

Lemma orElse_not_empty (notes : option string) (fallback : string) :
  BookPage.isEmpty fallback = false ->
  exists n, orElse notes fallback = Some n /\ BookPage.isEmpty n = false
            /\ (forall given, notes = Some given ->
                              BookPage.isEmpty given = false -> n = given)
            /\ (notes = None \/ notes = Some "" -> n = fallback).
Proof.
  intros Hf. destruct notes as [[|c r]|]; cbn.
  - exists fallback. repeat split; trivial.
    intros given [= <-]. discriminate.
  - exists (String c r). repeat split; trivial.
    + now intros given [= <-].
    + intros [E | E]; discriminate E.
  - exists fallback. repeat split; trivial. intros given E. discriminate E.
Qed.

End Notes.

(** X25. For a booking that exists once, [markNoShow], [markCompleted]
    and [adminCancelBooking] always leave a non-empty note on it (the
    note given, or their standard text when none or an empty one is
    given) together with the new status, while [confirmBooking] changes
    the status and keeps the note the booking had. *)
Theorem status_wrappers_notes :
  forall (db : BookingService.Db) (bookingId : nat)
         (b : BookingService.Booking) (given : option string),
    filter (fun r => Nat.eqb (BookingService.id r) bookingId)
           (BookingService.bookings db) = [b] ->
    (exists db1 n,
       BookingService.markNoShow BookingService.Served db bookingId given
       = (db1, BookingService.Data
                 (BookingService.applyUpdate no_show (Some n) b))
       /\ BookPage.isEmpty n = false
       /\ (given = None \/ given = Some "" -> n = "Customer did not show up"))
    /\ (exists db2 n,
          BookingService.markCompleted BookingService.Served db bookingId given
          = (db2, BookingService.Data
                    (BookingService.applyUpdate completed (Some n) b))
          /\ BookPage.isEmpty n = false
          /\ (given = None \/ given = Some ""
              -> n = "Booking completed successfully"))
    /\ (exists db3 n,
          BookingService.adminCancelBooking BookingService.Served
                                            db bookingId given
          = (db3, BookingService.Data
                    (BookingService.applyUpdate canceled (Some n) b))
          /\ BookPage.isEmpty n = false
          /\ (given = None \/ given = Some "" -> n = "Cancelled by admin"))
    /\ (exists db4 b',
          BookingService.confirmBooking BookingService.Served db bookingId
          = (db4, BookingService.Data b')
          /\ BookingService.status b' = confirmed
          /\ BookingService.notes b' = BookingService.notes b).
Proof.
  intros db bookingId b given H.
  split; [|split; [|split]].
  - destruct (orElse_not_empty given "Customer did not show up" eq_refl)
      as (n & E & N & _ & D).
    unfold BookingService.markNoShow. rewrite E.
    destruct (update_served db bookingId b no_show (Some n) H) as (d & U & _).
    exists d, n. auto.
  - destruct (orElse_not_empty given "Booking completed successfully" eq_refl)
      as (n & E & N & _ & D).
    unfold BookingService.markCompleted. rewrite E.
    destruct (update_served db bookingId b completed (Some n) H)
      as (d & U & _).
    exists d, n. auto.
  - destruct (orElse_not_empty given "Cancelled by admin" eq_refl)
      as (n & E & N & _ & D).
    unfold BookingService.adminCancelBooking. rewrite E.
    destruct (update_served db bookingId b canceled (Some n) H) as (d & U & _).
    exists d, n. auto.
  - unfold BookingService.confirmBooking.
    destruct (update_served db bookingId b confirmed None H) as (d & U & _).
    exists d, (BookingService.applyUpdate confirmed None b). auto.
Qed.

Lemma status_wrappers_notes_witness :
  exists db1 n,
    BookingService.markNoShow BookingService.Served
      (Examples.oneBooking confirmed) 0 None
    = (db1, BookingService.Data
              (BookingService.applyUpdate no_show (Some n)
                 (Examples.booking 0 confirmed)))
    /\ BookPage.isEmpty n = false
    /\ (@None string = None \/ None = Some "" -> n = "Customer did not show up").
Proof.
  refine (proj1 (status_wrappers_notes (Examples.oneBooking confirmed) 0
                   (Examples.booking 0 confirmed) None _)).
  reflexivity.
Defined.
